(** * ghexport: monthly GitHub activity reports

    A shallow embedding of the report pipeline of [tobrien/ghexport]:
    the shared repository driver ([src/lib/github.ts], [processRepositories]
    and [parseCommandLineArgs]), the commit report ([getMonthlyCommitActivity]
    and its [generateMonthlyReport]) and the issue report ([determineOperation],
    [getMonthlyIssueActivity] and its [generateMonthlyReport]).

    JavaScript values are modelled as follows.
    - A [number] that holds a time value is [option Z]: [None] is [NaN].
    - A [string] is a Stdlib [string]; one character stands for one code unit.
    - A [Date] is its time value in milliseconds since the epoch, or [NaN]
      for an Invalid Date.
    - [null] and [undefined] are [None].
    - Asynchronous calls are awaited one after the other in the source, so
      they are modelled as sequential steps of a state-and-exception monad. *)

From Stdlib Require Import ZArith QArith Lia List Sorting.Sorted Sorting.Permutation.
From stdpp Require Import base option list strings gmap pretty.

Local Open Scope string_scope.
Local Open Scope Z_scope.

(** ** JavaScript numbers and dates (ECMA-262, section "Date Objects") *)

Module JS.

(** A number that is an integer or [NaN]. *)
Definition number := option Z.

Definition NaN : number := None.

(** [a === b] on numbers: [NaN] equals nothing, not even itself. *)
Definition strict_eq (a b : number) : bool :=
  match a, b with
  | Some x, Some y => x =? y
  | _, _ => false
  end.

(** [a < b], [a <= b], [a >= b]: false as soon as one side is [NaN]. *)
Definition lt (a b : number) : bool :=
  match a, b with
  | Some x, Some y => x <? y
  | _, _ => false
  end.

Definition le (a b : number) : bool :=
  match a, b with
  | Some x, Some y => x <=? y
  | _, _ => false
  end.

Definition ge (a b : number) : bool := le b a.

Definition sub (a b : number) : number :=
  match a, b with
  | Some x, Some y => Some (x - y)
  | _, _ => None
  end.

(** [a / b] for an integer divisor that is not zero: the exact quotient. *)
Definition div_by (a : number) (b : Z) : option Q :=
  match a with
  | Some x => Some (Qmake x 1 / Qmake b 1)%Q
  | None => None
  end.

(** [q >= n] for a quotient [q] and an integer [n].  The source computes
    the quotient in double precision; rounding is monotone and keeps the
    integers in reach exact, so the comparison with an integer comes out
    as on the exact quotient. *)
Definition quot_ge (q : option Q) (n : Z) : bool :=
  match q with
  | Some x => Qle_bool (Qmake n 1) x
  | None => false
  end.

Definition msPerDay : Z := 86400000.

Definition Day (t : Z) : Z := t / msPerDay.

Definition TimeWithinDay (t : Z) : Z := t mod msPerDay.

Definition DaysInYear (y : Z) : Z :=
  if negb (y mod 4 =? 0) then 365
  else if negb (y mod 100 =? 0) then 366
  else if negb (y mod 400 =? 0) then 365
  else 366.

Definition DayFromYear (y : Z) : Z :=
  365 * (y - 1970) + (y - 1969) / 4 - (y - 1901) / 100 + (y - 1601) / 400.

Definition TimeFromYear (y : Z) : Z := msPerDay * DayFromYear y.

(** The largest [y] with [TimeFromYear y <= t]: a first guess from the
    400-year cycle of 146097 days, which is off by one year at most. *)
Definition YearFromTime (t : Z) : Z :=
  let d := Day t in
  let y := 1970 + (400 * d) / 146097 in
  if DayFromYear (y + 1) <=? d then y + 1
  else if d <? DayFromYear y then y - 1
  else y.

Definition InLeapYear (t : Z) : Z :=
  if DaysInYear (YearFromTime t) =? 366 then 1 else 0.

Definition DayWithinYear (t : Z) : Z := Day t - DayFromYear (YearFromTime t).

(** Number of days of the year before month [m] (0 is January). *)
Definition DaysBeforeMonth (leap m : Z) : Z :=
  match m with
  | 0 => 0
  | 1 => 31
  | 2 => 59 + leap
  | 3 => 90 + leap
  | 4 => 120 + leap
  | 5 => 151 + leap
  | 6 => 181 + leap
  | 7 => 212 + leap
  | 8 => 243 + leap
  | 9 => 273 + leap
  | 10 => 304 + leap
  | 11 => 334 + leap
  | _ => 365 + leap
  end.

Definition MonthFromTime (t : Z) : Z :=
  let d := DayWithinYear t in
  let leap := InLeapYear t in
  if d <? DaysBeforeMonth leap 1 then 0
  else if d <? DaysBeforeMonth leap 2 then 1
  else if d <? DaysBeforeMonth leap 3 then 2
  else if d <? DaysBeforeMonth leap 4 then 3
  else if d <? DaysBeforeMonth leap 5 then 4
  else if d <? DaysBeforeMonth leap 6 then 5
  else if d <? DaysBeforeMonth leap 7 then 6
  else if d <? DaysBeforeMonth leap 8 then 7
  else if d <? DaysBeforeMonth leap 9 then 8
  else if d <? DaysBeforeMonth leap 10 then 9
  else if d <? DaysBeforeMonth leap 11 then 10
  else 11.

Definition DateFromTime (t : Z) : Z :=
  DayWithinYear t - DaysBeforeMonth (InLeapYear t) (MonthFromTime t) + 1.

(** [MakeDay(year, month, date)]: the day number of the first of the
    month, plus [date - 1].  Months outside 0..11 carry into the year. *)
Definition MakeDay (year month date : Z) : Z :=
  let ym := year + month / 12 in
  let mn := month mod 12 in
  let leap := if DaysInYear ym =? 366 then 1 else 0 in
  DayFromYear ym + DaysBeforeMonth leap mn + date - 1.

Definition MakeDate (day time : Z) : Z := day * msPerDay + time.

(** [TimeClip]: a time value further than 8.64e15 ms from the epoch is
    [NaN]. *)
Definition maxTime : Z := 8640000000000000.

Definition TimeClip (t : Z) : number :=
  if Z.abs t <=? maxTime then Some t else NaN.

Record Date := mkDate { getTime : number }.

Definition InvalidDate : Date := mkDate NaN.

End JS.

(** ** Errors and the answers of calls that may throw *)

Record Error := mkError { Error_message : string }.

(** [Diverge] is not a behaviour of the program: it is what the model
    answers when the fuel given to a [while] loop runs out. *)
Inductive outcome (A : Type) :=
| Return (a : A)
| Throw (e : Error)
| Diverge.
Arguments Return {A} a.
Arguments Throw {A} e.
Arguments Diverge {A}.

(** ** The host: what Node.js, the locale and the file system decide *)

(** [LocalTZA t isUTC] is the offset of the local time zone from UTC, in
    milliseconds, at the time [t], which is a UTC time when [isUTC] is true
    and a local time otherwise (ECMA-262, "LocalTZA"): in a zone with
    daylight saving the offset changes with [t].  [Date_parse] is
    [new Date(s).getTime()] on a string.  The [toLocale...] fields are the
    calls the source makes, with its options.  [sortOrder] is the order in
    which [Array.prototype.sort] leaves an array whose comparator does not
    order the elements consistently: ECMA-262 leaves that order to the
    engine, which sees the elements through the answers of the comparator
    only.  The last three fields say which paths the file system refuses,
    and what a refused write leaves of the file: [fs.writeFile] opens the
    file for writing, which creates or empties it, before it writes. *)
Class Host := {
  LocalTZA : Z → bool → Z;
  Date_parse : string → JS.number;
  toLocaleDateString : JS.Date → string;
  toLocaleTimeString : JS.Date → string;
  toLocaleMonthName : JS.Date → string;
  toLowerCase : string → string;
  parseInt : string → JS.number;
  path_join : list string → string;
  path_dirname : string → string;
  sortOrder : list (list JS.number) → list nat;
  mkdir_error : string → option Error;
  writeFile_error : string → option Error;
  writeFile_leaves : string → string → option string
}.

Inductive ActivityType := act_commits | act_issues.

Definition ActivityType_name (a : ActivityType) : string :=
  match a with act_commits => "commits" | act_issues => "issues" end.

(** The configuration module ([../config.js], [./config.js]) is not part of
    the sources at hand: its functions are taken as they are. *)
Class Config := {
  ActivityConfig : Type;
  OwnerConfig : Type;
  configDirectory : string;
  activityDirectory : string;
  loadActivityConfig : string → outcome ActivityConfig;
  github_owner : ActivityConfig → ActivityType → string → option OwnerConfig;
  getGithubToken : OwnerConfig → option string;
  shouldGenerateActivity :
    ActivityConfig → string → string → Z → Z → ActivityType → bool
}.

(** ** The GitHub REST client *)

(** A date-time string in the ISO format of [toISOString] stands for its
    time value: [toISOString] and [new Date(iso)] are inverse of each other
    on valid dates. *)
Record ISOString := iso { iso_time : Z }.

Record Repo := mkRepo { repo_name : string }.

Record CommitStub := mkCommitStub { sha : string }.

Record CommitAuthor := mkCommitAuthor {
  author_date : option string;
  author_name : option string
}.

Record CommitStats := mkCommitStats {
  stats_additions : Z;
  stats_deletions : Z
}.

Record CommitDetail := mkCommitDetail {
  html_url : string;
  commit_author : option CommitAuthor;
  commit_message : string;
  commit_stats : option CommitStats;
  commit_files : option (list string)
}.

Record RawIssue := mkRawIssue {
  updated_at : option string;
  created_at : option string;
  closed_at : option string;
  raw_state_reason : option string;
  assignee_login : option string;
  raw_title : string;
  raw_number : Z;
  raw_state : string;
  user_login : option string;
  raw_body : option string;
  label_names : list string;
  milestone_title : option string
}.

(** The calls the source makes on the client.  Each one answers with its
    [data] or throws.  The first argument is the token the client was built
    with.  An instance is GitHub as it answers during one run, in which no
    request is sent twice as long as GitHub lists no repository and no
    commit twice; what GitHub answers at another time is another
    instance. *)
Class GitHub := {
  users_getAuthenticated : option string → outcome string;
  repos_listForAuthenticatedUser : option string → outcome (list Repo);
  repos_listCommits :
    option string → string → string → ISOString → ISOString → Z → Z →
    outcome (list CommitStub);
  repos_getCommit :
    option string → string → string → string → outcome CommitDetail;
  issues_listForRepo :
    option string → string → string → ISOString → ISOString → Z → string →
    outcome (list RawIssue)
}.

Inductive Request :=
| GetAuthenticated
| ListForAuthenticatedUser
| ListCommits (owner repo : string) (since until : ISOString) (page : Z)
| GetCommit (owner repo ref : string)
| ListForRepo (owner repo : string) (since until : ISOString).

(** ** State and the sequencing of awaited calls *)

Inductive Level := debug | info | warn | error.

(** The world a run acts on: the files and directories on disk, the lines
    handed to the logger, the requests sent to GitHub so far, the token of
    the module-level API client, and [process.argv.slice(2)]. *)
Record World := mkWorld {
  disk : gmap string string;
  directories : gset string;
  logged : list (Level * string);
  requests : list Request;
  octokit_auth : option string;
  argv : list string
}.

Definition M (A : Type) : Type := World → outcome A * World.

Definition ret {A} (a : A) : M A := fun w => (Return a, w).

Definition throw {A} (e : Error) : M A := fun w => (Throw e, w).

Definition bind {A B} (m : M A) (k : A → M B) : M B :=
  fun w =>
    match m w with
    | (Return a, w') => k a w'
    | (Throw e, w') => (Throw e, w')
    | (Diverge, w') => (Diverge, w')
    end.

Notation "'let*' x ':=' m 'in' k" := (bind m (fun x => k))
  (at level 10, x pattern, m at level 100, k at level 200).
Notation "m ';;' k" := (bind m (fun _ => k))
  (at level 100, k at level 200, right associativity).

(** [try { m } catch (error) { h error }] *)
Definition try_catch {A} (m : M A) (h : Error → M A) : M A :=
  fun w =>
    match m w with
    | (Throw e, w') => h e w'
    | r => r
    end.

(** The answer of a computation that touches nothing. *)
Definition lift {A} (r : outcome A) : M A := fun w => (r, w).

(** [await] of a call on the client: the request is sent, then answered. *)
Definition await {A} (req : Request) (answer : outcome A) : M A :=
  fun w =>
    (answer,
     mkWorld (disk w) (directories w) (logged w) (requests w ++ [req])
             (octokit_auth w) (argv w)).

Definition logger (l : Level) (msg : string) : M unit :=
  fun w =>
    (Return tt,
     mkWorld (disk w) (directories w) (logged w ++ [(l, msg)]) (requests w)
             (octokit_auth w) (argv w)).

Definition getOctokit : M (option string) :=
  fun w => (Return (octokit_auth w), w).

Definition setOctokit (auth : option string) : M unit :=
  fun w =>
    (Return tt,
     mkWorld (disk w) (directories w) (logged w) (requests w) auth (argv w)).

Definition process_argv : M (list string) := fun w => (Return (argv w), w).

(** [for (const x of l) { body x }]: a throw of the body leaves the loop. *)
Fixpoint for_of {A} (l : list A) (body : A → M unit) : M unit :=
  match l with
  | [] => ret tt
  | x :: l' => body x ;; for_of l' body
  end.

(** *** File system *)

Section FileSystem.
Context {host : Host}.

Definition existsSync (path : string) : M bool :=
  fun w => (Return (bool_decide (is_Some (disk w !! path))
                    || bool_decide (path ∈ directories w)), w).

(** [mkdir(path, { recursive: true })] *)
Definition mkdir (path : string) : M unit :=
  fun w =>
    match mkdir_error path with
    | Some e => (Throw e, w)
    | None =>
        (Return tt,
         mkWorld (disk w) ({[path]} ∪ directories w) (logged w) (requests w)
                 (octokit_auth w) (argv w))
    end.

(** [writeFile(path, content)].  A write that fails before the file is
    opened leaves the disk as it is ([writeFile_leaves] answers [None]);
    one that fails later leaves the file with what was written so far. *)
Definition writeFile (path content : string) : M unit :=
  fun w =>
    match writeFile_error path with
    | Some e =>
        (Throw e,
         match writeFile_leaves path content with
         | Some written =>
             mkWorld (<[path := written]> (disk w)) (directories w) (logged w)
                     (requests w) (octokit_auth w) (argv w)
         | None => w
         end)
    | None =>
        (Return tt,
         mkWorld (<[path := content]> (disk w)) (directories w) (logged w)
                 (requests w) (octokit_auth w) (argv w))
    end.
End FileSystem.

(** *** Strings and arrays *)

Definition newline : Ascii.ascii := Ascii.ascii_of_nat 10.
Definition comma : Ascii.ascii := Ascii.ascii_of_nat 44.
Definition semicolon : Ascii.ascii := Ascii.ascii_of_nat 59.
Definition space : Ascii.ascii := Ascii.ascii_of_nat 32.
Definition LF : string := String newline "".

(** [s.replace(/c/g, d)] for single characters [c] and [d]. *)
Fixpoint replaceAll (c d : Ascii.ascii) (s : string) : string :=
  match s with
  | EmptyString => EmptyString
  | String a s' =>
      String (if Ascii.eqb a c then d else a) (replaceAll c d s')
  end.

(** [s.replace(/\n/g, r)] for a replacement string [r]. *)
Fixpoint replaceNewlines (r : string) (s : string) : string :=
  match s with
  | EmptyString => EmptyString
  | String a s' =>
      (if Ascii.eqb a newline then r else String a "") ++ replaceNewlines r s'
  end.

(** [value || fallback] where [value] may be missing: the empty string is
    falsy too. *)
Definition or_else (value : option string) (fallback : string) : string :=
  match value with
  | Some s => if String.eqb s "" then fallback else s
  | None => fallback
  end.

(** [value || null] *)
Definition or_null (value : option string) : option string :=
  match value with
  | Some s => if String.eqb s "" then None else Some s
  | None => None
  end.

(** Truth value of a string that may be missing. *)
Definition truthy (value : option string) : bool :=
  match or_null value with Some _ => true | None => false end.

(** [`${n}`] and [n.toString()] for an integer. *)
Definition toString (n : Z) : string := pretty n.

(** [`${s}`] for a string that may be [null]. *)
Definition show (s : option string) : string :=
  match s with Some x => x | None => "null" end.

(** [l.join(sep)] *)
Definition join (sep : string) (l : list string) : string := String.concat sep l.

(** [l.sort(compare)] (ECMA-262, "Array.prototype.sort").  The comparator
    answers a number: a positive one puts its first argument after the
    second, zero and a negative one leave the two as they are.  Where the
    comparator orders the elements of the array consistently, as a
    difference of keys that are numbers does, the sort is stable and there
    is one list it can answer: the one [stableSort] builds.  Where it does
    not, as soon as one comparison answers [NaN], ECMA-262 leaves the order
    to the engine: the array is then rearranged in the order [sortOrder]
    of the host gives for the comparisons. *)
Section Sort.
Context {host : Host} {A : Type} (compare : A → A → JS.number).

Definition after (a b : A) : bool :=
  match compare a b with
  | Some v => 0 <? v
  | None => false
  end.

Fixpoint sort_insert (x : A) (l : list A) : list A :=
  match l with
  | [] => [x]
  | y :: l' => if after x y then y :: sort_insert x l' else x :: y :: l'
  end.

Fixpoint stableSort (l : list A) : list A :=
  match l with
  | [] => []
  | x :: l' => sort_insert x (stableSort l')
  end.

(** [compare a b <= 0] *)
Definition notAfter (a b : A) : bool :=
  match compare a b with
  | Some v => v <=? 0
  | None => false
  end.

(** The comparator orders the elements of [l] consistently: every
    comparison answers a number, swapping the arguments swaps the sign, and
    "not after" is transitive.  These are the conditions of a consistent
    comparator of ECMA-262, with the swap of the sign besides. *)
Definition consistent (l : list A) : bool :=
  forallb
    (fun a =>
       forallb
         (fun b =>
            match compare a b, compare b a with
            | Some v, Some v' =>
                (Z.sgn v =? - Z.sgn v')
                && forallb
                     (fun c =>
                        implb (notAfter a b && notAfter b c) (notAfter a c))
                     l
            | _, _ => false
            end)
         l)
    l.

(** The answers of the comparator on the elements of [l], row by row. *)
Definition comparisons (l : list A) : list (list JS.number) :=
  map (fun a => map (compare a) l) l.

Definition sort (l : list A) : list A :=
  if consistent l then stableSort l
  else
    let order := sortOrder (comparisons l) in
    if bool_decide (order ≡ₚ seq 0 (length l))
    then omap (fun i => l !! i) order
    else l.
End Sort.

(** *** Dates in the local time zone *)

Section Dates.
Context {host : Host}.

Definition LocalTime (t : Z) : Z := t + LocalTZA t true.

Definition UTC (t : Z) : Z := t - LocalTZA t false.

Definition getFullYear (d : JS.Date) : JS.number :=
  (fun t => JS.YearFromTime (LocalTime t)) <$> JS.getTime d.

Definition getMonth (d : JS.Date) : JS.number :=
  (fun t => JS.MonthFromTime (LocalTime t)) <$> JS.getTime d.

(** [new Date(year, month, date)]: local midnight of that day.  A year
    from 0 to 99 means 1900 + year. *)
Definition new_Date (year month date : Z) : JS.Date :=
  let yr := if (0 <=? year) && (year <=? 99) then 1900 + year else year in
  JS.mkDate (JS.TimeClip (UTC (JS.MakeDate (JS.MakeDay yr month date) 0))).

(** [new Date(s)] for a string [s]. *)
Definition new_Date_string (s : string) : JS.Date := JS.mkDate (Date_parse s).

(** [new Date(n)] for a time value [n]. *)
Definition new_Date_value (n : Z) : JS.Date := JS.mkDate (JS.TimeClip n).

Definition new_Date_ISO (s : ISOString) : JS.Date :=
  JS.mkDate (Some (iso_time s)).

(** [d.toISOString()] throws a RangeError on an Invalid Date. *)
Definition toISOString (d : JS.Date) : outcome ISOString :=
  match JS.getTime d with
  | Some t => Return (iso t)
  | None => Throw (mkError "Invalid time value")
  end.

(** The display form of a date the two reports share:
    [toLocaleDateString('en-US', ...) + ' ' + toLocaleTimeString('en-US', ...)]. *)
Definition displayDate (d : JS.Date) : string :=
  toLocaleDateString d ++ " " ++ toLocaleTimeString d.
End Dates.

(** ** [src/lib/github.ts]: command line and repository driver *)

Module Github.

Inductive Format := csv | nl.

Record CommandLineArgs := mkArgs {
  owner : string;
  year : Z;
  month : Z;
  omitRepo : option string;
  shouldReplace : bool;
  format : Format
}.

Definition dq : string := String (Ascii.ascii_of_nat 34) "".

Section Driver.
Context {host : Host} {conf : Config} {api : GitHub}.

(** The [for] loop of [parseCommandLineArgs] over [args], from index
    [i] on: [args] here is what is left from [i]. *)
Fixpoint parseLoop (args : list string) (omit : option string)
    (fmt : Format) (parsedArgs : list string)
    : outcome (option string * Format * list string) :=
  match args with
  | [] => Return (omit, fmt, parsedArgs)
  | a :: rest =>
      match rest with
      | next :: rest' =>
          if String.eqb a "--omit" then
            parseLoop rest' (Some next) fmt parsedArgs
          else if String.eqb a "--format" then
            let formatArg := toLowerCase next in
            if String.eqb formatArg "csv" then
              parseLoop rest' omit csv parsedArgs
            else if String.eqb formatArg "nl" then
              parseLoop rest' omit nl parsedArgs
            else
              Throw (mkError ("Format must be either " ++ dq ++ "csv"
                              ++ dq ++ " or " ++ dq ++ "nl" ++ dq))
          else if negb (String.eqb a "--replace") then
            parseLoop rest omit fmt (parsedArgs ++ [a])
          else parseLoop rest omit fmt parsedArgs
      | [] =>
          if negb (String.eqb a "--replace") then
            parseLoop rest omit fmt (parsedArgs ++ [a])
          else parseLoop rest omit fmt parsedArgs
      end
  end.

Definition parseCommandLineArgs (args : list string)
    : outcome CommandLineArgs :=
  let replace := existsb (String.eqb "--replace") args in
  match parseLoop args None nl [] with
  | Return (omit, fmt, [ownerArg; yearStr; monthStr]) =>
      let invalid :=
        Throw (mkError
          ("Invalid year or month. Month should be between 1 and 12. "
           ++ "Supplied year: " ++ yearStr ++ " month: " ++ monthStr)) in
      match parseInt yearStr, parseInt monthStr with
      | Some y, Some m =>
          if (m <? 1) || (12 <? m) then invalid
          else Return (mkArgs ownerArg y m omit replace fmt)
      | _, _ => invalid
      end
  | Return _ =>
      Throw (mkError ("Usage: <script> <owner> <year> <month> "
                      ++ "[--omit repo-name] [--format csv|nl] [--replace]"))
  | Throw e => Throw e
  | Diverge => Diverge
  end.

Definition activityYaml : string :=
  path_join [configDirectory; "activity.yaml"].

Definition initializeGithubClient (owner : string)
    (activityType : ActivityType) : M string :=
  let* activityConfig := lift (loadActivityConfig activityYaml) in
  match github_owner activityConfig activityType
          (if String.eqb owner "self" then "tobrien" else owner) with
  | None =>
      throw (mkError ("Owner " ++ owner
                      ++ " not found in activity configuration"))
  | Some ownerConfig =>
      setOctokit (getGithubToken ownerConfig) ;;
      let* octokit := getOctokit in
      await GetAuthenticated (users_getAuthenticated octokit)
  end.

Definition outputPathOf (args : CommandLineArgs)
    (activityType : ActivityType) (authenticatedOwner : string)
    (repo : Repo) : string :=
  path_join [activityDirectory; "development"; toString (year args);
             toString (month args);
             authenticatedOwner ++ "-" ++ repo_name repo ++ "-github-"
             ++ ActivityType_name activityType ++ ".md"].

(** [omitRepo && repo.name === omitRepo] *)
Definition omitted (args : CommandLineArgs) (repo : Repo) : bool :=
  match or_null (omitRepo args) with
  | Some o => String.eqb (repo_name repo) o
  | None => false
  end.

(** One round of the [for] loop of [processRepositories]. *)
Definition processRepository (args : CommandLineArgs)
    (activityType : ActivityType)
    (generateReport : string → string → Z → Z → M (option string))
    (authenticatedOwner : string) (activityConfig : ActivityConfig)
    (repo : Repo) : M unit :=
  let outputPath := outputPathOf args activityType authenticatedOwner repo in
  let name := authenticatedOwner ++ "/" ++ repo_name repo in
  let* present := existsSync outputPath in
  if present && negb (shouldReplace args) then
    logger warn ("Skipping existing file " ++ outputPath
                 ++ ". Use --replace to overwrite.")
  else
    (if present then
       logger info ("Replacing existing file " ++ outputPath
                    ++ " as requested by --replace flag")
     else ret tt) ;;
    if omitted args repo then
      logger debug ("Skipping repository " ++ name
                    ++ " as requested by --omit flag")
    else if negb (shouldGenerateActivity activityConfig authenticatedOwner
                    (repo_name repo) (year args) (month args) activityType)
    then
      logger debug ("Skipping repository " ++ name
                    ++ " based on activity configuration")
    else
      logger info ("Generating monthly report for " ++ name ++ " in "
                   ++ toString (year args) ++ "-" ++ toString (month args)) ;;
      let* report :=
        generateReport authenticatedOwner (repo_name repo)
                       (year args) (month args) in
      if truthy report then
        mkdir (path_dirname outputPath) ;;
        logger info ("Writing report to " ++ outputPath) ;;
        writeFile outputPath (default "" report)
      else ret tt.

Definition processRepositories (args : CommandLineArgs)
    (activityType : ActivityType)
    (generateReport : string → string → Z → Z → M (option string))
    : M unit :=
  let* authenticatedOwner :=
    initializeGithubClient (owner args) activityType in
  let* activityConfig := lift (loadActivityConfig activityYaml) in
  let* octokit := getOctokit in
  let* repos :=
    await ListForAuthenticatedUser
          (repos_listForAuthenticatedUser octokit) in
  for_of repos
    (processRepository args activityType generateReport
                       authenticatedOwner activityConfig).
End Driver.

End Github.

(** ** The commit report *)

Module GithubCommits.

Record Commit := mkCommit {
  url : string;
  date : string;
  repo : string;
  message : string;
  author : string;
  additions : Z;
  deletions : Z;
  files : list string
}.

(** [escaped.length > 1024 ? escaped.substring(0, 1021) + '...' : escaped] *)
Definition truncate1024 (escaped : string) : string :=
  if (1024 <? String.length escaped)%nat
  then String.substring 0 1021 escaped ++ "..."
  else escaped.

(** [s.replace(/,/g, ';').replace(/\n/g, ' ')] *)
Definition escape (s : string) : string :=
  replaceAll newline space (replaceAll comma semicolon s).

Definition truncatedFiles (fs : list string) : list string :=
  if (50 <? length fs)%nat
  then take 49 fs
       ++ ["...and " ++ toString (Z.of_nat (length fs) - 49) ++ " more files"]
  else fs.

Definition csvHeader : string :=
  "Date,Owner,Repository,Author,Additions,Deletions,Files,Message".

Definition csvRow (owner : string) (commit : Commit) : string :=
  let escapedMessage := escape (message commit) in
  let truncatedMessage := truncate1024 escapedMessage in
  date commit ++ "," ++ owner ++ "," ++ repo commit ++ "," ++ author commit
  ++ "," ++ toString (additions commit) ++ "," ++ toString (deletions commit)
  ++ "," ++ Github.dq ++ join "," (truncatedFiles (files commit)) ++ Github.dq
  ++ "," ++ truncatedMessage.

Definition csvRows (owner : string) (commits : list Commit) : list string :=
  csvHeader :: map (csvRow owner) commits.

(** One [### Commit on ...] block of the natural-language report. *)
Definition commitSection (owner repo_ : string) (commit : Commit) : string :=
  "### Commit on " ++ date commit ++ " in repository " ++ owner ++ "/"
  ++ repo_ ++ " by " ++ author commit ++ LF
  ++ "- **Message:** " ++ message commit ++ LF
  ++ "- **Changes:** +" ++ toString (additions commit) ++ " -"
  ++ toString (deletions commit) ++ LF
  ++ (if (0 <? length (files commit))%nat then
        "- **Files Changed:**" ++ LF
        ++ String.concat ""
             (map (fun file => "  - " ++ file ++ LF)
                  (if (10 <? length (files commit))%nat
                   then take 10 (files commit) else files commit))
        ++ (if (10 <? length (files commit))%nat then
              "  - ...and "
              ++ toString (Z.of_nat (length (files commit)) - 10)
              ++ " more files" ++ LF
            else "")
      else "")
  ++ "- **URL:** " ++ url commit ++ LF ++ LF.

Definition reportBody (fmt : Github.Format) (owner repo_ monthName : string)
    (year : Z) (commits : list Commit) : string :=
  match fmt with
  | Github.csv =>
      "```csv" ++ LF ++ join LF (csvRows owner commits) ++ "```" ++ LF ++ LF
  | Github.nl =>
      let scope :=
        owner ++ "/" ++ repo_ ++ " for " ++ monthName ++ " " ++ toString year in
      let totalAdditions :=
        fold_left (fun sum commit => sum + additions commit) commits 0 in
      let totalDeletions :=
        fold_left (fun sum commit => sum + deletions commit) commits 0 in
      "## Summary for " ++ owner ++ "/" ++ repo_ ++ " in " ++ monthName ++ " "
      ++ toString year ++ LF
      ++ "Total commits in " ++ scope ++ ": "
      ++ toString (Z.of_nat (length commits)) ++ LF
      ++ "Total lines changed in " ++ scope ++ ": +" ++ toString totalAdditions
      ++ " -" ++ toString totalDeletions ++ LF ++ LF
      ++ "## Detailed Commits" ++ LF ++ LF
      ++ String.concat "" (map (commitSection owner repo_) commits)
  end.

Section Fetch.
Context {host : Host} {conf : Config} {api : GitHub}.

(** The [while (hasNextPage)] loop, entered with [page] and the
    commits collected so far. *)
Fixpoint fetchPages (fuel : nat) (octokit : option string)
    (owner repo_ : string) (startDate endDate : ISOString) (page : Z)
    (allCommits : list CommitStub) : M (list CommitStub) :=
  match fuel with
  | O => lift Diverge
  | S fuel' =>
      let* response :=
        await (ListCommits owner repo_ startDate endDate page)
              (repos_listCommits octokit owner repo_ startDate endDate
                                 100 page) in
      let allCommits' := (allCommits ++ response)%list in
      if (length response <? 100)%nat then ret allCommits'
      else fetchPages fuel' octokit owner repo_ startDate endDate
                      (page + 1) allCommits'
  end.

(** The record pushed for one commit detail. *)
Definition commitOf (repo_ : string) (detail : CommitDetail) : Commit :=
  let authorDate :=
    match or_null (commit_author detail ≫= author_date) with
    | Some s => new_Date_string s
    | None => new_Date_value 0
    end in
  mkCommit (html_url detail)
           (displayDate authorDate)
           repo_
           (commit_message detail)
           (or_else (commit_author detail ≫= author_name) "")
           (from_option stats_additions 0 (commit_stats detail))
           (from_option stats_deletions 0 (commit_stats detail))
           (default [] (commit_files detail)).

(** The [for (const commit of allCommits)] loop with its inner
    [try]/[catch]. *)
Fixpoint processCommits (octokit : option string) (owner repo_ : string)
    (allCommits : list CommitStub) (processedCommits : list Commit)
    : M (list Commit) :=
  match allCommits with
  | [] => ret processedCommits
  | commit :: rest =>
      let* processedCommits' :=
        try_catch
          (let* detail :=
             await (GetCommit owner repo_ (sha commit))
                   (repos_getCommit octokit owner repo_ (sha commit)) in
           ret (processedCommits ++ [commitOf repo_ detail])%list)
          (fun e =>
             logger error ("Error fetching details for commit "
                           ++ sha commit ++ ", skipping... "
                           ++ Error_message e) ;;
             ret processedCommits) in
      processCommits octokit owner repo_ rest processedCommits'
  end.

(** The comparator handed to [processedCommits.sort]. *)
Definition compareByDate (a b : Commit) : JS.number :=
  let dateA := new_Date_string (date a) in
  let dateB := new_Date_string (date b) in
  JS.sub (JS.getTime dateA) (JS.getTime dateB).

Definition getMonthlyCommitActivity (fuel : nat) (owner repo_ : string)
    (year month : Z) : M (list Commit) :=
  let* octokit := getOctokit in
  let* startDate := lift (toISOString (new_Date year (month - 1) 1)) in
  let* endDate := lift (toISOString (new_Date year month 0)) in
  try_catch
    (let* allCommits :=
       fetchPages fuel octokit owner repo_ startDate endDate 1 [] in
     let* processedCommits :=
       processCommits octokit owner repo_ allCommits [] in
     ret (sort compareByDate processedCommits))
    (fun e =>
       logger error ("Error fetching commits: " ++ Error_message e) ;;
       ret []).

Definition generateMonthlyReport (fuel : nat) (owner repo_ : string)
    (year month : Z) : M (option string) :=
  let* commits := getMonthlyCommitActivity fuel owner repo_ year month in
  let monthName := toLocaleMonthName (new_Date year (month - 1) 1) in
  if (length commits =? 0)%nat then
    logger debug ("No activity found for " ++ monthName ++ " "
                  ++ toString year) ;;
    ret None
  else
    let* args_ := process_argv in
    let* args := lift (Github.parseCommandLineArgs args_) in
    let report :=
      "# GitHub Commits in " ++ repo_ ++ " owned by " ++ owner ++ " for "
      ++ monthName ++ " " ++ toString year ++ LF ++ LF in
    ret (Some (report
               ++ reportBody (Github.format args) owner repo_ monthName
                             year commits)).

(** The exit status asked of [process.exit], if any. *)
Definition main (fuel : nat) : M (option Z) :=
  try_catch
    (let* args_ := process_argv in
     let* args := lift (Github.parseCommandLineArgs args_) in
     Github.processRepositories args act_commits
       (generateMonthlyReport fuel) ;;
     ret None)
    (fun e => logger error (Error_message e) ;; ret (Some 1)).
End Fetch.

End GithubCommits.

(** ** The issue report *)

Module GithubIssues.

Record Issue := mkIssue {
  updatedAt : option string;
  createdAt : option string;
  closedAt : option string;
  assignee : string;
  operation : string;
  repo : string;
  title : string;
  number : Z;
  state : string;
  author : string;
  body : string;
  labels : list string;
  milestone : string;
  state_reason : string
}.

Definition escape (s : string) : string :=
  replaceAll newline space (replaceAll comma semicolon s).

Definition truncate1024 (escaped : string) : string :=
  if (1024 <? String.length escaped)%nat
  then String.substring 0 1021 escaped ++ "..."
  else escaped.

Definition csvHeader : string :=
  "UpdateAt, CreatedAt, ClosedAt, Assignee, Owner, Repository, Author, "
  ++ "Title, State, Labels, Milestone, Body".

Definition csvRow (owner : string) (issue : Issue) : string :=
  let escapedBody := escape (body issue) in
  let truncatedBody := truncate1024 escapedBody in
  show (updatedAt issue) ++ "," ++ show (createdAt issue) ++ ","
  ++ or_else (closedAt issue) "" ++ "," ++ assignee issue ++ "," ++ owner
  ++ "," ++ repo issue ++ "," ++ author issue ++ "," ++ title issue ++ ","
  ++ state issue ++ "," ++ Github.dq ++ join "," (labels issue) ++ Github.dq
  ++ "," ++ milestone issue ++ "," ++ truncatedBody.

Definition csvRows (owner : string) (issues : list Issue) : list string :=
  csvHeader :: map (csvRow owner) issues.

(** One [### Issue #...] block of the natural-language report. *)
Definition issueSection (owner repo_ : string) (issue : Issue) : string :=
  "### Issue #" ++ toString (number issue) ++ " was " ++ operation issue
  ++ " on " ++ show (updatedAt issue) ++ " in repository " ++ owner ++ "/"
  ++ repo_ ++ " with title " ++ Github.dq ++ title issue ++ Github.dq ++ LF
  ++ (if bool_decide (createdAt issue = updatedAt issue) then ""
      else "- **Created on:** " ++ show (createdAt issue) ++ LF)
  ++ (if truthy (closedAt issue)
      then "- **Closed on:** " ++ show (closedAt issue) ++ LF else "")
  ++ "- **Author:** " ++ author issue ++ LF
  ++ "- **Assignee:** " ++ assignee issue ++ LF
  ++ "- **State:** " ++ state issue ++ LF
  ++ (if (0 <? length (labels issue))%nat
      then "- **Labels:** " ++ join ", " (labels issue) ++ LF else "")
  ++ (if String.eqb (milestone issue) "" then ""
      else "- **Milestone:** " ++ milestone issue ++ LF)
  ++ (if String.eqb (body issue) "" then ""
      else
        let truncatedBody :=
          if (500 <? String.length (body issue))%nat
          then String.substring 0 497 (body issue) ++ "..."
          else body issue in
        "- **Description:**" ++ LF ++ "  "
        ++ replaceNewlines (LF ++ "  ") truncatedBody ++ LF)
  ++ LF.

Definition reportBody (fmt : Github.Format) (owner repo_ monthName : string)
    (year : Z) (issues : list Issue) : string :=
  match fmt with
  | Github.csv =>
      "```csv" ++ LF ++ join LF (csvRows owner issues) ++ "```" ++ LF ++ LF
  | Github.nl =>
      let openIssues :=
        filter (fun issue => state issue = "open") issues in
      let closedIssues :=
        filter (fun issue => state issue = "closed") issues in
      "## Summary for " ++ owner ++ "/" ++ repo_ ++ " in " ++ monthName ++ " "
      ++ toString year ++ LF
      ++ "Total issues in " ++ owner ++ "/" ++ repo_ ++ " for " ++ monthName
      ++ " " ++ toString year ++ ": " ++ toString (Z.of_nat (length issues))
      ++ LF ++ LF
      ++ "- Open issues: " ++ toString (Z.of_nat (length openIssues)) ++ LF
      ++ "- Closed issues: " ++ toString (Z.of_nat (length closedIssues))
      ++ LF ++ LF
      ++ "## Detailed Issues" ++ LF ++ LF
      ++ String.concat "" (map (issueSection owner repo_) issues)
  end.

Section Fetch.
Context {host : Host} {conf : Config} {api : GitHub}.

Definition formatDateTime (date : option string) : option string :=
  match or_null date with
  | None => None
  | Some s => Some (displayDate (new_Date_string s))
  end.

(** The helper [inSameMonth] of [determineOperation]. *)
Definition inSameMonth (date1 date2 : JS.Date) : bool :=
  JS.strict_eq (getFullYear date1) (getFullYear date2)
  && JS.strict_eq (getMonth date1) (getMonth date2).

Definition determineOperation (updatedAt_ createdAt_ : JS.Date)
    (closedAt_ : option JS.Date) (stateReason : option string) : string :=
  let closeOperation :=
    if bool_decide (stateReason = Some "reopened") then "Reopened"
    else if bool_decide (stateReason = Some "completed") then "Completed"
    else if bool_decide (stateReason = Some "not_planned") then "Ignored"
    else "Closed" in
  match closedAt_ with
  | Some closed =>
      if inSameMonth createdAt_ closed
      then "Created and " ++ closeOperation
      else closeOperation
  | None =>
      if inSameMonth createdAt_ updatedAt_ then
        if JS.strict_eq (JS.getTime createdAt_) (JS.getTime updatedAt_)
        then "Created"
        else
          let daysBetween :=
            JS.div_by (JS.sub (JS.getTime updatedAt_) (JS.getTime createdAt_))
                      (1000 * 60 * 60 * 24) in
          if JS.quot_ge daysBetween 1 then "Updated a New Issue"
          else "Created"
      else if JS.lt (JS.getTime createdAt_) (JS.getTime updatedAt_)
      then "Updated"
      else "Updated"
  end.

(** The predicate handed to [issues.data.filter]. *)
Definition inWindow (startDate endDate : ISOString) (issue : RawIssue)
    : bool :=
  let updated := new_Date_string (or_else (updated_at issue) "") in
  JS.ge (JS.getTime updated) (JS.getTime (new_Date_ISO startDate))
  && JS.le (JS.getTime updated) (JS.getTime (new_Date_ISO endDate)).

(** The comparator handed to [sort]. *)
Definition compareByUpdate (a b : RawIssue) : JS.number :=
  let dateA := new_Date_string (or_else (updated_at a) "") in
  let dateB := new_Date_string (or_else (updated_at b) "") in
  JS.sub (JS.getTime dateA) (JS.getTime dateB).

(** The function handed to [map]. *)
Definition issueOf (repo_ : string) (issue : RawIssue) : Issue :=
  let updated := new_Date_string (or_else (updated_at issue) "") in
  let created := new_Date_string (or_else (created_at issue) "") in
  let closed :=
    match or_null (closed_at issue) with
    | Some s => Some (new_Date_string s)
    | None => None
    end in
  let operation_ :=
    determineOperation updated created closed
                       (or_null (raw_state_reason issue)) in
  mkIssue (formatDateTime (updated_at issue))
          (formatDateTime (created_at issue))
          (formatDateTime (closed_at issue))
          (or_else (assignee_login issue) "unassigned")
          operation_
          repo_
          (raw_title issue)
          (raw_number issue)
          (raw_state issue)
          (or_else (user_login issue) "")
          (or_else (raw_body issue) "")
          (label_names issue)
          (or_else (milestone_title issue) "")
          (or_else (raw_state_reason issue) "").

Definition getMonthlyIssueActivity (owner repo_ : string) (year month : Z)
    : M (list Issue) :=
  let* octokit := getOctokit in
  let* startDate := lift (toISOString (new_Date year (month - 1) 1)) in
  let* endDate := lift (toISOString (new_Date year month 0)) in
  try_catch
    (let* issues :=
       await (ListForRepo owner repo_ startDate endDate)
             (issues_listForRepo octokit owner repo_ startDate endDate
                                 100 "all") in
     ret (map (issueOf repo_)
              (sort compareByUpdate
                    (List.filter (inWindow startDate endDate) issues))))
    (fun e =>
       logger error ("Error fetching commits: " ++ Error_message e) ;;
       ret []).

Definition generateMonthlyReport (owner repo_ : string) (year month : Z)
    : M (option string) :=
  let* issues := getMonthlyIssueActivity owner repo_ year month in
  let monthName := toLocaleMonthName (new_Date year (month - 1) 1) in
  if (length issues =? 0)%nat then
    logger debug ("No activity found for " ++ monthName ++ " "
                  ++ toString year) ;;
    ret None
  else
    let* args_ := process_argv in
    let* args := lift (Github.parseCommandLineArgs args_) in
    let report :=
      "# GitHub Issues in " ++ repo_ ++ " owned by " ++ owner ++ " for "
      ++ monthName ++ " " ++ toString year ++ LF ++ LF in
    ret (Some (report
               ++ reportBody (Github.format args) owner repo_ monthName
                             year issues)).

(** The exit status asked of [process.exit], if any. *)
Definition main : M (option Z) :=
  try_catch
    (let* args_ := process_argv in
     let* args := lift (Github.parseCommandLineArgs args_) in
     Github.processRepositories args act_issues generateMonthlyReport ;;
     ret None)
    (fun e => logger error (Error_message e) ;; ret (Some 1)).
End Fetch.

End GithubIssues.

(** ** A host for the examples: Node.js in UTC with the en-US locale *)

Module Example.

Definition digit (c : Ascii.ascii) : option Z :=
  let n := Z.of_nat (Ascii.nat_of_ascii c) in
  if (48 <=? n) && (n <=? 57) then Some (n - 48) else None.

(** The value of a string of decimal digits, after [acc]. *)
Fixpoint digits (s : string) (acc : Z) : option Z :=
  match s with
  | EmptyString => Some acc
  | String c s' =>
      match digit c with
      | Some d => digits s' (10 * acc + d)
      | None => None
      end
  end.

Definition number_of (s : string) : option Z :=
  if String.eqb s "" then None else digits s 0.

Definition pad2 (n : Z) : string :=
  if n <? 10 then "0" ++ toString n else toString n.

(** [YYYY-MM-DDTHH:mm:ssZ], the form GitHub answers with. *)
Definition parseISO (s : string) : JS.number :=
  let sub := fun i n => String.substring i n s in
  if (String.length s =? 20)%nat
     && String.eqb (sub 4 1)%nat "-" && String.eqb (sub 7 1)%nat "-"
     && String.eqb (sub 10 1)%nat "T" && String.eqb (sub 13 1)%nat ":"
     && String.eqb (sub 16 1)%nat ":" && String.eqb (sub 19 1)%nat "Z"
  then
    match number_of (sub 0 4)%nat, number_of (sub 5 2)%nat,
          number_of (sub 8 2)%nat, number_of (sub 11 2)%nat,
          number_of (sub 14 2)%nat, number_of (sub 17 2)%nat with
    | Some y, Some mo, Some d, Some h, Some mi, Some se =>
        if (1 <=? mo) && (mo <=? 12) && (1 <=? d) && (d <=? 31)
           && (h <=? 23) && (mi <=? 59) && (se <=? 59)
        then
          JS.TimeClip
            (JS.MakeDate (JS.MakeDay y (mo - 1) d)
                         (h * 3600000 + mi * 60000 + se * 1000))
        else JS.NaN
    | _, _, _, _, _, _ => JS.NaN
    end
  else JS.NaN.

(** [MM/DD/YYYY h:mm AM], the display form, read as a time in UTC. *)
Definition parseDisplay (s : string) : JS.number :=
  let sub := fun i n => String.substring i n s in
  let k := (String.length s - 18)%nat in
  if ((String.length s =? 18)%nat || (String.length s =? 19)%nat)
     && String.eqb (sub 2 1)%nat "/" && String.eqb (sub 5 1)%nat "/"
     && String.eqb (sub 10 1)%nat " " && String.eqb (sub (12 + k) 1)%nat ":"
     && String.eqb (sub (15 + k) 1)%nat " "
  then
    match number_of (sub 0 2)%nat, number_of (sub 3 2)%nat,
          number_of (sub 6 4)%nat, number_of (sub 11 (1 + k))%nat,
          number_of (sub (13 + k) 2)%nat with
    | Some mo, Some d, Some y, Some h, Some mi =>
        let pm := String.eqb (sub (16 + k) 2)%nat "PM" in
        let am := String.eqb (sub (16 + k) 2)%nat "AM" in
        if (1 <=? mo) && (mo <=? 12) && (1 <=? d) && (d <=? 31)
           && (1 <=? h) && (h <=? 12) && (mi <=? 59) && (am || pm)
        then
          JS.TimeClip
            (JS.MakeDate (JS.MakeDay y (mo - 1) d)
                         ((h mod 12 + (if pm then 12 else 0)) * 3600000
                          + mi * 60000))
        else JS.NaN
    | _, _, _, _, _ => JS.NaN
    end
  else JS.NaN.

Definition parse (s : string) : JS.number :=
  match parseISO s with
  | Some t => Some t
  | None => parseDisplay s
  end.

Definition dateString (d : JS.Date) : string :=
  match JS.getTime d with
  | None => "Invalid Date"
  | Some t =>
      pad2 (JS.MonthFromTime t + 1) ++ "/" ++ pad2 (JS.DateFromTime t) ++ "/"
      ++ toString (JS.YearFromTime t)
  end.

Definition timeString (d : JS.Date) : string :=
  match JS.getTime d with
  | None => "Invalid Date"
  | Some t =>
      let h := JS.TimeWithinDay t / 3600000 in
      let mi := (JS.TimeWithinDay t mod 3600000) / 60000 in
      toString (if h mod 12 =? 0 then 12 else h mod 12) ++ ":" ++ pad2 mi
      ++ (if h <? 12 then " AM" else " PM")
  end.

Definition monthName (d : JS.Date) : string :=
  match JS.getTime d with
  | None => "Invalid Date"
  | Some t =>
      nth (Z.to_nat (JS.MonthFromTime t))
          ["January"; "February"; "March"; "April"; "May"; "June"; "July";
           "August"; "September"; "October"; "November"; "December"] ""
  end.

Definition lower (c : Ascii.ascii) : Ascii.ascii :=
  let n := Ascii.nat_of_ascii c in
  if (65 <=? n)%nat && (n <=? 90)%nat then Ascii.ascii_of_nat (n + 32) else c.

Fixpoint lowerCase (s : string) : string :=
  match s with
  | EmptyString => EmptyString
  | String c s' => String (lower c) (lowerCase s')
  end.

(** The leading decimal digits of [s]; no sign, no white space. *)
Fixpoint leadingDigits (s : string) (acc : option Z) : option Z :=
  match s with
  | EmptyString => acc
  | String c s' =>
      match digit c with
      | Some d => leadingDigits s' (Some (10 * default 0 acc + d))
      | None => acc
      end
  end.

Fixpoint beforeLastSlash (s : string) : option string :=
  match s with
  | EmptyString => None
  | String c s' =>
      match beforeLastSlash s' with
      | Some p => Some (String c p)
      | None => if Ascii.eqb c (Ascii.ascii_of_nat 47) then Some "" else None
      end
  end.

Definition dirname (path : string) : string :=
  match beforeLastSlash path with
  | Some p => if String.eqb p "" then "/" else p
  | None => "."
  end.

(** The host refuses to write the paths [readOnly] selects, before it
    opens the file, and leaves an array it cannot sort as it is. *)
Definition host (readOnly : string → bool) : Host := {|
  LocalTZA := fun _ _ => 0;
  Date_parse := parse;
  toLocaleDateString := dateString;
  toLocaleTimeString := timeString;
  toLocaleMonthName := monthName;
  toLowerCase := lowerCase;
  parseInt := fun s => leadingDigits s None;
  path_join := String.concat "/";
  path_dirname := dirname;
  sortOrder := fun rows => seq 0 (length rows);
  mkdir_error := fun _ => None;
  writeFile_error := fun path =>
    if readOnly path
    then Some (mkError ("EACCES: permission denied, open " ++ path))
    else None;
  writeFile_leaves := fun _ _ => None
|}.

(** A configuration that knows every owner and excludes nothing. *)
Definition config : Config := {|
  ActivityConfig := unit;
  OwnerConfig := unit;
  configDirectory := "config";
  activityDirectory := "activity";
  loadActivityConfig := fun _ => Return tt;
  github_owner := fun _ _ _ => Some tt;
  getGithubToken := fun _ => Some "token";
  shouldGenerateActivity := fun _ _ _ _ _ _ => true
|}.

Definition activityConfig : @ActivityConfig config := tt.

(** A GitHub account: its login, its repositories, and per repository the
    pages of commits, the commit details and the issue list. *)
Record Account := mkAccount {
  login : string;
  repositories : list Repo;
  commitPage : string → Z → outcome (list CommitStub);
  commitDetail : string → string → outcome CommitDetail;
  issueList : string → outcome (list RawIssue)
}.

Definition github (a : Account) : GitHub := {|
  users_getAuthenticated := fun _ => Return (login a);
  repos_listForAuthenticatedUser := fun _ => Return (repositories a);
  repos_listCommits := fun _ _ repo_ _ _ _ page => commitPage a repo_ page;
  repos_getCommit := fun _ _ repo_ ref => commitDetail a repo_ ref;
  issues_listForRepo := fun _ _ repo_ _ _ _ _ => issueList a repo_
|}.

Definition world (args : list string) : World :=
  mkWorld ∅ ∅ [] [] None args.

Definition noneReadOnly : string → bool := fun _ => false.

(** Two commits of March 2024, listed latest first. *)
Definition marchDetail (ref : string) : outcome CommitDetail :=
  if String.eqb ref "c1" then
    Return (mkCommitDetail "https://github.com/acme/widgets/commit/c1"
              (Some (mkCommitAuthor (Some "2024-03-20T10:00:00Z") (Some "Ada")))
              "Fix parser, again" (Some (mkCommitStats 3 1))
              (Some ["src/parser.ts"]))
  else if String.eqb ref "c2" then
    Return (mkCommitDetail "https://github.com/acme/widgets/commit/c2"
              (Some (mkCommitAuthor (Some "2024-03-05T14:07:00Z") (Some "Ada")))
              "Bump version" (Some (mkCommitStats 1 1))
              (Some ["package.json"]))
  else Throw (mkError "Not Found").

(** The account [acme]: two repositories, each with the two commits above
    on its first page, and [issues] as the answer of the issue list. *)
Definition acme (issues : outcome (list RawIssue)) : Account :=
  mkAccount "acme" [mkRepo "widgets"; mkRepo "gadgets"]
    (fun _ page =>
       if page =? 1 then Return [mkCommitStub "c1"; mkCommitStub "c2"]
       else Return [])
    (fun _ => marchDetail)
    (fun _ => issues).

(** An account whose list calls throw, or answer nothing. *)
Definition silent (failing : bool) : Account :=
  mkAccount "acme" [mkRepo "widgets"]
    (fun _ _ => if failing then Throw (mkError "Bad Gateway") else Return [])
    (fun _ _ => Throw (mkError "Not Found"))
    (fun _ => if failing then Throw (mkError "Bad Gateway") else Return []).

(** A repository with a full first page of commits and a short second
    one. *)
Definition twoPages (page : Z) : list CommitStub :=
  if page =? 1 then repeat (mkCommitStub "c1") 100
  else [mkCommitStub "c1"; mkCommitStub "c2"].

Definition busy : Account :=
  mkAccount "acme" [mkRepo "widgets"]
    (fun _ page => Return (twoPages page))
    (fun _ => marchDetail)
    (fun _ => Return []).

(** Issues updated at noon of the last day of March 2024, in the middle
    of the month, and on its second day. *)
Definition lastDayIssue : RawIssue :=
  mkRawIssue (Some "2024-03-31T12:00:00Z") (Some "2024-03-01T08:00:00Z")
             None None None "Crash on start" 7 "open" (Some "ada")
             (Some "It crashes.") ["bug"] None.

Definition midMonthIssue : RawIssue :=
  mkRawIssue (Some "2024-03-15T09:00:00Z") (Some "2024-02-01T08:00:00Z")
             (Some "2024-03-15T09:00:00Z") (Some "completed") None
             "Wrong total" 5 "closed" (Some "bob") (Some "Sum is off.") []
             None.

Definition earlyIssue : RawIssue :=
  mkRawIssue (Some "2024-03-02T09:00:00Z") (Some "2024-03-02T09:00:00Z")
             None None None "Add export" 6 "open" (Some "ada") None [] None.

Definition march : list string := ["acme"; "2024"; "3"].

Definition utc : Host := host noneReadOnly.

(** The world before the run. *)
Definition w0 : World := world march.

(** 2024-03-01T00:00:00Z and 2024-03-31T00:00:00Z. *)
Definition marchStart : ISOString := iso 1709251200000.
Definition marchEnd : ISOString := iso 1711843200000.

Definition marchArgs : Github.CommandLineArgs :=
  Github.mkArgs "acme" 2024 3 None false Github.nl.

Definition widgetsCommitsPath : string :=
  "activity/development/2024/3/acme-widgets-github-commits.md".

Definition gadgetsCommitsPath : string :=
  "activity/development/2024/3/acme-gadgets-github-commits.md".

Fixpoint repeatString (n : nat) (s : string) : string :=
  match n with
  | O => ""
  | S n' => s ++ repeatString n' s
  end.

(** A commit with a message of 1025 characters and 51 files. *)
Definition longCommit : GithubCommits.Commit :=
  GithubCommits.mkCommit
    "https://github.com/acme/widgets/commit/c3" "03/05/2024 2:07 PM" "widgets"
    (repeatString 205 ("fix," ++ LF)) "Ada" 51 0
    (map (fun n => "src/f" ++ toString (Z.of_nat n) ++ ".ts") (seq 1 51)).


End Example.

(** ** Vocabulary of the properties *)

(** [contains c s]: the character [c] occurs in [s]. *)
Fixpoint contains (c : Ascii.ascii) (s : string) : bool :=
  match s with
  | EmptyString => false
  | String a s' => Ascii.eqb a c || contains c s'
  end.

Section Order.
Context {A : Type} (key : A → JS.number).

(** The comparator [(a, b) => key(a) - key(b)]. *)
Definition byKey (a b : A) : JS.number := JS.sub (key a) (key b).

(** [a] is not later than [b], as far as both keys are numbers. *)
Definition in_order (a b : A) : Prop :=
  match key a, key b with
  | Some x, Some y => x <= y
  | _, _ => True
  end.

(** Both keys are numbers and [a] is not later than [b]. *)
Definition ascending (a b : A) : Prop :=
  ∃ x y, key a = Some x ∧ key b = Some y ∧ x <= y.
End Order.

(** The words of the description of the issue classifier. *)
Module IssueSpec.
Section Words.
Context {host : Host}.

Definition baseLabel (stateReason : option string) : string :=
  if bool_decide (stateReason = Some "reopened") then "Reopened"
  else if bool_decide (stateReason = Some "completed") then "Completed"
  else if bool_decide (stateReason = Some "not_planned") then "Ignored"
  else "Closed".

(** Two dates fall in the same calendar month of the local time zone. *)
Definition sameCalendarMonth (a b : JS.Date) : bool :=
  match JS.getTime a, JS.getTime b with
  | Some x, Some y =>
      (JS.YearFromTime (LocalTime x) =? JS.YearFromTime (LocalTime y))
      && (JS.MonthFromTime (LocalTime x) =? JS.MonthFromTime (LocalTime y))
  | _, _ => false
  end.

Definition sameInstant (a b : JS.Date) : bool :=
  match JS.getTime a, JS.getTime b with
  | Some x, Some y => x =? y
  | _, _ => false
  end.

(** The gap from [created] to [updated] is one day or more. *)
Definition gapAtLeastOneDay (created updated : JS.Date) : bool :=
  match JS.getTime created, JS.getTime updated with
  | Some c, Some u => JS.msPerDay <=? u - c
  | _, _ => false
  end.

Definition spec_operation (updated created : JS.Date)
    (closed : option JS.Date) (stateReason : option string) : string :=
  match closed with
  | Some c =>
      if sameCalendarMonth created c
      then "Created and " ++ baseLabel stateReason
      else baseLabel stateReason
  | None =>
      if sameCalendarMonth created updated then
        if sameInstant created updated then "Created"
        else if gapAtLeastOneDay created updated then "Updated a New Issue"
        else "Created"
      else "Updated"
  end.
End Words.

Definition closedLabels : list string :=
  ["Closed"; "Reopened"; "Completed"; "Ignored"].
End IssueSpec.


Section Keys.
Context {host : Host}.

(** The display date of a commit record, parsed back into a time value. *)
Definition parsedDate (commit : GithubCommits.Commit) : JS.number :=
  JS.getTime (new_Date_string (GithubCommits.date commit)).

(** The time value of [updated_at]. *)
Definition updatedTime (issue : RawIssue) : JS.number :=
  JS.getTime (new_Date_string (or_else (updated_at issue) "")).
End Keys.

(** The world after the requests [reqs] have been sent, one after the
    other. *)
Definition sent (reqs : list Request) (w : World) : World :=
  mkWorld (disk w) (directories w) (logged w) (requests w ++ reqs)
          (octokit_auth w) (argv w).

(** One for a leap year, zero for another. *)
Definition leapDay (y : Z) : Z := if JS.DaysInYear y =? 366 then 1 else 0.

Section Window.
Context {host : Host}.

(** The year [new Date(year, ...)] takes [year] for. *)
Definition fullYear (year : Z) : Z :=
  if (0 <=? year) && (year <=? 99) then 1900 + year else year.

(** Local midnight at the start of the last day of month [month]
    (1 is January): the time value of [new Date(year, month, 0)]. *)
Definition lastMidnight (year month : Z) : Z :=
  UTC (JS.MakeDate (JS.MakeDay (fullYear year) month 0) 0).

(** The local time zone keeps the one offset [tza] from UTC: it has no
    daylight saving and never changed its offset. *)
Definition fixedZone (tza : Z) : Prop :=
  ∀ (t : Z) (isUTC : bool), LocalTZA t isUTC = tza.
End Window.

Section Rounds.
Context {host : Host} {conf : Config}.

(** The world one round of the driver's loop leaves behind, for each of
    the two reports. *)
Definition commitsRound (api : GitHub) (fuel : nat)
    (args : Github.CommandLineArgs) (authenticatedOwner : string)
    (activityConfig : ActivityConfig) (repo_ : Repo) (w : World) : World :=
  snd (Github.processRepository args act_commits
         (GithubCommits.generateMonthlyReport fuel) authenticatedOwner
         activityConfig repo_ w).

Definition issuesRound (api : GitHub) (args : Github.CommandLineArgs)
    (authenticatedOwner : string) (activityConfig : ActivityConfig)
    (repo_ : Repo) (w : World) : World :=
  snd (Github.processRepository args act_issues
         GithubIssues.generateMonthlyReport authenticatedOwner
         activityConfig repo_ w).
End Rounds.

(** What the worlds before and after a step have in common when the step
    only talks to GitHub and to the logger. *)
Definition same_data (w w' : World) : Prop :=
  disk w = disk w' ∧ directories w = directories w'
  ∧ octokit_auth w = octokit_auth w' ∧ argv w = argv w'.

(** A quiet computation leaves files, directories, token and arguments as
    they are, and its answer depends on nothing but token and arguments. *)
Definition quiet {A} (m : M A) : Prop :=
  (∀ w, same_data w (snd (m w)))
  ∧ (∀ w w', same_data w w' → fst (m w) = fst (m w')).

(** ** The backfill script: one run of a report module per owner and month *)

Module Backfill.

Section Script.
Context {host : Host}.

(** The [for] loop of the script's [parseCommandLineArgs], with the type
    read so far. *)
Fixpoint parseLoop (args : list string) (type : option ActivityType)
    : outcome (option ActivityType) :=
  match args with
  | [] => Return type
  | a :: rest =>
      match rest with
      | next :: rest' =>
          if String.eqb a "--type" then
            let typeArg := toLowerCase next in
            if String.eqb typeArg "issues" then parseLoop rest' (Some act_issues)
            else if String.eqb typeArg "commits" then
              parseLoop rest' (Some act_commits)
            else
              Throw (mkError ("Type must be either " ++ Github.dq ++ "issues"
                              ++ Github.dq ++ " or " ++ Github.dq ++ "commits"
                              ++ Github.dq))
          else parseLoop rest type
      | [] => parseLoop rest type
      end
  end.

Definition parseCommandLineArgs (args : list string) : outcome ActivityType :=
  match parseLoop args None with
  | Return (Some type) => Return type
  | Return None => Throw (mkError "Usage: --type [issues|commits]")
  | Throw e => Throw e
  | Diverge => Diverge
  end.

(** The [process.argv] that [runActivityModule] sets before it runs a
    report module. *)
Definition moduleArgv (node modulePath owner year month : string)
    : list string :=
  [node; modulePath; owner; year; month; "--format"; "nl"; "--replace"].

(** [isNaN(monthInt) || monthInt < 1 || monthInt > 12], negated: the month
    directories the script does not skip. *)
Definition monthKept (monthNum : string) : bool :=
  match parseInt monthNum with
  | Some monthInt => negb ((monthInt <? 1) || (12 <? monthInt))
  | None => false
  end.
End Script.

End Backfill.

(** An argument that [parseCommandLineArgs] of [github.ts] reads as an
    option. *)
Definition isFlag (a : string) : bool :=
  String.eqb a "--omit" || String.eqb a "--format" || String.eqb a "--replace".

Section Details.
Context {host : Host} {api : GitHub}.

(** The record of a listed commit, when the fetch of its detail answers. *)
Definition detailRecord (octokit : option string) (owner repo_ : string)
    (commit : CommitStub) : option GithubCommits.Commit :=
  match repos_getCommit octokit owner repo_ (sha commit) with
  | Return detail => Some (GithubCommits.commitOf repo_ detail)
  | _ => None
  end.

(** The error line logged for a listed commit, when the fetch of its detail
    throws. *)
Definition detailFailure (octokit : option string) (owner repo_ : string)
    (commit : CommitStub) : option (Level * string) :=
  match repos_getCommit octokit owner repo_ (sha commit) with
  | Throw e =>
      Some (error, "Error fetching details for commit " ++ sha commit
                   ++ ", skipping... " ++ Error_message e)
  | _ => None
  end.
End Details.

(** The days of month [mn] (0 is January) of year [y]. *)
Definition daysInMonth (y mn : Z) : Z :=
  JS.DaysBeforeMonth (leapDay y) (mn + 1) - JS.DaysBeforeMonth (leapDay y) mn.

Section RoundsOnDisk.
Context {host : Host} {conf : Config}.

(** The answer of [existsSync]. *)
Definition present (path : string) (w : World) : bool :=
  bool_decide (is_Some (disk w !! path)) || bool_decide (path ∈ directories w).

(** A round of the driver's loop skips its repository: the output file is
    there and [--replace] was not given, or the repository is the omitted
    one, or the configuration excludes it. *)
Definition skipped (args : Github.CommandLineArgs) (activityType : ActivityType)
    (authenticatedOwner : string) (activityConfig : ActivityConfig)
    (repo_ : Repo) (w : World) : bool :=
  (present (Github.outputPathOf args activityType authenticatedOwner repo_) w
   && negb (Github.shouldReplace args))
  || Github.omitted args repo_
  || negb (shouldGenerateActivity activityConfig authenticatedOwner
             (repo_name repo_) (Github.year args) (Github.month args)
             activityType).

(** The files and directories a round leaves, told from the world it
    starts in. *)
Definition leftOnDisk
    (generateReport : string → string → Z → Z → M (option string))
    (args : Github.CommandLineArgs) (activityType : ActivityType)
    (authenticatedOwner : string) (activityConfig : ActivityConfig)
    (repo_ : Repo) (w : World) : gmap string string * gset string :=
  let outputPath :=
    Github.outputPathOf args activityType authenticatedOwner repo_ in
  if skipped args activityType authenticatedOwner activityConfig repo_ w
  then (disk w, directories w)
  else
    match fst (generateReport authenticatedOwner (repo_name repo_)
                 (Github.year args) (Github.month args) w) with
    | Return report =>
        if truthy report then
          match mkdir_error (path_dirname outputPath),
                writeFile_error outputPath with
          | Some _, _ => (disk w, directories w)
          | None, Some _ =>
              (match writeFile_leaves outputPath (default "" report) with
               | Some written => <[outputPath := written]> (disk w)
               | None => disk w
               end,
               {[path_dirname outputPath]} ∪ directories w)
          | None, None =>
              (<[outputPath := default "" report]> (disk w),
               {[path_dirname outputPath]} ∪ directories w)
          end
        else (disk w, directories w)
    | _ => (disk w, directories w)
    end.
End RoundsOnDisk.

(** What the rounds of the driver for the repositories [repos] may have done
    to the files between the worlds [w] and [w']: no file is removed, and a
    path whose file is not as before is the output path of one of these
    repositories, one that is neither omitted nor excluded by the
    configuration, and either [--replace] was given or the path had no file
    before. *)
Definition touches {host : Host} {conf : Config} (args : Github.CommandLineArgs)
    (activityType : ActivityType) (authenticatedOwner : string)
    (activityConfig : ActivityConfig) (repos : list Repo) (w w' : World)
    : Prop :=
  (∀ path, is_Some (disk w !! path) → is_Some (disk w' !! path))
  ∧ (∀ path,
       disk w' !! path ≠ disk w !! path →
       ∃ repo_,
         repo_ ∈ repos
         ∧ path = Github.outputPathOf args activityType authenticatedOwner repo_
         ∧ Github.omitted args repo_ = false
         ∧ shouldGenerateActivity activityConfig authenticatedOwner
             (repo_name repo_) (Github.year args) (Github.month args)
             activityType = true
         ∧ (Github.shouldReplace args = true ∨ disk w !! path = None)).

(** The report generator that the [main] of each report module hands to
    the driver. *)
Definition generatorOf {host : Host} {conf : Config} {api : GitHub}
    (fuel : nat) (activityType : ActivityType)
    : string → string → Z → Z → M (option string) :=
  match activityType with
  | act_commits => GithubCommits.generateMonthlyReport fuel
  | act_issues => GithubIssues.generateMonthlyReport
  end.

(** The labels of a closed issue. *)
Definition closedIssueLabels : list string :=
  ["Closed"; "Reopened"; "Completed"; "Ignored"; "Created and Closed";
   "Created and Reopened"; "Created and Completed"; "Created and Ignored"].

(** The labels of an issue that is not closed. *)
Definition openIssueLabels : list string :=
  ["Created"; "Updated a New Issue"; "Updated"].

(** ** Further fixtures *)

Module Sample.
Import Example.

(** A configuration that knows no owner. *)
Definition strangers : Config := {|
  ActivityConfig := unit;
  OwnerConfig := unit;
  configDirectory := "config";
  activityDirectory := "activity";
  loadActivityConfig := fun _ => Return tt;
  github_owner := fun _ _ _ => None;
  getGithubToken := fun _ => Some "token";
  shouldGenerateActivity := fun _ _ _ _ _ _ => true
|}.

(** An account whose commit list answers a full first page and fails on
    the second. *)
Definition flaky : Account :=
  mkAccount "acme" [mkRepo "widgets"]
    (fun _ page =>
       if page =? 1 then Return (repeat (mkCommitStub "c1") 100)
       else Throw (mkError "Bad Gateway"))
    (fun _ => marchDetail)
    (fun _ => Return []).

(** The world of a second run: the commit report of [widgets] is there. *)
Definition written : World :=
  mkWorld {[widgetsCommitsPath := "# GitHub Commits in widgets"]} ∅ [] [] None
          march.

(** Three listed commits; the detail of the second is not found. *)
Definition listed : list CommitStub :=
  [mkCommitStub "c1"; mkCommitStub "gone"; mkCommitStub "c2"].

(** The report a generator returned, or the empty string. *)
Definition returned (run : outcome (option string) * World) : string :=
  match fst run with
  | Return (Some report) => report
  | _ => ""
  end.

(** An issue closed in the month it was created in, and touched later. *)
Definition closedIssue : RawIssue :=
  mkRawIssue (Some "2024-03-20T09:00:00Z") (Some "2024-03-02T08:00:00Z")
             (Some "2024-03-04T10:00:00Z") (Some "not_planned") None
             "Drop support" 8 "closed" (Some "bob") None [] None.

End Sample.

(** * Facts *)

(** ** The calendar *)

Module Calendar.
Import JS.

Lemma DayFromYear_bounds y :
  146097 * (y - 1970) - 800 <= 400 * DayFromYear y
  <= 146097 * (y - 1970) + 800.
Proof. unfold DayFromYear. Z.div_mod_to_equations. lia. Qed.

Lemma DayFromYear_succ y : DayFromYear (y + 1) = DayFromYear y + DaysInYear y.
Proof.
  unfold DayFromYear, DaysInYear.
  repeat match goal with
  | |- context [Z.eqb ?a ?b] => destruct (Z.eqb_spec a b); cbn [negb]
  end; Z.div_mod_to_equations; lia.
Qed.

Lemma DayFromYear_mono y y' : y <= y' → DayFromYear y <= DayFromYear y'.
Proof. unfold DayFromYear. intros. Z.div_mod_to_equations. lia. Qed.

(** [YearFromTime] is the year ECMA-262 asks for. *)
Lemma YearFromTime_spec t :
  DayFromYear (YearFromTime t) <= Day t < DayFromYear (YearFromTime t + 1).
Proof.
  unfold YearFromTime. generalize (Day t) as d. intros d. cbv zeta.
  set (y := 1970 + 400 * d / 146097).
  assert (146097 * (y - 1970) <= 400 * d < 146097 * (y - 1970) + 146097)
    by (unfold y; Z.div_mod_to_equations; lia).
  clearbody y.
  pose proof (DayFromYear_bounds (y - 1)).
  pose proof (DayFromYear_bounds (y + 1 + 1)).
  destruct (Z.leb_spec (DayFromYear (y + 1)) d); [lia |].
  destruct (Z.ltb_spec d (DayFromYear y)); [| lia].
  replace (y - 1 + 1) with y by lia. lia.
Qed.

Lemma YearFromTime_unique t y :
  DayFromYear y <= Day t < DayFromYear (y + 1) → YearFromTime t = y.
Proof.
  pose proof (YearFromTime_spec t) as Hspec. intros Hy.
  destruct (Z.lt_trichotomy y (YearFromTime t)) as [Hlt | [-> | Hgt]]; [| done |].
  - pose proof (DayFromYear_mono (y + 1) (YearFromTime t)). lia.
  - pose proof (DayFromYear_mono (YearFromTime t + 1) y). lia.
Qed.

Lemma DaysInYear_leapDay y : DaysInYear y = 365 + leapDay y.
Proof.
  unfold leapDay, DaysInYear.
  repeat match goal with
  | |- context [Z.eqb ?a ?b] => destruct (Z.eqb_spec a b); cbn [negb]
  end; lia.
Qed.

Lemma leapDay_range y : 0 <= leapDay y <= 1.
Proof. unfold leapDay. destruct (_ =? _); lia. Qed.

(** The first day of month [mn] of year [y], for a month of the year. *)
Lemma MakeDay_first y mn :
  0 <= mn <= 12 →
  MakeDay y mn 1 = DayFromYear y + DaysBeforeMonth (leapDay y) mn.
Proof.
  intros Hmn. unfold MakeDay. fold (leapDay (y + mn / 12)).
  destruct (Z.eq_dec mn 12) as [-> | Hne].
  - change (12 / 12) with 1. change (12 mod 12) with 0.
    rewrite DayFromYear_succ, DaysInYear_leapDay. simpl. lia.
  - rewrite Z.div_small, Z.mod_small by lia.
    replace (y + 0) with y by lia. lia.
Qed.

(** A time of month [mn] (0 is January) of year [y] is seen as such. *)
Lemma month_of_time y mn t :
  0 <= mn <= 11 →
  MakeDay y mn 1 <= Day t < MakeDay y (mn + 1) 1 →
  YearFromTime t = y ∧ MonthFromTime t = mn.
Proof.
  intros Hmn. rewrite !MakeDay_first by lia. intros Hday.
  pose proof (leapDay_range y) as Hleap.
  assert (YearFromTime t = y) as Hy.
  { apply YearFromTime_unique.
    rewrite DayFromYear_succ, DaysInYear_leapDay.
    assert (0 <= DaysBeforeMonth (leapDay y) mn
            ∧ DaysBeforeMonth (leapDay y) (mn + 1) <= 365 + leapDay y).
    { assert (mn = 0 ∨ mn = 1 ∨ mn = 2 ∨ mn = 3 ∨ mn = 4 ∨ mn = 5 ∨ mn = 6
              ∨ mn = 7 ∨ mn = 8 ∨ mn = 9 ∨ mn = 10 ∨ mn = 11) as Hcases by lia.
      repeat destruct Hcases as [-> | Hcases]; try subst mn; simpl; lia. }
    lia. }
  split; [done |].
  unfold MonthFromTime, DayWithinYear, InLeapYear. rewrite Hy. fold (leapDay y).
  assert (mn = 0 ∨ mn = 1 ∨ mn = 2 ∨ mn = 3 ∨ mn = 4 ∨ mn = 5 ∨ mn = 6
          ∨ mn = 7 ∨ mn = 8 ∨ mn = 9 ∨ mn = 10 ∨ mn = 11) as Hcases by lia.
  cbv zeta.
  repeat destruct Hcases as [-> | Hcases]; try subst mn; simpl in Hday |- *;
    repeat match goal with
    | |- context [Z.ltb ?a ?b] => destruct (Z.ltb_spec a b); try lia
    end.
Qed.

End Calendar.

(** ** Strings *)

Section StringFacts.
Implicit Types (s t : string) (c d : Ascii.ascii).

Lemma string_length_app s t :
  String.length (s ++ t) = (String.length s + String.length t)%nat.
Proof. induction s as [|a s IH]; simpl; [done | by rewrite IH]. Qed.

Lemma string_app_assoc s t u : (s ++ t) ++ u = s ++ t ++ u.
Proof.
  induction s as [|a s IH]; [done |].
  change (String a ((s ++ t) ++ u) = String a (s ++ t ++ u)). by rewrite IH.
Qed.

Lemma length_replaceAll c d s :
  String.length (replaceAll c d s) = String.length s.
Proof. induction s as [|a s IH]; simpl; [done | by rewrite IH]. Qed.

Lemma length_substring_0 n s :
  (n <= String.length s)%nat → String.length (String.substring 0 n s) = n.
Proof.
  revert s. induction n as [|n IH]; intros [|a s]; simpl; intros Hn;
    try done; try lia.
  rewrite IH; [done | lia].
Qed.



Lemma contains_replaceAll_same c d s :
  c ≠ d → contains c (replaceAll c d s) = false.
Proof.
  intros Hcd. induction s as [|a s IH]; simpl; [done |].
  rewrite IH, orb_false_r.
  destruct (Ascii.eqb_spec a c) as [-> | Hac]; by apply Ascii.eqb_neq.
Qed.

Lemma contains_replaceAll_other c d e s :
  e ≠ d → contains e s = false → contains e (replaceAll c d s) = false.
Proof.
  intros Hed. induction s as [|a s IH]; simpl; [done |].
  intros [Ha Hs]%orb_false_iff. rewrite IH, orb_false_r by done.
  destruct (Ascii.eqb a c); [| done]. apply Ascii.eqb_neq. congruence.
Qed.
End StringFacts.

(** ** Sorting with a comparator that subtracts keys *)

Section SortFacts.
Context {host : Host} {A : Type} (key : A → JS.number).

Lemma after_byKey a b :
  after (byKey key) a b = true
  ↔ ∃ x y, key a = Some x ∧ key b = Some y ∧ y < x.
Proof.
  unfold after, byKey, JS.sub.
  destruct (key a) as [x|], (key b) as [y|]; simpl;
    try (split; [done | by intros (? & ? & ? & ? & ?)]).
  rewrite Z.ltb_lt. split; [intros; exists x, y; repeat split; lia |].
  intros (x' & y' & [= <-] & [= <-] & ?). lia.
Qed.

Lemma not_after_in_order a b :
  after (byKey key) a b = false → in_order key a b.
Proof.
  unfold after, byKey, JS.sub, in_order.
  destruct (key a), (key b); simpl; try done. intros ?%Z.ltb_ge. lia.
Qed.

Lemma after_in_order a b : after (byKey key) a b = true → in_order key b a.
Proof.
  intros (x & y & Ha & Hb & Hlt)%after_byKey.
  unfold in_order. rewrite Ha, Hb. lia.
Qed.

Lemma sort_insert_Permutation compare (x : A) l :
  Permutation (sort_insert compare x l) (x :: l).
Proof.
  induction l as [|y l IH]; simpl; [done |].
  destruct (after compare x y); [| done].
  rewrite IH. apply perm_swap.
Qed.

Lemma stableSort_Permutation compare (l : list A) :
  Permutation (stableSort compare l) l.
Proof.
  induction l as [|x l IH]; simpl; [done |].
  by rewrite sort_insert_Permutation, IH.
Qed.

Lemma omap_lookup_shift (x : A) l k n :
  omap (λ i, (x :: l) !! i) (seq (S k) n) = omap (λ i, l !! i) (seq k n).
Proof.
  revert k. induction n as [|n IH]; intros k; [done |].
  cbn [seq omap list_omap]. by rewrite IH.
Qed.

Lemma omap_lookup_seq (l : list A) :
  omap (λ i, l !! i) (seq 0 (length l)) = l.
Proof.
  induction l as [|x l IH]; [done |].
  cbn [length seq omap list_omap lookup list_lookup].
  by rewrite omap_lookup_shift, IH.
Qed.

(** Whatever the comparator answers, [sort] rearranges: no element is lost
    and none is added. *)
Lemma sort_Permutation compare (l : list A) : Permutation (sort compare l) l.
Proof.
  unfold sort. destruct (consistent compare l);
    [apply stableSort_Permutation |].
  case_bool_decide as Horder; [| done].
  rewrite Horder. by rewrite omap_lookup_seq.
Qed.

Lemma sort_insert_HdRel x y l :
  in_order key y x → HdRel (in_order key) y l →
  HdRel (in_order key) y (sort_insert (byKey key) x l).
Proof.
  intros Hyx Hl. destruct l as [|z l]; simpl; [by constructor |].
  destruct (after (byKey key) x z); constructor; [by inversion Hl | done].
Qed.

Lemma sort_insert_Sorted x l :
  Sorted (in_order key) l → Sorted (in_order key) (sort_insert (byKey key) x l).
Proof.
  induction 1 as [|y l Hl IH Hhd]; simpl; [by repeat constructor |].
  destruct (after (byKey key) x y) eqn:Hxy.
  - constructor; [done |]. apply sort_insert_HdRel; [| done].
    by apply after_in_order.
  - constructor; [by constructor |]. constructor. by apply not_after_in_order.
Qed.

Lemma stableSort_Sorted l :
  Sorted (in_order key) (stableSort (byKey key) l).
Proof. induction l; simpl; [constructor | by apply sort_insert_Sorted]. Qed.

(** A difference of keys that are numbers orders consistently. *)
Lemma consistent_byKey l :
  Forall (λ a, is_Some (key a)) l → consistent (byKey key) l = true.
Proof.
  intros Hvalid. unfold consistent.
  apply forallb_forall. intros a [x Hx]%list_elem_of_In%(proj1 (Forall_forall _ _) Hvalid).
  apply forallb_forall. intros b [y Hy]%list_elem_of_In%(proj1 (Forall_forall _ _) Hvalid).
  unfold byKey at 1 2. rewrite Hx, Hy. cbn [JS.sub].
  apply andb_true_iff. split; [apply Z.eqb_eq; lia |].
  apply forallb_forall. intros c [z Hz]%list_elem_of_In%(proj1 (Forall_forall _ _) Hvalid).
  unfold notAfter, byKey. rewrite Hx, Hy, Hz. cbn [JS.sub].
  destruct (x - y <=? 0) eqn:Hxy, (y - z <=? 0) eqn:Hyz; try done.
  apply Z.leb_le in Hxy, Hyz. cbn [andb implb]. apply Z.leb_le. lia.
Qed.

(** On keys that are numbers the sort is the stable sort. *)
Lemma sort_byKey l :
  Forall (λ a, is_Some (key a)) l →
  sort (byKey key) l = stableSort (byKey key) l.
Proof. intros Hvalid. unfold sort. by rewrite consistent_byKey. Qed.

Lemma sort_Sorted l :
  Forall (λ a, is_Some (key a)) l → Sorted (in_order key) (sort (byKey key) l).
Proof. intros Hvalid. rewrite sort_byKey by done. apply stableSort_Sorted. Qed.

Lemma ascending_trans : Transitive (ascending key).
Proof.
  intros a b c (x & y & Ha & Hb & Hxy) (y' & z & Hb' & Hc & Hyz).
  exists x, z. rewrite Hb in Hb'. injection Hb' as <-.
  repeat split; [done.. | lia].
Qed.

Lemma in_order_ascending a b :
  is_Some (key a) → is_Some (key b) → in_order key a b → ascending key a b.
Proof.
  unfold in_order. intros [x Hx] [y Hy]. rewrite Hx, Hy. intros ?.
  by exists x, y.
Qed.

(** Where every key is a number, "no neighbours out of order" is
    "ascending", between any two positions. *)
Lemma Sorted_ascending l :
  Forall (λ a, is_Some (key a)) l → Sorted (in_order key) l →
  StronglySorted (ascending key) l.
Proof.
  intros Hvalid Hsorted.
  apply Sorted_StronglySorted; [apply ascending_trans |].
  induction Hsorted as [|a l Hl IH Hhd]; [constructor |].
  apply Forall_cons in Hvalid as [Ha Hvalid]. constructor; [by apply IH |].
  destruct Hhd as [|b l Hab]; constructor.
  apply Forall_cons in Hvalid as [Hb _]. by apply in_order_ascending.
Qed.
End SortFacts.

(** ** Quiet computations *)

Section Quiet.
Context {host : Host} {conf : Config} {api : GitHub}.

Lemma same_data_refl w : same_data w w.
Proof. by repeat split. Qed.

Lemma same_data_sym w w' : same_data w w' → same_data w' w.
Proof. by intros (? & ? & ? & ?). Qed.

Lemma same_data_trans w1 w2 w3 :
  same_data w1 w2 → same_data w2 w3 → same_data w1 w3.
Proof.
  intros (? & ? & ? & ?) (? & ? & ? & ?). repeat split; congruence.
Qed.

Lemma quiet_ret {A} (a : A) : quiet (ret a).
Proof. split; [intros w; apply same_data_refl | done]. Qed.

Lemma quiet_lift {A} (r : outcome A) : quiet (lift r).
Proof. split; [intros w; apply same_data_refl | done]. Qed.

Lemma quiet_await {A} req (r : outcome A) : quiet (await req r).
Proof. split; [intros w; by repeat split | done]. Qed.

Lemma quiet_logger l msg : quiet (logger l msg).
Proof. split; [intros w; by repeat split | done]. Qed.

Lemma quiet_getOctokit : quiet getOctokit.
Proof.
  split; [intros w; apply same_data_refl |].
  intros w w' (_ & _ & Hauth & _). simpl. by rewrite Hauth.
Qed.

Lemma quiet_process_argv : quiet process_argv.
Proof.
  split; [intros w; apply same_data_refl |].
  intros w w' (_ & _ & _ & Hargv). simpl. by rewrite Hargv.
Qed.

Lemma quiet_bind {A B} (m : M A) (k : A → M B) :
  quiet m → (∀ a, quiet (k a)) → quiet (bind m k).
Proof.
  intros [Hm1 Hm2] Hk. split.
  - intros w. unfold bind. specialize (Hm1 w).
    destruct (m w) as [[a | e |] w1]; simpl in *; try done.
    eapply same_data_trans; [done |]. apply (Hk a).
  - intros w w' Hww'. unfold bind.
    pose proof (Hm1 w) as Hw. pose proof (Hm1 w') as Hw'.
    specialize (Hm2 w w' Hww').
    destruct (m w) as [r w1], (m w') as [r' w1']; simpl in *. subst r'.
    destruct r as [a | e |]; [| done..].
    apply (Hk a). eapply same_data_trans; [apply same_data_sym, Hw |].
    eapply same_data_trans; [apply Hww' | apply Hw'].
Qed.

Lemma quiet_try_catch {A} (m : M A) (h : Error → M A) :
  quiet m → (∀ e, quiet (h e)) → quiet (try_catch m h).
Proof.
  intros [Hm1 Hm2] Hh. split.
  - intros w. unfold try_catch. specialize (Hm1 w).
    destruct (m w) as [[a | e |] w1]; simpl in *; try done.
    eapply same_data_trans; [done |]. apply (Hh e).
  - intros w w' Hww'. unfold try_catch.
    pose proof (Hm1 w) as Hw. pose proof (Hm1 w') as Hw'.
    specialize (Hm2 w w' Hww').
    destruct (m w) as [r w1], (m w') as [r' w1']; simpl in *. subst r'.
    destruct r as [a | e |]; [done | | done].
    apply (Hh e). eapply same_data_trans; [apply same_data_sym, Hw |].
    eapply same_data_trans; [apply Hww' | apply Hw'].
Qed.

Lemma quiet_fetchPages fuel octokit owner repo_ s e page acc :
  quiet (GithubCommits.fetchPages fuel octokit owner repo_ s e page acc).
Proof.
  revert page acc. induction fuel as [|fuel IH]; intros page acc; simpl.
  - apply quiet_lift.
  - apply quiet_bind; [apply quiet_await |]. intros response.
    destruct (_ <? _)%nat; [apply quiet_ret | apply IH].
Qed.

Lemma quiet_processCommits octokit owner repo_ l acc :
  quiet (GithubCommits.processCommits octokit owner repo_ l acc).
Proof.
  revert acc. induction l as [|c l IH]; intros acc; simpl.
  - apply quiet_ret.
  - apply quiet_bind; [| intros; apply IH].
    apply quiet_try_catch.
    + apply quiet_bind; [apply quiet_await | intros; apply quiet_ret].
    + intros e. apply quiet_bind; [apply quiet_logger | intros; apply quiet_ret].
Qed.

Lemma quiet_getMonthlyCommitActivity fuel owner repo_ year month :
  quiet (GithubCommits.getMonthlyCommitActivity fuel owner repo_ year month).
Proof.
  unfold GithubCommits.getMonthlyCommitActivity.
  apply quiet_bind; [apply quiet_getOctokit | intros octokit].
  apply quiet_bind; [apply quiet_lift | intros s].
  apply quiet_bind; [apply quiet_lift | intros e].
  apply quiet_try_catch.
  - apply quiet_bind; [apply quiet_fetchPages | intros l].
    apply quiet_bind; [apply quiet_processCommits | intros; apply quiet_ret].
  - intros err. apply quiet_bind; [apply quiet_logger | intros; apply quiet_ret].
Qed.

Lemma quiet_commits_generateMonthlyReport fuel owner repo_ year month :
  quiet (GithubCommits.generateMonthlyReport fuel owner repo_ year month).
Proof.
  unfold GithubCommits.generateMonthlyReport.
  apply quiet_bind; [apply quiet_getMonthlyCommitActivity | intros l].
  destruct (_ =? _)%nat.
  - apply quiet_bind; [apply quiet_logger | intros; apply quiet_ret].
  - apply quiet_bind; [apply quiet_process_argv | intros args_].
    apply quiet_bind; [apply quiet_lift | intros; apply quiet_ret].
Qed.

Lemma quiet_getMonthlyIssueActivity owner repo_ year month :
  quiet (GithubIssues.getMonthlyIssueActivity owner repo_ year month).
Proof.
  unfold GithubIssues.getMonthlyIssueActivity.
  apply quiet_bind; [apply quiet_getOctokit | intros octokit].
  apply quiet_bind; [apply quiet_lift | intros s].
  apply quiet_bind; [apply quiet_lift | intros e].
  apply quiet_try_catch.
  - apply quiet_bind; [apply quiet_await | intros; apply quiet_ret].
  - intros err. apply quiet_bind; [apply quiet_logger | intros; apply quiet_ret].
Qed.

Lemma quiet_issues_generateMonthlyReport owner repo_ year month :
  quiet (GithubIssues.generateMonthlyReport owner repo_ year month).
Proof.
  unfold GithubIssues.generateMonthlyReport.
  apply quiet_bind; [apply quiet_getMonthlyIssueActivity | intros l].
  destruct (_ =? _)%nat.
  - apply quiet_bind; [apply quiet_logger | intros; apply quiet_ret].
  - apply quiet_bind; [apply quiet_process_argv | intros args_].
    apply quiet_bind; [apply quiet_lift | intros; apply quiet_ret].
Qed.

(** A round of the driver whose report generator is quiet and answers
    [null] leaves the disk as it found it. *)
Lemma processRepository_null args activityType generateReport
    authenticatedOwner activityConfig repo_ w :
  (∀ o r y m, quiet (generateReport o r y m)) →
  fst (generateReport authenticatedOwner (repo_name repo_)
                      (Github.year args) (Github.month args) w)
  = Return None →
  same_data w
    (snd (Github.processRepository args activityType generateReport
            authenticatedOwner activityConfig repo_ w)).
Proof.
  intros Hquiet Hnull. unfold Github.processRepository.
  set (g := generateReport _ _ _ _) in *.
  destruct (Hquiet authenticatedOwner (repo_name repo_) (Github.year args)
              (Github.month args)) as [Hg1 Hg2]. fold g in Hg1, Hg2.
  assert (∀ w1, same_data w w1 →
            same_data w (snd ((let* report := g in
               if truthy report
               then mkdir (path_dirname (Github.outputPathOf args activityType
                              authenticatedOwner repo_)) ;;
                    logger info ("Writing report to "
                      ++ Github.outputPathOf args activityType
                           authenticatedOwner repo_) ;;
                    writeFile (Github.outputPathOf args activityType
                                 authenticatedOwner repo_) (default "" report)
               else ret tt) w1))) as Hcall.
  { intros w1 Hw1. unfold bind.
    pose proof (Hg2 w w1 Hw1) as Hsame. rewrite Hnull in Hsame.
    specialize (Hg1 w1). destruct (g w1) as [r w2]; simpl in *. subst r.
    simpl. by eapply same_data_trans. }
  unfold bind at 1. unfold existsSync at 1. cbv beta iota.
  destruct (_ && negb _); [by repeat split |].
  destruct (_ || _).
  - unfold bind at 1. unfold logger at 1. cbv beta iota.
    destruct (Github.omitted args repo_); [by repeat split |].
    destruct (negb _); [by repeat split |].
    unfold bind at 1. unfold logger at 1. cbv beta iota.
    apply Hcall. by repeat split.
  - unfold bind at 1. unfold ret at 1. cbv beta iota.
    destruct (Github.omitted args repo_); [by repeat split |].
    destruct (negb _); [by repeat split |].
    unfold bind at 1. unfold logger at 1. cbv beta iota.
    apply Hcall. by repeat split.
Qed.
End Quiet.

(** ** The issue classifier *)

Section Classifier.
Context {host : Host}.
Import GithubIssues IssueSpec.

(** The quotient of the gap by the milliseconds of a day is at least 1
    exactly when the gap is at least the milliseconds of a day. *)
Lemma quot_ge_one_day (gap : Z) :
  JS.quot_ge (JS.div_by (Some gap) (1000 * 60 * 60 * 24)) 1
  = (JS.msPerDay <=? gap).
Proof.
  unfold JS.quot_ge, JS.div_by, JS.msPerDay.
  apply eq_true_iff_eq. rewrite Qle_bool_iff, Z.leb_le.
  change (1000 * 60 * 60 * 24) with 86400000.
  unfold Qle, Qdiv, Qmult, Qinv; simpl. lia.
Qed.

Lemma inSameMonth_spec a b : inSameMonth a b = sameCalendarMonth a b.
Proof.
  unfold inSameMonth, sameCalendarMonth, getFullYear, getMonth, JS.strict_eq.
  destruct (JS.getTime a), (JS.getTime b); reflexivity.
Qed.

(** C1: for every input, the classifier answers the label the description
    gives: for a closed issue the base label of its state reason, with
    "Created and " in front exactly when creation and closing fall in the
    same calendar month; for an open issue created and updated in the same
    calendar month, "Created" when the two instants are equal or less than
    a day apart and "Updated a New Issue" when they are a day or more
    apart; "Updated" in every other case. *)
Theorem C1_determineOperation_labels
    (updated created : JS.Date) (closed : option JS.Date)
    (stateReason : option string) :
  determineOperation updated created closed stateReason
  = spec_operation updated created closed stateReason.
Proof.
  unfold determineOperation, spec_operation. fold (baseLabel stateReason).
  destruct closed as [c|]; rewrite inSameMonth_spec; [done |].
  destruct (sameCalendarMonth created updated) eqn:Hmonth;
    [| by destruct (JS.lt _ _)].
  unfold sameCalendarMonth in Hmonth.
  unfold sameInstant, gapAtLeastOneDay, JS.strict_eq.
  destruct (JS.getTime created) as [c|]; [| done].
  destruct (JS.getTime updated) as [u|]; [| done].
  destruct (c =? u); [done |]. cbv zeta. unfold JS.sub.
  by rewrite quot_ge_one_day.
Qed.

(** C9: with [closedAt = null] the label does not depend on the state
    reason, it is one of "Created", "Updated a New Issue" and "Updated",
    and so it is none of Closed, Reopened, Completed, Ignored and does not
    start with "Created and ": those are kept for closed issues. *)
Theorem C9_open_issue_labels
    (updated created : JS.Date) (stateReason stateReason' : option string) :
  let label := determineOperation updated created None stateReason in
  label = determineOperation updated created None stateReason'
  ∧ label ∈ ["Created"; "Updated a New Issue"; "Updated"]
  ∧ existsb (String.eqb label) closedLabels = false
  ∧ String.prefix "Created and " label = false.
Proof.
  cbv zeta. unfold determineOperation. split; [done |].
  destruct (inSameMonth created updated);
    [destruct (JS.strict_eq _ _); [| destruct (JS.quot_ge _ _)]
    | destruct (JS.lt _ _)];
    (split; [set_solver | by split]).
Qed.
End Classifier.

(** ** The CSV rows *)

Section CsvRows.
Import GithubCommits.


Lemma escape_no_comma s : contains comma (escape s) = false.
Proof.
  unfold escape. apply contains_replaceAll_other; [done |].
  by apply contains_replaceAll_same.
Qed.

Lemma escape_no_newline s : contains newline (escape s) = false.
Proof. unfold escape. by apply contains_replaceAll_same. Qed.


Lemma truncate1024_1025 s :
  String.length s = 1025%nat →
  truncate1024 s = String.substring 0 1021 s ++ "..."
  ∧ String.length (truncate1024 s) = 1024%nat.
Proof.
  intros Hlen. unfold truncate1024. rewrite Hlen.
  replace (1024 <? 1025)%nat with true by (symmetry; apply Nat.ltb_lt; lia).
  split; [done |]. rewrite string_length_app, length_substring_0 by lia. simpl. lia.
Qed.

Lemma truncatedFiles_51 (fs : list string) :
  length fs = 51%nat →
  truncatedFiles fs = (take 49 fs ++ ["...and 2 more files"])%list.
Proof. intros Hlen. unfold truncatedFiles. by rewrite Hlen. Qed.

(** C4: in the CSV row of a commit whose escaped message has exactly 1025
    characters and whose file list has 51 entries, the message is the
    first 1021 characters of the escaped message followed by "...", 1024
    characters in all, and the file list is its first 49 entries followed
    by the one entry "...and 2 more files". *)
Theorem C4_csv_truncation (owner : string) (commit : Commit) :
  String.length (escape (message commit)) = 1025%nat →
  length (files commit) = 51%nat →
  let shortMessage :=
    String.substring 0 1021 (escape (message commit)) ++ "..." in
  let shortFiles :=
    (take 49 (files commit) ++ ["...and 2 more files"])%list in
  truncate1024 (escape (message commit)) = shortMessage
  ∧ String.length shortMessage = 1024%nat
  ∧ truncatedFiles (files commit) = shortFiles
  ∧ length shortFiles = 50%nat
  ∧ csvRow owner commit
    = date commit ++ "," ++ owner ++ "," ++ repo commit ++ ","
      ++ author commit ++ "," ++ toString (additions commit) ++ ","
      ++ toString (deletions commit) ++ "," ++ Github.dq
      ++ join "," shortFiles ++ Github.dq ++ "," ++ shortMessage.
Proof.
  intros Hmessage Hfiles. cbv zeta.
  destruct (truncate1024_1025 _ Hmessage) as [Hshort Hlen].
  pose proof (truncatedFiles_51 _ Hfiles) as Hlist.
  unfold csvRow. rewrite Hshort, Hlist. rewrite <- Hshort.
  repeat split; [done.. |].
  rewrite length_app, length_take, Hfiles. reflexivity.
Qed.


End CsvRows.

(** ** What the fetchers answer *)

Section Fetchers.
Context {host : Host} {conf : Config} {api : GitHub}.

Lemma compareByDate_byKey :
  GithubCommits.compareByDate = byKey parsedDate.
Proof. reflexivity. Qed.

Lemma compareByUpdate_byKey :
  GithubIssues.compareByUpdate = byKey updatedTime.
Proof. reflexivity. Qed.

(** An issue that passes the filter has a time of update, inside the
    window. *)
Lemma inWindow_spec s e issue :
  GithubIssues.inWindow s e issue = true
  ↔ ∃ t, updatedTime issue = Some t ∧ iso_time s <= t <= iso_time e.
Proof.
  unfold GithubIssues.inWindow, updatedTime, JS.ge, JS.le, new_Date_ISO. simpl.
  destruct (Date_parse _) as [t|]; simpl.
  - rewrite andb_true_iff, !Z.leb_le. split.
    + intros [? ?]. exists t. split; [done | lia].
    + intros (t' & [= <-] & ?). lia.
  - split; [done | by intros (? & ? & ?)].
Qed.

End Fetchers.

(** ** Pagination of the commit list *)

Section Pagination.
Context {host : Host} {conf : Config} {api : GitHub}.

Lemma sent_nil w : sent [] w = w.
Proof. destruct w. unfold sent. simpl. by rewrite app_nil_r. Qed.

Lemma sent_cons req reqs w : sent (req :: reqs) w = sent reqs (sent [req] w).
Proof. unfold sent. simpl. by rewrite <- app_assoc. Qed.

(** The loop entered at page [p] when the first short page is [n] pages
    further. *)
Lemma fetchPages_until_short_page
    (octokit : option string) (owner repo_ : string) (s e : ISOString)
    (pages : Z → list CommitStub) (n : nat) :
  ∀ (fuel : nat) (p : Z) (acc : list CommitStub) (w : World),
    (∀ i : Z, p <= i <= p + Z.of_nat n →
          repos_listCommits octokit owner repo_ s e 100 i = Return (pages i)) →
    (∀ i : Z, p <= i < p + Z.of_nat n → (100 <= length (pages i))%nat) →
    (length (pages (p + Z.of_nat n)%Z) < 100)%nat →
    (n < fuel)%nat →
    GithubCommits.fetchPages fuel octokit owner repo_ s e p acc w
    = (Return (acc ++ concat (map pages (seqZ p (Z.of_nat n + 1))))%list,
       sent (map (ListCommits owner repo_ s e) (seqZ p (Z.of_nat n + 1))) w).
Proof.
  induction n as [|n IH]; intros fuel p acc w Hpages Hfull Hshort Hfuel;
    (destruct fuel as [|fuel]; [lia |]).
  - cbn [GithubCommits.fetchPages]. unfold bind, await.
    rewrite Hpages by lia.
    replace (p + Z.of_nat 0) with p in Hshort by lia.
    apply Nat.ltb_lt in Hshort. rewrite Hshort. unfold ret.
    change (Z.of_nat 0 + 1) with 1. rewrite seqZ_cons by lia.
    change (Z.pred 1) with 0. rewrite seqZ_nil by lia.
    cbn [map concat]. by rewrite app_nil_r.
  - cbn [GithubCommits.fetchPages]. unfold bind at 1. unfold await at 1.
    rewrite Hpages by lia.
    assert ((length (pages p) <? 100)%nat = false) as ->.
    { apply Nat.ltb_ge, Hfull. lia. }
    rewrite (IH fuel (p + 1)); [| intros; apply Hpages; lia
                                 | intros; apply Hfull; lia
                                 | by replace (p + 1 + Z.of_nat n)
                                      with (p + Z.of_nat (S n)) by lia
                                 | lia].
    rewrite (seqZ_cons p (Z.of_nat (S n) + 1)) by lia.
    replace (Z.pred (Z.of_nat (S n) + 1)) with (Z.of_nat n + 1) by lia.
    replace (Z.succ p) with (p + 1) by lia.
    cbn [map concat]. rewrite sent_cons. by rewrite <- app_assoc.
Qed.

(** C8: when page [last] is the first page of fewer than 100 records, the
    loop asks for the pages 1, 2, ..., [last], in this order and no other,
    then ends, and the commits it collected are the records of these
    pages, page after page. *)
Theorem C8_pagination_stops_at_first_short_page
    (fuel : nat) (octokit : option string) (owner repo_ : string)
    (s e : ISOString) (pages : Z → list CommitStub) (last : Z) (w : World) :
  1 <= last →
  (∀ i : Z, 1 <= i <= last →
        repos_listCommits octokit owner repo_ s e 100 i = Return (pages i)) →
  (∀ i : Z, 1 <= i < last → (100 <= length (pages i))%nat) →
  (length (pages last) < 100)%nat →
  (Z.to_nat last <= fuel)%nat →
  GithubCommits.fetchPages fuel octokit owner repo_ s e 1 [] w
  = (Return (concat (map pages (seqZ 1 last))),
     sent (map (ListCommits owner repo_ s e) (seqZ 1 last)) w).
Proof.
  intros Hlast Hpages Hfull Hshort Hfuel.
  rewrite (fetchPages_until_short_page octokit owner repo_ s e pages
             (Z.to_nat (last - 1)) fuel 1 [] w).
  - by replace (Z.of_nat (Z.to_nat (last - 1)) + 1) with last by lia.
  - intros i Hi. apply Hpages. lia.
  - intros i Hi. apply Hfull. lia.
  - by replace (1 + Z.of_nat (Z.to_nat (last - 1))) with last by lia.
  - lia.
Qed.
End Pagination.

(** ** What the fetchers answer, and in which order *)

Section FetchedRecords.
Context {host : Host} {conf : Config} {api : GitHub}.

Lemma omap_cons {A B} (f : A → option B) (x : A) (l : list A) :
  omap f (x :: l)
  = match f x with Some y => y :: omap f l | None => omap f l end.
Proof. reflexivity. Qed.

Lemma length_omap_le {A B} (f : A → option B) (l : list A) :
  (length (omap f l) <= length l)%nat.
Proof.
  induction l as [|x l IH]; [done |].
  rewrite omap_cons. destruct (f x); simpl; lia.
Qed.

Lemma processCommits_cons octokit owner repo_ commit rest processed w :
  GithubCommits.processCommits octokit owner repo_ (commit :: rest) processed w
  = match repos_getCommit octokit owner repo_ (sha commit) with
    | Return detail =>
        GithubCommits.processCommits octokit owner repo_ rest
          (processed ++ [GithubCommits.commitOf repo_ detail])%list
          (sent [GetCommit owner repo_ (sha commit)] w)
    | Throw e =>
        GithubCommits.processCommits octokit owner repo_ rest processed
          (snd (logger error
                  ("Error fetching details for commit " ++ sha commit
                   ++ ", skipping... " ++ Error_message e)
                  (sent [GetCommit owner repo_ (sha commit)] w)))
    | Diverge => (Diverge, sent [GetCommit owner repo_ (sha commit)] w)
    end.
Proof.
  cbn [GithubCommits.processCommits]. unfold bind at 1.
  unfold try_catch, bind at 1, await at 1.
  by destruct (repos_getCommit octokit owner repo_ (sha commit)).
Qed.

Lemma processCommits_answer octokit owner repo_ allCommits :
  ∀ processed w,
    (∀ commit, commit ∈ allCommits →
               repos_getCommit octokit owner repo_ (sha commit) ≠ Diverge) →
    fst (GithubCommits.processCommits octokit owner repo_ allCommits processed w)
    = Return (processed
              ++ omap (detailRecord octokit owner repo_) allCommits)%list.
Proof.
  induction allCommits as [|commit rest IH]; intros processed w Hanswers.
  - simpl. by rewrite app_nil_r.
  - rewrite processCommits_cons, omap_cons. unfold detailRecord at 1.
    pose proof (Hanswers commit ltac:(by left)) as Hcommit.
    destruct (repos_getCommit octokit owner repo_ (sha commit))
      as [detail | e |]; [| | done].
    + rewrite IH by (intros c Hc; apply Hanswers; by right).
      by rewrite <- app_assoc.
    + by rewrite IH by (intros c Hc; apply Hanswers; by right).
Qed.

(** The commit fetcher, when the list pages up to the first short one and
    the details answer: the sorted records, after the detail loop. *)
Lemma commits_fetched
    (fuel : nat) (owner repo_ : string) (year month : Z) (s e : ISOString)
    (pages : Z → list CommitStub) (last : Z) (w : World) :
  let octokit := octokit_auth w in
  let listed := concat (map pages (seqZ 1 last)) in
  toISOString (new_Date year (month - 1) 1) = Return s →
  toISOString (new_Date year month 0) = Return e →
  1 <= last →
  (∀ i : Z, 1 <= i <= last →
            repos_listCommits octokit owner repo_ s e 100 i = Return (pages i)) →
  (∀ i : Z, 1 <= i < last → (100 <= length (pages i))%nat) →
  (length (pages last) < 100)%nat →
  (Z.to_nat last <= fuel)%nat →
  (∀ commit, commit ∈ listed →
             repos_getCommit octokit owner repo_ (sha commit) ≠ Diverge) →
  GithubCommits.getMonthlyCommitActivity fuel owner repo_ year month w
  = (Return (sort GithubCommits.compareByDate
               (omap (detailRecord octokit owner repo_) listed)),
     snd (GithubCommits.processCommits octokit owner repo_ listed []
            (sent (map (ListCommits owner repo_ s e) (seqZ 1 last)) w))).
Proof.
  cbv zeta. intros Hs He Hlast Hpages Hfull Hshort Hfuel Hdetails.
  unfold GithubCommits.getMonthlyCommitActivity.
  unfold bind at 1. unfold getOctokit at 1.
  unfold bind at 1. unfold lift at 1. rewrite Hs.
  unfold bind at 1. unfold lift at 1. rewrite He.
  unfold try_catch. unfold bind at 1.
  rewrite (fetchPages_until_short_page (octokit_auth w) owner repo_ s e pages
             (Z.to_nat (last - 1)) fuel 1 [] w);
    [| intros i Hi; apply Hpages; lia
     | intros i Hi; apply Hfull; lia
     | by replace (1 + Z.of_nat (Z.to_nat (last - 1))) with last by lia
     | lia].
  replace (Z.of_nat (Z.to_nat (last - 1)) + 1) with last by lia.
  cbn [app]. unfold bind at 1.
  match goal with
  | |- context [GithubCommits.processCommits ?o ?a ?b ?l ?p ?w'] =>
      pose proof (processCommits_answer o a b l p w' Hdetails) as Hanswer;
      destruct (GithubCommits.processCommits o a b l p w') as [r w'']
  end.
  simpl in Hanswer. subst r. reflexivity.
Qed.

(** The issue fetcher, when the list call answers: the records of the
    issues that pass the filter, sorted, after the one request. *)
Lemma issues_fetched
    (owner repo_ : string) (year month : Z) (s e : ISOString)
    (issues : list RawIssue) (w : World) :
  toISOString (new_Date year (month - 1) 1) = Return s →
  toISOString (new_Date year month 0) = Return e →
  issues_listForRepo (octokit_auth w) owner repo_ s e 100 "all" = Return issues →
  GithubIssues.getMonthlyIssueActivity owner repo_ year month w
  = (Return (map (GithubIssues.issueOf repo_)
               (sort GithubIssues.compareByUpdate
                  (List.filter (GithubIssues.inWindow s e) issues))),
     sent [ListForRepo owner repo_ s e] w).
Proof.
  intros Hs He Hlist. unfold GithubIssues.getMonthlyIssueActivity.
  unfold bind at 1. unfold getOctokit at 1.
  unfold bind at 1. unfold lift at 1. rewrite Hs.
  unfold bind at 1. unfold lift at 1. rewrite He.
  unfold try_catch, bind, await. by rewrite Hlist.
Qed.

(** What passes the filter has a time of update. *)
Lemma inWindow_valid s e (issues : list RawIssue) :
  Forall (λ issue, is_Some (updatedTime issue))
         (List.filter (GithubIssues.inWindow s e) issues).
Proof.
  apply Forall_forall. intros issue [_ Hin]%list_elem_of_In%filter_In.
  apply inWindow_spec in Hin as (t & -> & _). by eexists.
Qed.

(** C7: once the window is valid, the commit fetcher, when the list pages
    up to the first short one answer, returns the records of the listed
    commits whose detail call answered, rearranged, and where the display
    date of each of these records parses back into a timestamp they stand
    in ascending order of that timestamp, records of the same timestamp in
    the order they were fetched in; the issue fetcher, when the list call
    answers, returns the records of the issues of the answer that pass the
    filter, in ascending order of [updated_at], issues of the same
    [updated_at] in the order of the answer. *)
Theorem C7_fetchers_sort_ascending
    (fuel : nat) (owner repo_ : string) (year month : Z) (s e : ISOString)
    (w : World) :
  toISOString (new_Date year (month - 1) 1) = Return s →
  toISOString (new_Date year month 0) = Return e →
  let octokit := octokit_auth w in
  (∀ (pages : Z → list CommitStub) (last : Z),
     let listed := concat (map pages (seqZ 1 last)) in
     let records := omap (detailRecord octokit owner repo_) listed in
     1 <= last →
     (∀ i : Z, 1 <= i <= last →
               repos_listCommits octokit owner repo_ s e 100 i
               = Return (pages i)) →
     (∀ i : Z, 1 <= i < last → (100 <= length (pages i))%nat) →
     (length (pages last) < 100)%nat →
     (Z.to_nat last <= fuel)%nat →
     (∀ commit, commit ∈ listed →
                repos_getCommit octokit owner repo_ (sha commit) ≠ Diverge) →
     ∃ commits,
       fst (GithubCommits.getMonthlyCommitActivity fuel owner repo_ year month w)
       = Return commits
       ∧ Permutation commits records
       ∧ (Forall (λ commit, is_Some (parsedDate commit)) records →
          StronglySorted (ascending parsedDate) commits
          ∧ commits = stableSort GithubCommits.compareByDate records))
  ∧ (∀ raw : list RawIssue,
       let kept := List.filter (GithubIssues.inWindow s e) raw in
       issues_listForRepo octokit owner repo_ s e 100 "all" = Return raw →
       ∃ sorted,
         fst (GithubIssues.getMonthlyIssueActivity owner repo_ year month w)
         = Return (map (GithubIssues.issueOf repo_) sorted)
         ∧ Permutation sorted kept
         ∧ StronglySorted (ascending updatedTime) sorted
         ∧ sorted = stableSort GithubIssues.compareByUpdate kept).
Proof.
  intros Hs He. cbv zeta. split.
  - intros pages last Hlast Hpages Hfull Hshort Hfuel Hdetails.
    eexists. split;
      [by rewrite (commits_fetched fuel owner repo_ year month s e pages last) |].
    split; [apply sort_Permutation |]. intros Hvalid.
    rewrite compareByDate_byKey, sort_byKey by done. split; [| done].
    apply Sorted_ascending; [| apply stableSort_Sorted].
    eapply Permutation_Forall; [symmetry; apply stableSort_Permutation | done].
  - intros raw Hlist. eexists. split;
      [by rewrite (issues_fetched owner repo_ year month s e raw) |].
    split; [apply sort_Permutation |].
    rewrite compareByUpdate_byKey, sort_byKey by apply inWindow_valid.
    split; [| done].
    apply Sorted_ascending; [| apply stableSort_Sorted].
    eapply Permutation_Forall; [symmetry; apply stableSort_Permutation |].
    apply inWindow_valid.
Qed.
End FetchedRecords.

(** ** The report generators and the repository driver *)

Section Reports.
Context {host : Host} {conf : Config} {api : GitHub}.

Lemma length_zero_nil {A} (l : list A) : (length l =? 0)%nat = true ↔ l = [].
Proof. destruct l; simpl; split; done. Qed.

Lemma commits_report_null fuel owner repo_ year month w :
  fst (GithubCommits.generateMonthlyReport fuel owner repo_ year month w)
  = Return None
  ↔ fst (GithubCommits.getMonthlyCommitActivity fuel owner repo_ year month w)
    = Return [].
Proof.
  unfold GithubCommits.generateMonthlyReport, bind.
  destruct (GithubCommits.getMonthlyCommitActivity _ _ _ _ _ _)
    as [[l | e |] w1]; simpl; [| done..].
  destruct l as [|c l]; simpl; [done |].
  unfold process_argv, lift, ret. simpl.
  destruct (Github.parseCommandLineArgs _); simpl; split; done.
Qed.

Lemma issues_report_null owner repo_ year month w :
  fst (GithubIssues.generateMonthlyReport owner repo_ year month w)
  = Return None
  ↔ fst (GithubIssues.getMonthlyIssueActivity owner repo_ year month w)
    = Return [].
Proof.
  unfold GithubIssues.generateMonthlyReport, bind.
  destruct (GithubIssues.getMonthlyIssueActivity _ _ _ _ _)
    as [[l | e |] w1]; simpl; [| done..].
  destruct l as [|c l]; simpl; [done |].
  unfold process_argv, lift, ret. simpl.
  destruct (Github.parseCommandLineArgs _); simpl; split; done.
Qed.

(** C5: the report generator answers [null] exactly when the fetcher
    answered the empty list, for commits and for issues, and a round of
    the driver whose generator answers [null] leaves every file and
    directory as it was. *)
Theorem C5_null_report_writes_no_file
    (fuel : nat) (args : Github.CommandLineArgs) (authenticatedOwner : string)
    (activityConfig : ActivityConfig) (repo_ : Repo) (w : World) :
  let owner := authenticatedOwner in
  let name := repo_name repo_ in
  let year := Github.year args in
  let month := Github.month args in
  (fst (GithubCommits.generateMonthlyReport fuel owner name year month w)
   = Return None
   ↔ fst (GithubCommits.getMonthlyCommitActivity fuel owner name year month w)
     = Return [])
  ∧ (fst (GithubIssues.generateMonthlyReport owner name year month w)
     = Return None
     ↔ fst (GithubIssues.getMonthlyIssueActivity owner name year month w)
       = Return [])
  ∧ (fst (GithubCommits.generateMonthlyReport fuel owner name year month w)
     = Return None →
     let w' :=
       snd (Github.processRepository args act_commits
              (GithubCommits.generateMonthlyReport fuel) owner activityConfig
              repo_ w) in
     disk w' = disk w ∧ directories w' = directories w)
  ∧ (fst (GithubIssues.generateMonthlyReport owner name year month w)
     = Return None →
     let w' :=
       snd (Github.processRepository args act_issues
              GithubIssues.generateMonthlyReport owner activityConfig
              repo_ w) in
     disk w' = disk w ∧ directories w' = directories w).
Proof.
  cbv zeta. split; [apply commits_report_null |].
  split; [apply issues_report_null |]. split.
  - intros Hnull.
    destruct (processRepository_null args act_commits
                (GithubCommits.generateMonthlyReport fuel) authenticatedOwner
                activityConfig repo_ w) as (Hdisk & Hdirs & _);
      [intros; apply quiet_commits_generateMonthlyReport | done | done].
  - intros Hnull.
    destruct (processRepository_null args act_issues
                GithubIssues.generateMonthlyReport authenticatedOwner
                activityConfig repo_ w) as (Hdisk & Hdirs & _);
      [intros; apply quiet_issues_generateMonthlyReport | done | done].
Qed.
End Reports.

Section ListFailure.
Context {host : Host} {conf : Config}.

Lemma commits_list_failure (api : GitHub) fuel owner repo_ year month w s e err :
  toISOString (new_Date year (month - 1) 1) = Return s →
  toISOString (new_Date year month 0) = Return e →
  repos_listCommits (octokit_auth w) owner repo_ s e 100 1 = Throw err →
  GithubCommits.getMonthlyCommitActivity (S fuel) owner repo_ year month w
  = (Return [],
     snd (logger error ("Error fetching commits: " ++ Error_message err)
                 (sent [ListCommits owner repo_ s e 1] w))).
Proof.
  intros Hs He Hthrow.
  unfold GithubCommits.getMonthlyCommitActivity, bind, getOctokit, lift.
  rewrite Hs, He. unfold try_catch. cbn [GithubCommits.fetchPages].
  unfold bind, await. by rewrite Hthrow.
Qed.

Lemma commits_list_empty (api : GitHub) fuel owner repo_ year month w s e :
  toISOString (new_Date year (month - 1) 1) = Return s →
  toISOString (new_Date year month 0) = Return e →
  repos_listCommits (octokit_auth w) owner repo_ s e 100 1 = Return [] →
  GithubCommits.getMonthlyCommitActivity (S fuel) owner repo_ year month w
  = (Return [], sent [ListCommits owner repo_ s e 1] w).
Proof.
  intros Hs He Hempty.
  unfold GithubCommits.getMonthlyCommitActivity, bind, getOctokit, lift.
  rewrite Hs, He. unfold try_catch. cbn [GithubCommits.fetchPages].
  unfold bind, await. by rewrite Hempty.
Qed.

Lemma issues_list_failure (api : GitHub) owner repo_ year month w s e err :
  toISOString (new_Date year (month - 1) 1) = Return s →
  toISOString (new_Date year month 0) = Return e →
  issues_listForRepo (octokit_auth w) owner repo_ s e 100 "all" = Throw err →
  GithubIssues.getMonthlyIssueActivity owner repo_ year month w
  = (Return [],
     snd (logger error ("Error fetching commits: " ++ Error_message err)
                 (sent [ListForRepo owner repo_ s e] w))).
Proof.
  intros Hs He Hthrow.
  unfold GithubIssues.getMonthlyIssueActivity, bind, getOctokit, lift.
  rewrite Hs, He. unfold try_catch, bind, await. by rewrite Hthrow.
Qed.

Lemma issues_list_empty (api : GitHub) owner repo_ year month w s e :
  toISOString (new_Date year (month - 1) 1) = Return s →
  toISOString (new_Date year month 0) = Return e →
  issues_listForRepo (octokit_auth w) owner repo_ s e 100 "all" = Return [] →
  GithubIssues.getMonthlyIssueActivity owner repo_ year month w
  = (Return [], sent [ListForRepo owner repo_ s e] w).
Proof.
  intros Hs He Hempty.
  unfold GithubIssues.getMonthlyIssueActivity, bind, getOctokit, lift.
  rewrite Hs, He. unfold try_catch, bind, await. by rewrite Hempty.
Qed.

(** C10: when the first list call for a repository's month throws, the
    fetcher answers the empty list, the report generator answers [null]
    and the round of the driver leaves files and directories as they
    were: the same files and directories as with a client that answers
    the empty list. *)
Theorem C10_failed_list_fetch_looks_like_no_activity
    (failing empty : GitHub) (fuel : nat) (args : Github.CommandLineArgs)
    (authenticatedOwner : string) (activityConfig : ActivityConfig)
    (repo_ : Repo) (w : World) (s e : ISOString) (err : Error) :
  let owner := authenticatedOwner in
  let name := repo_name repo_ in
  let year := Github.year args in
  let month := Github.month args in
  toISOString (new_Date year (month - 1) 1) = Return s →
  toISOString (new_Date year month 0) = Return e →
  repos_listCommits (GitHub := failing) (octokit_auth w) owner name s e 100 1
  = Throw err →
  issues_listForRepo (GitHub := failing) (octokit_auth w) owner name s e 100
                     "all" = Throw err →
  repos_listCommits (GitHub := empty) (octokit_auth w) owner name s e 100 1
  = Return [] →
  issues_listForRepo (GitHub := empty) (octokit_auth w) owner name s e 100
                     "all" = Return [] →
  (fst (GithubCommits.getMonthlyCommitActivity (api := failing) (S fuel)
          owner name year month w) = Return []
   ∧ fst (GithubCommits.generateMonthlyReport (api := failing) (S fuel)
            owner name year month w) = Return None
   ∧ disk (commitsRound failing (S fuel) args owner activityConfig repo_ w)
     = disk w
   ∧ disk (commitsRound failing (S fuel) args owner activityConfig repo_ w)
     = disk (commitsRound empty (S fuel) args owner activityConfig repo_ w)
   ∧ directories
       (commitsRound failing (S fuel) args owner activityConfig repo_ w)
     = directories
         (commitsRound empty (S fuel) args owner activityConfig repo_ w))
  ∧ (fst (GithubIssues.getMonthlyIssueActivity (api := failing)
            owner name year month w) = Return []
     ∧ fst (GithubIssues.generateMonthlyReport (api := failing)
              owner name year month w) = Return None
     ∧ disk (issuesRound failing args owner activityConfig repo_ w) = disk w
     ∧ disk (issuesRound failing args owner activityConfig repo_ w)
       = disk (issuesRound empty args owner activityConfig repo_ w)
     ∧ directories (issuesRound failing args owner activityConfig repo_ w)
       = directories (issuesRound empty args owner activityConfig repo_ w)).
Proof.
  cbv zeta. intros Hs He Hcommits Hissues Hcommits' Hissues'.
  pose proof (commits_list_failure failing fuel _ _ _ _ w s e err Hs He Hcommits)
    as Hfail.
  pose proof (commits_list_empty empty fuel _ _ _ _ w s e Hs He Hcommits')
    as Hnone.
  pose proof (issues_list_failure failing _ _ _ _ w s e err Hs He Hissues)
    as Hfail'.
  pose proof (issues_list_empty empty _ _ _ _ w s e Hs He Hissues')
    as Hnone'.
  apply (f_equal fst) in Hfail, Hnone, Hfail', Hnone'.
  cbn [fst] in Hfail, Hnone, Hfail', Hnone'.
  pose proof (proj2 (commits_report_null (api := failing) _ _ _ _ _ _) Hfail)
    as Hnull.
  pose proof (proj2 (commits_report_null (api := empty) _ _ _ _ _ _) Hnone)
    as Hnull0.
  pose proof (proj2 (issues_report_null (api := failing) _ _ _ _ _) Hfail')
    as Hnull'.
  pose proof (proj2 (issues_report_null (api := empty) _ _ _ _ _) Hnone')
    as Hnull0'.
  destruct (processRepository_null args act_commits
              (GithubCommits.generateMonthlyReport (api := failing) (S fuel))
              authenticatedOwner activityConfig repo_ w) as (Hd1 & Hr1 & _);
    [intros; apply quiet_commits_generateMonthlyReport | done |].
  destruct (processRepository_null args act_commits
              (GithubCommits.generateMonthlyReport (api := empty) (S fuel))
              authenticatedOwner activityConfig repo_ w) as (Hd2 & Hr2 & _);
    [intros; apply quiet_commits_generateMonthlyReport | done |].
  destruct (processRepository_null args act_issues
              (GithubIssues.generateMonthlyReport (api := failing))
              authenticatedOwner activityConfig repo_ w) as (Hd3 & Hr3 & _);
    [intros; apply quiet_issues_generateMonthlyReport | done |].
  destruct (processRepository_null args act_issues
              (GithubIssues.generateMonthlyReport (api := empty))
              authenticatedOwner activityConfig repo_ w) as (Hd4 & Hr4 & _);
    [intros; apply quiet_issues_generateMonthlyReport | done |].
  unfold commitsRound, issuesRound.
  split; (split; [assumption |]); (split; [assumption |]);
    (split; [symmetry; assumption |]); split; congruence.
Qed.
End ListFailure.

Section Abort.
Context {host : Host} {conf : Config} {api : GitHub}.

(** A throw in one round of a [for] loop is the throw of the loop: the
    rounds after it do not run. *)
Lemma for_of_throw {A} (body : A → M unit) before x after w w1 e w2 :
  for_of before body w = (Return tt, w1) →
  body x w1 = (Throw e, w2) →
  for_of (before ++ x :: after)%list body w = (Throw e, w2).
Proof.
  revert w. induction before as [|y before IH]; intros w; simpl.
  - intros [= <-] Hthrow. unfold bind. by rewrite Hthrow.
  - unfold bind. destruct (body y w) as [[[] | e' |] w']; [| done..].
    intros Hbefore Hthrow. by apply IH.
Qed.

Lemma processRepositories_throw args activityType generateReport
    authenticatedOwner activityConfig before repo_ after w wi w1 w2 e :
  Github.initializeGithubClient (Github.owner args) activityType w
  = (Return authenticatedOwner, wi) →
  loadActivityConfig Github.activityYaml = Return activityConfig →
  repos_listForAuthenticatedUser (octokit_auth wi)
  = Return (before ++ repo_ :: after)%list →
  for_of before
    (Github.processRepository args activityType generateReport
       authenticatedOwner activityConfig)
    (sent [ListForAuthenticatedUser] wi) = (Return tt, w1) →
  Github.processRepository args activityType generateReport
    authenticatedOwner activityConfig repo_ w1 = (Throw e, w2) →
  Github.processRepositories args activityType generateReport w
  = (Throw e, w2).
Proof.
  intros Hinit Hconfig Hrepos Hbefore Hthrow.
  unfold Github.processRepositories. unfold bind at 1. rewrite Hinit.
  unfold bind at 1. unfold lift at 1. rewrite Hconfig.
  unfold bind at 1. unfold getOctokit at 1.
  unfold bind at 1. unfold await at 1. rewrite Hrepos.
  by apply for_of_throw with (w1 := w1).
Qed.

(** C3, as the code has it: a failure that one round of the driver's loop
    lets out (a failure to render or to write the report) is not caught by
    the driver: it ends [processRepositories] in the world of the throw,
    with the repositories after it not processed, and [main] logs the
    error and exits with status 1. *)
Theorem C3_repository_failure_ends_the_run
    (args : Github.CommandLineArgs) (activityType : ActivityType)
    (generateReport : string → string → Z → Z → M (option string))
    (authenticatedOwner : string) (activityConfig : ActivityConfig)
    (before : list Repo) (repo_ : Repo) (after : list Repo)
    (w wi w1 w2 : World) (e : Error) :
  Github.parseCommandLineArgs (argv w) = Return args →
  Github.initializeGithubClient (Github.owner args) activityType w
  = (Return authenticatedOwner, wi) →
  loadActivityConfig Github.activityYaml = Return activityConfig →
  repos_listForAuthenticatedUser (octokit_auth wi)
  = Return (before ++ repo_ :: after)%list →
  for_of before
    (Github.processRepository args activityType generateReport
       authenticatedOwner activityConfig)
    (sent [ListForAuthenticatedUser] wi) = (Return tt, w1) →
  Github.processRepository args activityType generateReport
    authenticatedOwner activityConfig repo_ w1 = (Throw e, w2) →
  Github.processRepositories args activityType generateReport w
  = (Throw e, w2)
  ∧ (∀ fuel,
       activityType = act_commits →
       generateReport = GithubCommits.generateMonthlyReport fuel →
       GithubCommits.main fuel w
       = (Return (Some 1), snd (logger error (Error_message e) w2)))
  ∧ (activityType = act_issues →
     generateReport = GithubIssues.generateMonthlyReport →
     GithubIssues.main w
     = (Return (Some 1), snd (logger error (Error_message e) w2))).
Proof.
  intros Hargs Hinit Hconfig Hrepos Hbefore Hthrow.
  pose proof (processRepositories_throw _ _ _ _ _ _ _ _ _ _ _ _ _
                Hinit Hconfig Hrepos Hbefore Hthrow) as Hrun.
  split; [done |]. split.
  - intros fuel -> ->. unfold GithubCommits.main, try_catch.
    unfold bind at 1. unfold process_argv at 1.
    unfold bind at 1. unfold lift at 1. rewrite Hargs.
    unfold bind at 1. by rewrite Hrun.
  - intros -> ->. unfold GithubIssues.main, try_catch.
    unfold bind at 1. unfold process_argv at 1.
    unfold bind at 1. unfold lift at 1. rewrite Hargs.
    unfold bind at 1. by rewrite Hrun.
Qed.
End Abort.

(** ** The month window *)

Section WindowFacts.
Context {host : Host}.

Lemma new_Date_last year month :
  new_Date year month 0 = JS.mkDate (JS.TimeClip (lastMidnight year month)).
Proof. reflexivity. Qed.

Lemma month_has_a_day y mn :
  0 <= mn <= 11 → JS.MakeDay y mn 1 < JS.MakeDay y (mn + 1) 1.
Proof.
  intros Hmn. rewrite !Calendar.MakeDay_first by lia.
  pose proof (Calendar.leapDay_range y).
  assert (mn = 0 ∨ mn = 1 ∨ mn = 2 ∨ mn = 3 ∨ mn = 4 ∨ mn = 5 ∨ mn = 6
          ∨ mn = 7 ∨ mn = 8 ∨ mn = 9 ∨ mn = 10 ∨ mn = 11) as Hcases by lia.
  repeat destruct Hcases as [-> | Hcases]; try subst mn; simpl; lia.
Qed.

(** In a zone of one fixed offset, a time of the last day of the month,
    after its first millisecond, is a time of that month and lies after
    the end of the window. *)
Lemma last_day_is_outside_the_window tza year month t :
  fixedZone tza →
  1 <= month <= 12 →
  lastMidnight year month < t < lastMidnight year month + JS.msPerDay →
  getFullYear (JS.mkDate (Some t)) = Some (fullYear year)
  ∧ getMonth (JS.mkDate (Some t)) = Some (month - 1)
  ∧ JS.le (Some t) (Some (lastMidnight year month)) = false.
Proof.
  intros Hzone Hmonth Ht. unfold lastMidnight, UTC, JS.MakeDate in Ht.
  rewrite Hzone in Ht.
  set (y := fullYear year) in *.
  assert (JS.Day (LocalTime t) = JS.MakeDay y month 0) as Hday.
  { unfold JS.Day, LocalTime. rewrite Hzone. unfold JS.msPerDay in *.
    symmetry. apply Z.div_unique with
      (r := t + tza - JS.MakeDay y month 0 * 86400000); lia. }
  destruct (Calendar.month_of_time y (month - 1) (LocalTime t)) as [Hy Hm];
    [lia | |].
  { rewrite Hday. replace (month - 1 + 1) with month by lia.
    pose proof (month_has_a_day y (month - 1)) as Hlt.
    replace (month - 1 + 1) with month in Hlt by lia.
    unfold JS.MakeDay in *. lia. }
  unfold getFullYear, getMonth. simpl. rewrite Hy, Hm.
  repeat split. unfold lastMidnight, UTC, JS.MakeDate. fold y.
  rewrite Hzone. apply Z.leb_gt. lia.
Qed.

Lemma inWindow_after_end s e issue t :
  updatedTime issue = Some t → iso_time e < t →
  GithubIssues.inWindow s e issue = false.
Proof.
  intros Ht Hlate. apply not_true_is_false. intros Hin.
  apply inWindow_spec in Hin as (t' & Ht' & ?).
  rewrite Ht in Ht'. injection Ht' as <-. lia.
Qed.
End WindowFacts.

(** * Examples: a run of March 2024 on a host in UTC *)

Section Examples.
Import Example.
#[local] Existing Instance utc.
#[local] Existing Instance config.

(** The window of March 2024 runs from 2024-03-01T00:00:00Z to
    2024-03-31T00:00:00Z. *)
Example march_window :
  toISOString (new_Date 2024 (3 - 1) 1) = Return marchStart
  ∧ toISOString (new_Date 2024 3 0) = Return marchEnd
  ∧ Date_parse "2024-03-01T00:00:00Z" = Some (iso_time marchStart)
  ∧ Date_parse "2024-03-31T00:00:00Z" = Some (iso_time marchEnd).
Proof. by vm_compute. Qed.

(** The commits come back in the order of their display dates. *)
Example march_commits (issues : outcome (list RawIssue)) :
  fst (GithubCommits.getMonthlyCommitActivity
         (api := github (acme issues)) 3 "acme" "widgets" 2024 3 w0)
  = Return
      [GithubCommits.mkCommit "https://github.com/acme/widgets/commit/c2"
         "03/05/2024 2:07 PM" "widgets" "Bump version" "Ada" 1 1
         ["package.json"];
       GithubCommits.mkCommit "https://github.com/acme/widgets/commit/c1"
         "03/20/2024 10:00 AM" "widgets" "Fix parser, again" "Ada" 3 1
         ["src/parser.ts"]].
Proof. by vm_compute. Qed.

(** C2 on the code: an issue updated at noon of 31 March 2024, a time of
    March, is not among the issues of March 2024: the window ends at the
    first millisecond of 31 March. *)
Theorem C2_issue_of_the_last_day_is_dropped :
  let api := github (acme (Return [lastDayIssue])) in
  toISOString (new_Date 2024 3 0) = Return marchEnd
  ∧ updatedTime lastDayIssue = Some (iso_time marchEnd + 43200000)
  ∧ getFullYear (new_Date_string "2024-03-31T12:00:00Z") = Some 2024
  ∧ getMonth (new_Date_string "2024-03-31T12:00:00Z") = Some (3 - 1)
  ∧ GithubIssues.inWindow marchStart marchEnd lastDayIssue = false
  ∧ fst (GithubIssues.getMonthlyIssueActivity (api := api)
           "acme" "widgets" 2024 3 w0) = Return []
  ∧ fst (GithubIssues.generateMonthlyReport (api := api)
           "acme" "widgets" 2024 3 w0) = Return None.
Proof. by vm_compute. Qed.

(** The issues of the middle of the month are kept, in the order of their
    update. *)
Example march_issues :
  fst (GithubIssues.getMonthlyIssueActivity
         (api := github (acme (Return [lastDayIssue; midMonthIssue; earlyIssue])))
         "acme" "widgets" 2024 3 w0)
  = Return [GithubIssues.issueOf "widgets" earlyIssue;
            GithubIssues.issueOf "widgets" midMonthIssue]
  ∧ map GithubIssues.operation
      [GithubIssues.issueOf "widgets" earlyIssue;
       GithubIssues.issueOf "widgets" midMonthIssue]
    = ["Created"; "Completed"].
Proof. by vm_compute. Qed.

(** C3 as stated fails: when the file of the first repository cannot be
    written, the run ends with status 1 and the second repository is
    neither fetched nor written, although on a host that takes the write
    it gets its file. *)
Lemma C3_write_failure_stops_the_run :
  let api := github (acme (Return [])) in
  let refused :=
    GithubCommits.main (host := host (String.eqb widgetsCommitsPath))
                       (api := api) 3 w0 in
  let accepted := GithubCommits.main (api := api) 3 w0 in
  fst refused = Return (Some 1)
  ∧ disk (snd refused) !! gadgetsCommitsPath = None
  ∧ requests (snd refused)
    = [GetAuthenticated; ListForAuthenticatedUser;
       ListCommits "acme" "widgets" marchStart marchEnd 1;
       GetCommit "acme" "widgets" "c1"; GetCommit "acme" "widgets" "c2"]
  ∧ fst accepted = Return None
  ∧ is_Some (disk (snd accepted) !! widgetsCommitsPath)
  ∧ is_Some (disk (snd accepted) !! gadgetsCommitsPath).
Proof. vm_compute. repeat split; by eexists. Qed.

(** The row of [longCommit] is cut as C4 says. *)
Lemma C4_csv_truncation_witness :
  String.length
    (GithubCommits.truncate1024
       (GithubCommits.escape (GithubCommits.message longCommit))) = 1024%nat
  ∧ GithubCommits.truncatedFiles (GithubCommits.files longCommit)
    = (take 49 (GithubCommits.files longCommit)
       ++ ["...and 2 more files"])%list.
Proof.
  destruct (C4_csv_truncation "acme" longCommit)
    as (Hmessage & Hlength & Hfiles & _);
    [vm_compute; reflexivity | vm_compute; reflexivity |].
  rewrite Hmessage. split; [exact Hlength | exact Hfiles].
Defined.

(** A month without commits: the generator answers [null] and the round
    writes nothing. *)
Lemma C5_null_report_witness :
  let api := github (silent false) in
  let w' := commitsRound api 3 marchArgs "acme" activityConfig (mkRepo "widgets") w0 in
  fst (GithubCommits.generateMonthlyReport (api := api) 3 "acme" "widgets"
         2024 3 w0) = Return None
  ∧ disk w' = disk w0
  ∧ directories w' = directories w0.
Proof.
  destruct (C5_null_report_writes_no_file (api := github (silent false))
              3 marchArgs "acme" activityConfig (mkRepo "widgets") w0)
    as (Hcommits & _ & Hround & _).
  split; [apply Hcommits; vm_compute; reflexivity |].
  apply Hround. apply Hcommits. vm_compute. reflexivity.
Defined.

(** The commits and the issues of March 2024 come back in order. *)
Lemma C7_fetchers_sort_witness :
  let api := github (acme (Return [lastDayIssue; midMonthIssue; earlyIssue])) in
  (∃ commits,
     fst (GithubCommits.getMonthlyCommitActivity (api := api) 3
            "acme" "widgets" 2024 3 w0) = Return commits
     ∧ StronglySorted (ascending parsedDate) commits)
  ∧ ∃ sorted,
      fst (GithubIssues.getMonthlyIssueActivity (api := api)
             "acme" "widgets" 2024 3 w0)
      = Return (map (GithubIssues.issueOf "widgets") sorted)
      ∧ StronglySorted (ascending updatedTime) sorted.
Proof.
  cbv zeta.
  destruct (C7_fetchers_sort_ascending
              (api := github (acme (Return [lastDayIssue; midMonthIssue;
                                            earlyIssue])))
              3 "acme" "widgets" 2024 3 marchStart marchEnd w0)
    as [Hcommits Hissues]; [vm_compute; reflexivity.. |].
  split.
  - destruct (Hcommits
                (fun page => if page =? 1
                             then [mkCommitStub "c1"; mkCommitStub "c2"]
                             else [])
                1)
      as (commits & Hrun & _ & Hsorted).
    + lia.
    + intros i Hi. assert (i = 1) as -> by lia. reflexivity.
    + intros i Hi. lia.
    + vm_compute. lia.
    + vm_compute. lia.
    + intros commit _. cbn. unfold marchDetail.
      destruct (String.eqb (sha commit) "c1"); [done |].
      destruct (String.eqb (sha commit) "c2"); done.
    + exists commits. split; [exact Hrun |]. apply Hsorted.
      apply (bool_decide_unpack _). vm_compute. exact I.
  - destruct (Hissues [lastDayIssue; midMonthIssue; earlyIssue])
      as (sorted & Hrun & _ & Hsorted & _); [reflexivity |].
    exists sorted. split; [exact Hrun | exact Hsorted].
Defined.

(** A full page and a short one: two requests, 102 commits. *)
Lemma C8_pagination_witness :
  GithubCommits.fetchPages (api := github busy) 2 None "acme" "widgets"
    marchStart marchEnd 1 [] w0
  = (Return (concat (map twoPages (seqZ 1 2))),
     sent (map (ListCommits "acme" "widgets" marchStart marchEnd) (seqZ 1 2))
          w0).
Proof.
  apply (C8_pagination_stops_at_first_short_page (api := github busy)
           2 None "acme" "widgets" marchStart marchEnd twoPages 2 w0).
  - lia.
  - intros i Hi. reflexivity.
  - intros i Hi. assert (i = 1) as -> by lia. vm_compute. lia.
  - vm_compute. lia.
  - vm_compute. lia.
Defined.

(** A list call that throws and a list call that answers nothing leave
    the same files. *)
Lemma C10_failed_list_fetch_witness :
  let failing := github (silent true) in
  let empty := github (silent false) in
  fst (GithubCommits.generateMonthlyReport (api := failing) 1 "acme"
         "widgets" 2024 3 w0) = Return None
  ∧ disk (commitsRound failing 1 marchArgs "acme" activityConfig (mkRepo "widgets") w0)
    = disk (commitsRound empty 1 marchArgs "acme" activityConfig (mkRepo "widgets") w0)
  ∧ fst (GithubIssues.generateMonthlyReport (api := failing) "acme"
           "widgets" 2024 3 w0) = Return None
  ∧ disk (issuesRound failing marchArgs "acme" activityConfig (mkRepo "widgets") w0)
    = disk (issuesRound empty marchArgs "acme" activityConfig (mkRepo "widgets") w0).
Proof.
  destruct (C10_failed_list_fetch_looks_like_no_activity
              (github (silent true)) (github (silent false)) 0 marchArgs
              "acme" activityConfig (mkRepo "widgets") w0 marchStart marchEnd
              (mkError "Bad Gateway"))
    as ((_ & Hnull & _ & Hdisk & _) & (_ & Hnull' & _ & Hdisk' & _));
    [vm_compute; reflexivity.. |].
  repeat split; assumption.
Defined.

(** The refused write of the first repository ends the run. *)
Lemma C3_repository_failure_witness :
  let readOnly := host (String.eqb widgetsCommitsPath) in
  let api := github (acme (Return [])) in
  fst (GithubCommits.main (host := readOnly) (api := api) 3 w0)
  = Return (Some 1).
Proof.
  cbv zeta.
  pose (readOnly := host (String.eqb widgetsCommitsPath)).
  pose (api := github (acme (Return []))).
  pose (generate := GithubCommits.generateMonthlyReport
                      (host := readOnly) (api := api) 3).
  pose (wi := snd (Github.initializeGithubClient (api := api) "acme"
                     act_commits w0)).
  pose (w1 := sent [ListForAuthenticatedUser] wi).
  pose (w2 := snd (Github.processRepository (host := readOnly) marchArgs
                     act_commits generate "acme" activityConfig (mkRepo "widgets") w1)).
  destruct (C3_repository_failure_ends_the_run (host := readOnly)
              (api := api) marchArgs act_commits generate "acme" activityConfig
              [] (mkRepo "widgets") [mkRepo "gadgets"] w0 wi w1 w2
              (mkError ("EACCES: permission denied, open "
                        ++ widgetsCommitsPath)))
    as (_ & Hmain & _); [vm_compute; reflexivity.. |].
  exact (f_equal fst (Hmain 3%nat eq_refl eq_refl)).
Defined.
End Examples.

(** * Further properties *)

(** ** The command line *)

Section CommandLine.
Context {host : Host}.
Import Github.

(** Induction over an argument list two arguments at a time, as the loop
    consumes them. *)
Lemma args_ind (P : list string → Prop) :
  P [] →
  (∀ a, P [] → P [a]) →
  (∀ a next rest, P (next :: rest) → P rest → P (a :: next :: rest)) →
  ∀ args, P args.
Proof.
  intros Hnil Hone Htwo.
  assert (∀ args, P args ∧ ∀ a, P (a :: args)) as Hboth.
  { induction args as [|next rest [IH1 IH2]].
    - split; [done |]. intros a. by apply Hone.
    - split; [apply IH2 |]. intros a. apply Htwo; [apply IH2 | apply IH1]. }
  intros args. apply Hboth.
Qed.

(** What the loop answers: the positional arguments it adds are arguments,
    in number at most the arguments it read; without [--format] the format
    stays, without [--omit] the omitted repository stays. *)
Lemma parseLoop_spec args :
  ∀ omit fmt parsedArgs omit' fmt' parsedArgs',
    parseLoop args omit fmt parsedArgs = Return (omit', fmt', parsedArgs') →
    ∃ added,
      parsedArgs' = (parsedArgs ++ added)%list
      ∧ (length added <= length args)%nat
      ∧ (∀ a, a ∈ added → a ∈ args)
      ∧ ("--format" ∉ args → fmt' = fmt)
      ∧ ("--omit" ∉ args → omit' = omit).
Proof.
  induction args as [| a IHnil | a next rest IH1 IH2] using args_ind;
    intros omit fmt parsedArgs omit' fmt' parsedArgs'.
  - simpl. intros [= <- <- <-]. exists []. rewrite app_nil_r.
    repeat split; [done | set_solver].
  - simpl. destruct (negb (String.eqb a "--replace")); simpl;
      intros [= <- <- <-].
    + exists [a]. repeat split; [done | set_solver].
    + exists []. rewrite app_nil_r. repeat split; [simpl; lia | set_solver].
  - cbn [parseLoop].
    destruct (String.eqb_spec a "--omit") as [-> | Homit].
    { intros Hrest. apply IH2 in Hrest as (added & -> & Hlen & Hin & Hfmt & _).
      exists added. repeat split; [simpl; lia | set_solver | set_solver | set_solver]. }
    destruct (String.eqb_spec a "--format") as [-> | Hformat].
    { destruct (String.eqb (toLowerCase next) "csv").
      - intros Hrest. apply IH2 in Hrest as (added & -> & Hlen & Hin & _ & Homit').
        exists added. repeat split; [simpl; lia | set_solver | set_solver | set_solver].
      - destruct (String.eqb (toLowerCase next) "nl"); [| done].
        intros Hrest. apply IH2 in Hrest as (added & -> & Hlen & Hin & _ & Homit').
        exists added. repeat split; [simpl; lia | set_solver | set_solver | set_solver]. }
    destruct (negb (String.eqb a "--replace")).
    + intros Hrest. apply IH1 in Hrest as (added & -> & Hlen & Hin & Hfmt & Homit').
      exists (a :: added). rewrite <- app_assoc. simpl in *.
      repeat split; [lia | set_solver | set_solver | set_solver].
    + intros Hrest. apply IH1 in Hrest as (added & -> & Hlen & Hin & Hfmt & Homit').
      exists added. simpl in *.
      repeat split; [lia | set_solver | set_solver | set_solver].
Qed.

Lemma parseLoop_never_diverges args :
  ∀ omit fmt parsedArgs, parseLoop args omit fmt parsedArgs ≠ Diverge.
Proof.
  induction args as [| a IHnil | a next rest IH1 IH2] using args_ind;
    intros omit fmt parsedArgs; [done | |].
  - simpl. by destruct (negb _).
  - cbn [parseLoop].
    destruct (String.eqb a "--omit"); [apply IH2 |].
    destruct (String.eqb a "--format").
    { destruct (String.eqb (toLowerCase next) "csv"); [apply IH2 |].
      destruct (String.eqb (toLowerCase next) "nl"); [apply IH2 | done]. }
    destruct (negb _); apply IH1.
Qed.

(** What [parseCommandLineArgs] answers is either a throw or the record of
    three positional arguments. *)
Lemma parseCommandLineArgs_inv args a :
  parseCommandLineArgs args = Return a →
  ∃ omit fmt ownerArg yearStr monthStr,
    parseLoop args None nl [] = Return (omit, fmt, [ownerArg; yearStr; monthStr])
    ∧ parseInt yearStr = Some (year a)
    ∧ parseInt monthStr = Some (month a)
    ∧ 1 <= month a <= 12
    ∧ a = mkArgs ownerArg (year a) (month a) omit
                 (existsb (String.eqb "--replace") args) fmt.
Proof.
  unfold parseCommandLineArgs.
  destruct (parseLoop args None nl []) as [[[omit fmt] parsed] | e |];
    [| done..].
  destruct parsed as [| ownerArg [| yearStr [| monthStr [| extra parsed]]]];
    try done.
  destruct (parseInt yearStr) as [y|] eqn:Hy; [| done].
  destruct (parseInt monthStr) as [m|] eqn:Hm; [| done].
  destruct (Z.ltb_spec m 1); [done |]. destruct (Z.ltb_spec 12 m); [done |].
  simpl. intros [= <-]. exists omit, fmt, ownerArg, yearStr, monthStr.
  simpl. repeat split; (done || lia).
Qed.

(** X1: fewer than three arguments never parse: [parseCommandLineArgs]
    throws. *)
Theorem X1_too_few_arguments_throw (args : list string) :
  (length args < 3)%nat → ∃ e, parseCommandLineArgs args = Throw e.
Proof.
  intros Hshort.
  destruct (parseCommandLineArgs args) as [a | e |] eqn:Hparse; [| by exists e |].
  - apply parseCommandLineArgs_inv in Hparse
      as (omit & fmt & o & y & m & Hloop & _).
    apply parseLoop_spec in Hloop as (added & Hadded & Hlen & _).
    simpl in Hadded. subst added. simpl in Hlen. lia.
  - exfalso. unfold parseCommandLineArgs in Hparse.
    pose proof (parseLoop_never_diverges args None nl []) as Hloop.
    destruct (parseLoop args None nl []) as [[[omit fmt] parsed] | e |];
      [| done..].
    destruct parsed as [| o [| y [| m [| extra parsed]]]]; try done.
    destruct (parseInt y), (parseInt m); try done.
    by destruct (_ || _).
Qed.

(** X2: what [parseCommandLineArgs] returns is validated: the month lies
    between 1 and 12, the owner is an argument, year and month are what
    [parseInt] reads in two of the arguments, and the replace flag is set
    exactly when [--replace] is among the arguments. *)
Theorem X2_parsed_arguments_are_validated
    (args : list string) (a : CommandLineArgs) :
  parseCommandLineArgs args = Return a →
  1 <= month a <= 12
  ∧ owner a ∈ args
  ∧ (∃ yearStr, yearStr ∈ args ∧ parseInt yearStr = Some (year a))
  ∧ (∃ monthStr, monthStr ∈ args ∧ parseInt monthStr = Some (month a))
  ∧ (shouldReplace a = true ↔ "--replace" ∈ args).
Proof.
  intros (omit & fmt & o & y & m & Hloop & Hy & Hm & Hrange & ->)
    %parseCommandLineArgs_inv.
  apply parseLoop_spec in Hloop as (added & Hadded & _ & Hin & _).
  simpl in Hadded. subst added. cbn [owner year month shouldReplace].
  split; [done |]. split; [apply Hin; set_solver |].
  split; [exists y; split; [apply Hin; set_solver | done] |].
  split; [exists m; split; [apply Hin; set_solver | done] |].
  rewrite existsb_exists. split.
  - intros (x & Hx & ->%String.eqb_eq). by apply list_elem_of_In.
  - intros Hx. exists "--replace". split; [by apply list_elem_of_In | done].
Qed.

(** X3: the options have defaults: without [--format] among the arguments
    the format is the natural-language one, and without [--omit] no
    repository is omitted. *)
Theorem X3_option_defaults (args : list string) (a : CommandLineArgs) :
  parseCommandLineArgs args = Return a →
  ("--format" ∉ args → format a = nl)
  ∧ ("--omit" ∉ args → omitRepo a = None).
Proof.
  intros (omit & fmt & o & y & m & Hloop & _ & _ & _ & ->)
    %parseCommandLineArgs_inv.
  apply parseLoop_spec in Hloop as (added & _ & _ & _ & Hfmt & Homit).
  simpl. split; [apply Hfmt | apply Homit].
Qed.
End CommandLine.

(** ** The backfill script *)

Section BackfillFacts.
Context {host : Host}.

Lemma backfill_parseLoop_spec args :
  ∀ type type',
    Backfill.parseLoop args type = Return type' →
    ("--type" ∉ args → type' = type)
    ∧ (∀ t, type' = Some t →
            type = Some t
            ∨ ∃ next, next ∈ args
                      ∧ toLowerCase next = ActivityType_name t).
Proof.
  induction args as [| a IHnil | a next rest IH1 IH2] using args_ind;
    intros type type'.
  - simpl. intros [= <-]. split; [done | by left].
  - simpl. intros [= <-]. split; [done | by left].
  - cbn [Backfill.parseLoop].
    destruct (String.eqb_spec a "--type") as [-> | Hne].
    + cbv zeta.
      destruct (String.eqb_spec (toLowerCase next) "issues") as [Hi | _].
      { intros [_ Hrest]%IH2. split; [set_solver |].
        intros t [[= <-] | (n & Hn & Hlow)]%Hrest; right.
        - exists next. split; [set_solver | done].
        - exists n. split; [set_solver | done]. }
      destruct (String.eqb_spec (toLowerCase next) "commits") as [Hc | _];
        [| done].
      intros [_ Hrest]%IH2. split; [set_solver |].
      intros t [[= <-] | (n & Hn & Hlow)]%Hrest; right.
      * exists next. split; [set_solver | done].
      * exists n. split; [set_solver | done].
    + intros [Hnone Hrest]%IH1. split; [set_solver |].
      intros t [? | (n & Hn & Hlow)]%Hrest; [by left | right].
      exists n. split; [set_solver | done].
Qed.

(** X4: the backfill script asks for a type: without [--type] among the
    arguments it throws its usage line, and a type it returns is the
    lower-case form of one of the arguments. *)
Theorem X4_backfill_type_is_required
    (args : list string) :
  ("--type" ∉ args →
   Backfill.parseCommandLineArgs args
   = Throw (mkError "Usage: --type [issues|commits]"))
  ∧ (∀ type,
       Backfill.parseCommandLineArgs args = Return type →
       ∃ next, next ∈ args ∧ toLowerCase next = ActivityType_name type).
Proof.
  unfold Backfill.parseCommandLineArgs. split.
  - intros Hnone.
    destruct (Backfill.parseLoop args None) as [type | e |] eqn:Hloop.
    + apply backfill_parseLoop_spec in Hloop as [Hsame _].
      by rewrite (Hsame Hnone).
    + exfalso. revert e Hloop. generalize (@None ActivityType) as type.
      induction args as [| a IHnil | a next rest IH1 IH2] using args_ind;
        intros type e; [done | done |].
      cbn [Backfill.parseLoop].
      destruct (String.eqb_spec a "--type") as [-> | _]; [set_solver |].
      apply IH1. set_solver.
    + exfalso. revert Hloop. generalize (@None ActivityType) as type.
      induction args as [| a IHnil | a next rest IH1 IH2] using args_ind;
        intros type; [done | done |].
      cbn [Backfill.parseLoop].
      destruct (String.eqb_spec a "--type") as [-> | _]; [set_solver |].
      apply IH1. set_solver.
  - intros type.
    destruct (Backfill.parseLoop args None) as [[t |] | e |] eqn:Hloop;
      [| done..].
    intros [= ->]. apply backfill_parseLoop_spec in Hloop as [_ Hfrom].
    by destruct (Hfrom type eq_refl) as [? | ?].
Qed.

(** X5: the arguments the backfill script hands to a report module parse:
    for an owner, a year and a month directory that are no options, with a
    month the script keeps, [parseCommandLineArgs] of [github.ts] returns
    that owner, year and month, no omitted repository, the replace flag set
    and the natural-language format. *)
Theorem X5_backfill_arguments_parse
    (node modulePath owner year month : string) (yearInt : Z) :
  isFlag owner = false → isFlag year = false → isFlag month = false →
  toLowerCase "nl" = "nl" →
  parseInt year = Some yearInt →
  Backfill.monthKept month = true →
  ∃ monthInt,
    parseInt month = Some monthInt
    ∧ Github.parseCommandLineArgs
        (drop 2 (Backfill.moduleArgv node modulePath owner year month))
      = Return (Github.mkArgs owner yearInt monthInt None true Github.nl).
Proof.
  unfold isFlag, Backfill.monthKept.
  intros [[Ho1 Ho2]%orb_false_iff Ho3]%orb_false_iff
         [[Hy1 Hy2]%orb_false_iff Hy3]%orb_false_iff
         [[Hm1 Hm2]%orb_false_iff Hm3]%orb_false_iff Hlower Hyear Hkept.
  destruct (parseInt month) as [monthInt |] eqn:Hmonth; [| done].
  exists monthInt. split; [done |].
  apply negb_true_iff in Hkept.
  assert (existsb (String.eqb "--replace")
            [owner; year; month; "--format"; "nl"; "--replace"] = true)
    as Hreplace.
  { apply existsb_exists. exists "--replace". split; [| done].
    do 5 right. by left. }
  unfold Github.parseCommandLineArgs, Backfill.moduleArgv.
  cbn [drop]. rewrite Hreplace. cbn [Github.parseLoop].
  rewrite Ho1, Ho2, Ho3, Hy1, Hy2, Hy3, Hm1, Hm2, Hm3. cbn [negb app].
  rewrite Hlower.
  change (String.eqb "--format" "--omit") with false.
  change (String.eqb "--format" "--format") with true.
  change (String.eqb "nl" "csv") with false.
  change (String.eqb "nl" "nl") with true.
  change (String.eqb "--replace" "--replace") with true.
  cbn [negb app]. by rewrite Hyear, Hmonth, Hkept.
Qed.
End BackfillFacts.

(** ** Fatal errors of a run *)

Section FatalErrors.
Context {host : Host} {conf : Config} {api : GitHub}.

(** X6: an argument error ends the run with status 1 after one error line
    that carries its message: no request is sent and no file or directory
    is touched, for the commit report and for the issue report. *)
Theorem X6_argument_error_ends_the_run (fuel : nat) (w : World) (e : Error) :
  Github.parseCommandLineArgs (argv w) = Throw e →
  GithubCommits.main fuel w
  = (Return (Some 1), snd (logger error (Error_message e) w))
  ∧ GithubIssues.main w
    = (Return (Some 1), snd (logger error (Error_message e) w)).
Proof.
  intros Hparse. split.
  - unfold GithubCommits.main, try_catch.
    unfold bind at 1. unfold process_argv at 1.
    unfold bind at 1. unfold lift at 1. by rewrite Hparse.
  - unfold GithubIssues.main, try_catch.
    unfold bind at 1. unfold process_argv at 1.
    unfold bind at 1. unfold lift at 1. by rewrite Hparse.
Qed.

Lemma initializeGithubClient_unknown_owner owner activityType activityConfig w :
  loadActivityConfig Github.activityYaml = Return activityConfig →
  github_owner activityConfig activityType
    (if String.eqb owner "self" then "tobrien" else owner) = None →
  Github.initializeGithubClient owner activityType w
  = (Throw (mkError ("Owner " ++ owner ++ " not found in activity configuration")),
     w).
Proof.
  intros Hconfig Howner. unfold Github.initializeGithubClient.
  unfold bind, lift. by rewrite Hconfig, Howner.
Qed.

(** X7: an owner the activity configuration does not know ends the run
    with status 1 and the line "Owner ... not found in activity
    configuration", before any request is sent; the owner [self] is looked
    up as [tobrien]. *)
Theorem X7_unknown_owner_ends_the_run
    (fuel : nat) (w : World) (args : Github.CommandLineArgs)
    (activityConfig : ActivityConfig) :
  let known := if String.eqb (Github.owner args) "self" then "tobrien"
               else Github.owner args in
  let line := "Owner " ++ Github.owner args
              ++ " not found in activity configuration" in
  Github.parseCommandLineArgs (argv w) = Return args →
  loadActivityConfig Github.activityYaml = Return activityConfig →
  github_owner activityConfig act_commits known = None →
  github_owner activityConfig act_issues known = None →
  GithubCommits.main fuel w = (Return (Some 1), snd (logger error line w))
  ∧ GithubIssues.main w = (Return (Some 1), snd (logger error line w)).
Proof.
  cbv zeta. intros Hparse Hconfig Hcommits Hissues. split.
  - unfold GithubCommits.main, try_catch.
    unfold bind at 1. unfold process_argv at 1.
    unfold bind at 1. unfold lift at 1. rewrite Hparse.
    unfold bind at 1. unfold Github.processRepositories. unfold bind at 1.
    by rewrite (initializeGithubClient_unknown_owner _ _ activityConfig).
  - unfold GithubIssues.main, try_catch.
    unfold bind at 1. unfold process_argv at 1.
    unfold bind at 1. unfold lift at 1. rewrite Hparse.
    unfold bind at 1. unfold Github.processRepositories. unfold bind at 1.
    by rewrite (initializeGithubClient_unknown_owner _ _ activityConfig).
Qed.
End FatalErrors.

(** ** The commit fetcher, page by page and commit by commit *)

Section CommitFetch.
Context {host : Host} {conf : Config} {api : GitHub}.

(** X8: a commit whose detail fetch throws is skipped with one error line,
    and the loop goes on: it answers the records of the commits whose detail
    fetch answered, in the order of the list, after one request per listed
    commit, and touches no file. *)
Theorem X8_failed_details_are_skipped
    (octokit : option string) (owner repo_ : string)
    (allCommits : list CommitStub) (processed : list GithubCommits.Commit)
    (w : World) :
  (∀ commit, commit ∈ allCommits →
             repos_getCommit octokit owner repo_ (sha commit) ≠ Diverge) →
  let run := GithubCommits.processCommits octokit owner repo_ allCommits
               processed w in
  fst run = Return (processed ++ omap (detailRecord octokit owner repo_) allCommits)%list
  ∧ requests (snd run)
    = (requests w ++ map (λ commit, GetCommit owner repo_ (sha commit)) allCommits)%list
  ∧ logged (snd run)
    = (logged w ++ omap (detailFailure octokit owner repo_) allCommits)%list
  ∧ disk (snd run) = disk w
  ∧ directories (snd run) = directories w.
Proof.
  cbv zeta. revert processed w.
  induction allCommits as [|commit rest IH]; intros processed w Hanswers.
  - simpl. by rewrite !app_nil_r.
  - rewrite processCommits_cons, !omap_cons. cbn [map].
    unfold detailRecord at 1, detailFailure at 1.
    assert (∀ c, c ∈ rest →
                 repos_getCommit octokit owner repo_ (sha c) ≠ Diverge)
      as Hrest by (intros c Hc; apply Hanswers; by right).
    pose proof (Hanswers commit ltac:(by left)) as Hcommit.
    destruct (repos_getCommit octokit owner repo_ (sha commit))
      as [detail | e |]; [| | done].
    + destruct (IH (processed ++ [GithubCommits.commitOf repo_ detail])%list
                  (sent [GetCommit owner repo_ (sha commit)] w) Hrest)
        as (Hfst & Hreq & Hlog & Hdisk & Hdirs).
      rewrite Hfst, Hreq, Hlog, Hdisk, Hdirs.
      cbn [sent logger snd requests logged disk directories].
      rewrite <- ?app_assoc. by repeat split.
    + match goal with
      | |- context [GithubCommits.processCommits _ _ _ rest processed ?w'] =>
          destruct (IH processed w' Hrest)
            as (Hfst & Hreq & Hlog & Hdisk & Hdirs)
      end.
      rewrite Hfst, Hreq, Hlog, Hdisk, Hdirs.
      cbn [sent logger snd requests logged disk directories].
      rewrite <- ?app_assoc. by repeat split.
Qed.
End CommitFetch.

Section CommitFetchWhole.
Context {host : Host} {conf : Config} {api : GitHub}.

Lemma processCommits_requests octokit owner repo_ allCommits :
  ∀ processed w,
    (∀ commit, commit ∈ allCommits →
               repos_getCommit octokit owner repo_ (sha commit) ≠ Diverge) →
    requests (snd (GithubCommits.processCommits octokit owner repo_ allCommits
                     processed w))
    = (requests w
       ++ map (λ commit, GetCommit owner repo_ (sha commit)) allCommits)%list.
Proof.
  induction allCommits as [|commit rest IH]; intros processed w Hanswers.
  - simpl. by rewrite app_nil_r.
  - rewrite processCommits_cons. cbn [map].
    pose proof (Hanswers commit ltac:(by left)) as Hcommit.
    destruct (repos_getCommit octokit owner repo_ (sha commit))
      as [detail | e |]; [| | done];
      rewrite IH by (intros c Hc; apply Hanswers; by right);
      cbn [sent logger snd requests]; by rewrite <- app_assoc.
Qed.

(** X9: when page [last] is the first short page and the window is valid,
    the commit fetcher answers the records of the listed commits whose
    detail fetch answered, as [sort] leaves them: a rearrangement of these
    records, none lost and none added, so never more than the commits
    listed.  It has then sent the list requests for the pages 1 to [last]
    and one detail request for each listed commit, in this order, and
    nothing else. *)
Theorem X9_commit_fetcher_returns_the_fetched_details
    (fuel : nat) (owner repo_ : string) (year month : Z) (s e : ISOString)
    (pages : Z → list CommitStub) (last : Z) (w : World) :
  let octokit := octokit_auth w in
  let listed := concat (map pages (seqZ 1 last)) in
  let records := omap (detailRecord octokit owner repo_) listed in
  toISOString (new_Date year (month - 1) 1) = Return s →
  toISOString (new_Date year month 0) = Return e →
  1 <= last →
  (∀ i : Z, 1 <= i <= last →
            repos_listCommits octokit owner repo_ s e 100 i = Return (pages i)) →
  (∀ i : Z, 1 <= i < last → (100 <= length (pages i))%nat) →
  (length (pages last) < 100)%nat →
  (Z.to_nat last <= fuel)%nat →
  (∀ commit, commit ∈ listed →
             repos_getCommit octokit owner repo_ (sha commit) ≠ Diverge) →
  let run :=
    GithubCommits.getMonthlyCommitActivity fuel owner repo_ year month w in
  ∃ commits,
    fst run = Return commits
    ∧ commits = sort GithubCommits.compareByDate records
    ∧ Permutation commits records
    ∧ (length commits <= length listed)%nat
    ∧ requests (snd run)
      = (requests w
         ++ map (ListCommits owner repo_ s e) (seqZ 1 last)
         ++ map (λ commit, GetCommit owner repo_ (sha commit)) listed)%list.
Proof.
  cbv zeta. intros Hs He Hlast Hpages Hfull Hshort Hfuel Hdetails.
  rewrite (commits_fetched fuel owner repo_ year month s e pages last)
    by done.
  eexists. split; [reflexivity |]. split; [reflexivity |].
  split; [apply sort_Permutation |].
  split; [rewrite sort_Permutation; apply length_omap_le |].
  cbn [snd]. rewrite processCommits_requests by done.
  cbn [sent requests]. by rewrite app_assoc.
Qed.

(** The loop entered at page [p] when the page [n] pages further throws
    after full pages. *)
Lemma fetchPages_until_throw
    (octokit : option string) (owner repo_ : string) (s e : ISOString)
    (pages : Z → list CommitStub) (err : Error) (n : nat) :
  ∀ (fuel : nat) (p : Z) (acc : list CommitStub) (w : World),
    (∀ i : Z, p <= i < p + Z.of_nat n →
              repos_listCommits octokit owner repo_ s e 100 i = Return (pages i)
              ∧ (100 <= length (pages i))%nat) →
    repos_listCommits octokit owner repo_ s e 100 (p + Z.of_nat n) = Throw err →
    (n < fuel)%nat →
    GithubCommits.fetchPages fuel octokit owner repo_ s e p acc w
    = (Throw err,
       sent (map (ListCommits owner repo_ s e) (seqZ p (Z.of_nat n + 1))) w).
Proof.
  induction n as [|n IH]; intros fuel p acc w Hfull Hthrow Hfuel;
    (destruct fuel as [|fuel]; [lia |]).
  - cbn [GithubCommits.fetchPages]. unfold bind, await.
    replace (p + Z.of_nat 0) with p in Hthrow by lia. rewrite Hthrow.
    change (Z.of_nat 0 + 1) with 1. rewrite seqZ_cons by lia.
    change (Z.pred 1) with 0. by rewrite seqZ_nil by lia.
  - cbn [GithubCommits.fetchPages]. unfold bind at 1. unfold await at 1.
    destruct (Hfull p ltac:(lia)) as [-> Hlen].
    assert ((length (pages p) <? 100)%nat = false) as ->
      by (by apply Nat.ltb_ge).
    rewrite (IH fuel (p + 1));
      [| intros; apply Hfull; lia
       | by replace (p + 1 + Z.of_nat n) with (p + Z.of_nat (S n)) by lia
       | lia].
    rewrite (seqZ_cons p (Z.of_nat (S n) + 1)) by lia.
    replace (Z.pred (Z.of_nat (S n) + 1)) with (Z.of_nat n + 1) by lia.
    replace (Z.succ p) with (p + 1) by lia.
    cbn [map]. by rewrite sent_cons.
Qed.

(** X10: a list call that throws on a later page loses the pages before
    it: when the pages before page [failed] are full and page [failed]
    throws, the commit fetcher answers the empty list, after the list
    requests for pages 1 to [failed], one error line, and no detail
    request. *)
Theorem X10_failed_page_discards_the_pages_before
    (fuel : nat) (owner repo_ : string) (year month : Z) (s e : ISOString)
    (pages : Z → list CommitStub) (failed : Z) (err : Error) (w : World) :
  let octokit := octokit_auth w in
  toISOString (new_Date year (month - 1) 1) = Return s →
  toISOString (new_Date year month 0) = Return e →
  1 <= failed →
  (∀ i : Z, 1 <= i < failed →
            repos_listCommits octokit owner repo_ s e 100 i = Return (pages i)
            ∧ (100 <= length (pages i))%nat) →
  repos_listCommits octokit owner repo_ s e 100 failed = Throw err →
  (Z.to_nat failed <= fuel)%nat →
  GithubCommits.getMonthlyCommitActivity fuel owner repo_ year month w
  = (Return [],
     snd (logger error ("Error fetching commits: " ++ Error_message err)
            (sent (map (ListCommits owner repo_ s e) (seqZ 1 failed)) w))).
Proof.
  cbv zeta. intros Hs He Hfailed Hfull Hthrow Hfuel.
  unfold GithubCommits.getMonthlyCommitActivity.
  unfold bind at 1. unfold getOctokit at 1.
  unfold bind at 1. unfold lift at 1. rewrite Hs.
  unfold bind at 1. unfold lift at 1. rewrite He.
  unfold try_catch. unfold bind at 1.
  rewrite (fetchPages_until_throw (octokit_auth w) owner repo_ s e pages err
             (Z.to_nat (failed - 1)) fuel 1 [] w);
    [| intros i Hi; apply Hfull; lia
     | by replace (1 + Z.of_nat (Z.to_nat (failed - 1))) with failed by lia
     | lia].
  by replace (Z.of_nat (Z.to_nat (failed - 1)) + 1) with failed by lia.
Qed.

(** X11: once the window is valid, a fetcher never throws: whatever the
    client throws is caught inside, for commits and for issues. *)
Theorem X11_fetchers_catch_every_throw
    (fuel : nat) (owner repo_ : string) (year month : Z) (s e : ISOString)
    (w : World) (err : Error) :
  toISOString (new_Date year (month - 1) 1) = Return s →
  toISOString (new_Date year month 0) = Return e →
  fst (GithubCommits.getMonthlyCommitActivity fuel owner repo_ year month w)
  ≠ Throw err
  ∧ fst (GithubIssues.getMonthlyIssueActivity owner repo_ year month w)
    ≠ Throw err.
Proof.
  intros Hs He. split.
  - unfold GithubCommits.getMonthlyCommitActivity.
    unfold bind at 1. unfold getOctokit at 1.
    unfold bind at 1. unfold lift at 1. rewrite Hs.
    unfold bind at 1. unfold lift at 1. rewrite He.
    unfold try_catch. unfold bind at 1.
    destruct (GithubCommits.fetchPages _ _ _ _ _ _ _ _ _) as [[l | e' |] w1];
      [| done..].
    unfold bind at 1.
    by destruct (GithubCommits.processCommits _ _ _ _ _ _) as [[p | e' |] w2].
  - unfold GithubIssues.getMonthlyIssueActivity.
    unfold bind at 1. unfold getOctokit at 1.
    unfold bind at 1. unfold lift at 1. rewrite Hs.
    unfold bind at 1. unfold lift at 1. rewrite He.
    unfold try_catch, bind, await.
    by destruct (issues_listForRepo _ _ _ _ _ _ _).
Qed.
End CommitFetchWhole.

(** ** The issue fetcher and the window *)

Section IssueFetch.
Context {host : Host} {conf : Config} {api : GitHub}.

(** X12: the issue fetcher sends one list request and no second one,
    however many issues the answer holds, and answers the records of exactly
    the issues of that answer whose [updated_at] lies from the start to the
    end of the window, both included, each once. *)
Theorem X12_issue_fetcher_keeps_the_window
    (owner repo_ : string) (year month : Z) (s e : ISOString)
    (issues : list RawIssue) (w : World) :
  toISOString (new_Date year (month - 1) 1) = Return s →
  toISOString (new_Date year month 0) = Return e →
  issues_listForRepo (octokit_auth w) owner repo_ s e 100 "all" = Return issues →
  let run := GithubIssues.getMonthlyIssueActivity owner repo_ year month w in
  ∃ kept,
    fst run = Return (map (GithubIssues.issueOf repo_) kept)
    ∧ Permutation kept (List.filter (GithubIssues.inWindow s e) issues)
    ∧ Forall (λ issue, ∃ t, updatedTime issue = Some t
                            ∧ iso_time s <= t <= iso_time e) kept
    ∧ (∀ issue t, issue ∈ issues → updatedTime issue = Some t →
                  iso_time s <= t <= iso_time e → issue ∈ kept)
    ∧ requests (snd run) = (requests w ++ [ListForRepo owner repo_ s e])%list.
Proof.
  intros Hs He Hlist. cbv zeta.
  exists (sort GithubIssues.compareByUpdate
            (List.filter (GithubIssues.inWindow s e) issues)).
  assert (GithubIssues.getMonthlyIssueActivity owner repo_ year month w
          = (Return (map (GithubIssues.issueOf repo_)
                       (sort GithubIssues.compareByUpdate
                          (List.filter (GithubIssues.inWindow s e) issues))),
             sent [ListForRepo owner repo_ s e] w)) as ->.
  { unfold GithubIssues.getMonthlyIssueActivity.
    unfold bind at 1. unfold getOctokit at 1.
    unfold bind at 1. unfold lift at 1. rewrite Hs.
    unfold bind at 1. unfold lift at 1. rewrite He.
    unfold try_catch, bind, await. by rewrite Hlist. }
  split; [done |]. split; [apply sort_Permutation |]. split; [| split; [| done]].
  - eapply Permutation_Forall; [symmetry; apply sort_Permutation |].
    apply Forall_forall. intros issue [_ Hin]%list_elem_of_In%filter_In.
    by apply inWindow_spec.
  - intros issue t Hin Ht Hrange.
    rewrite sort_Permutation. apply list_elem_of_In, filter_In.
    split; [by apply list_elem_of_In |]. apply inWindow_spec. by exists t.
Qed.
End IssueFetch.

Section WindowShape.
Context {host : Host}.

Lemma daysInMonth_range y mn : 0 <= mn <= 11 → 28 <= daysInMonth y mn <= 31.
Proof.
  intros Hmn. unfold daysInMonth. pose proof (Calendar.leapDay_range y).
  assert (mn = 0 ∨ mn = 1 ∨ mn = 2 ∨ mn = 3 ∨ mn = 4 ∨ mn = 5 ∨ mn = 6
          ∨ mn = 7 ∨ mn = 8 ∨ mn = 9 ∨ mn = 10 ∨ mn = 11) as Hcases by lia.
  repeat destruct Hcases as [-> | Hcases]; try subst mn; simpl; lia.
Qed.

Lemma Day_of_midnight day : JS.Day (JS.MakeDate day 0) = day.
Proof.
  unfold JS.Day, JS.MakeDate, JS.msPerDay.
  rewrite Z.add_0_r. by apply Z.div_mul.
Qed.

Lemma getFullYear_ISO t :
  getFullYear (new_Date_ISO (iso t)) = Some (JS.YearFromTime (LocalTime t)).
Proof. reflexivity. Qed.

Lemma getMonth_ISO t :
  getMonth (new_Date_ISO (iso t)) = Some (JS.MonthFromTime (LocalTime t)).
Proof. reflexivity. Qed.

(** X13: on a host whose time zone keeps one fixed offset from UTC, for a
    month from 1 to 12 the window starts at local midnight of the first day
    of that month of the year asked for (a year from 0 to 99 stands for
    1900 plus that year) and ends at local midnight of its last day: the
    end is the start plus the days of the month less one, that is 27 to 30
    days later, and still in that month. *)
Theorem X13_window_is_first_to_last_midnight
    (tza year month : Z) (s e : ISOString) :
  fixedZone tza →
  1 <= month <= 12 →
  toISOString (new_Date year (month - 1) 1) = Return s →
  toISOString (new_Date year month 0) = Return e →
  let y := fullYear year in
  getFullYear (new_Date_ISO s) = Some y
  ∧ getMonth (new_Date_ISO s) = Some (month - 1)
  ∧ JS.DateFromTime (LocalTime (iso_time s)) = 1
  ∧ JS.TimeWithinDay (LocalTime (iso_time s)) = 0
  ∧ iso_time e = iso_time s + (daysInMonth y (month - 1) - 1) * JS.msPerDay
  ∧ 27 * JS.msPerDay <= iso_time e - iso_time s <= 30 * JS.msPerDay
  ∧ getFullYear (new_Date_ISO e) = Some y
  ∧ getMonth (new_Date_ISO e) = Some (month - 1).
Proof.
  intros Hzone Hmonth Hs He. cbv zeta.
  unfold toISOString, new_Date in Hs, He. fold (fullYear year) in Hs, He.
  set (y := fullYear year) in *. cbn [JS.getTime] in Hs, He.
  unfold JS.TimeClip in Hs, He.
  destruct (Z.abs _ <=? _) in Hs; [| done]. injection Hs as <-.
  destruct (Z.abs _ <=? _) in He; [| done]. injection He as <-.
  rewrite !getFullYear_ISO, !getMonth_ISO. cbn [iso_time].
  pose proof (daysInMonth_range y (month - 1) ltac:(lia)) as Hdays.
  assert (JS.MakeDay y month 0
          = JS.MakeDay y (month - 1) 1 + daysInMonth y (month - 1) - 1) as Hend.
  { pose proof (Calendar.MakeDay_first y (month - 1) ltac:(lia)) as H1.
    pose proof (Calendar.MakeDay_first y month ltac:(lia)) as H2.
    unfold daysInMonth. replace (month - 1 + 1) with month by lia.
    unfold JS.MakeDay in *. lia. }
  assert (JS.Day (LocalTime (UTC (JS.MakeDate (JS.MakeDay y (month - 1) 1) 0)))
          = JS.MakeDay y (month - 1) 1) as Hday1.
  { unfold LocalTime, UTC. rewrite !Hzone.
    replace (_ - tza + tza)
      with (JS.MakeDate (JS.MakeDay y (month - 1) 1) 0) by lia.
    apply Day_of_midnight. }
  assert (JS.Day (LocalTime (UTC (JS.MakeDate (JS.MakeDay y month 0) 0)))
          = JS.MakeDay y month 0) as Hday2.
  { unfold LocalTime, UTC. rewrite !Hzone.
    replace (_ - tza + tza)
      with (JS.MakeDate (JS.MakeDay y month 0) 0) by lia.
    apply Day_of_midnight. }
  pose proof (month_has_a_day y (month - 1) ltac:(lia)) as Hnext.
  replace (month - 1 + 1) with month in Hnext by lia.
  destruct (Calendar.month_of_time y (month - 1)
              (LocalTime (UTC (JS.MakeDate (JS.MakeDay y (month - 1) 1) 0))))
    as [Hy1 Hm1]; [lia | rewrite Hday1; replace (month - 1 + 1) with month by lia; lia |].
  destruct (Calendar.month_of_time y (month - 1)
              (LocalTime (UTC (JS.MakeDate (JS.MakeDay y month 0) 0))))
    as [Hy2 Hm2];
    [lia
    | rewrite Hday2; replace (month - 1 + 1) with month by lia;
      assert (JS.MakeDay y month 1 = JS.MakeDay y month 0 + 1)
        by (unfold JS.MakeDay; lia); lia |].
  rewrite Hy1, Hm1, Hy2, Hm2.
  split; [done |]. split; [done |]. split.
  { unfold JS.DateFromTime, JS.DayWithinYear, JS.InLeapYear.
    rewrite Hm1, Hy1, Hday1. fold (leapDay y).
    rewrite Calendar.MakeDay_first by lia. lia. }
  split.
  { unfold JS.TimeWithinDay, LocalTime, UTC, JS.MakeDate. rewrite !Hzone.
    replace (_ - tza + tza)
      with (0 + JS.MakeDay y (month - 1) 1 * JS.msPerDay) by lia.
    by rewrite Z.mod_add. }
  split; [unfold UTC, JS.MakeDate; rewrite !Hzone, Hend; lia |].
  split; [| done].
  unfold UTC, JS.MakeDate, JS.msPerDay. rewrite !Hzone, Hend. lia.
Qed.

(** X14: the year is not validated: for a year from 275761 on (and a time
    zone that is never further than a day from UTC) the start of the window
    is no valid date, and
    both fetchers throw "Invalid time value" outside their [try], before any
    request. *)
Theorem X14_year_beyond_the_calendar_throws
    {conf : Config} {api : GitHub}
    (fuel : nat) (owner repo_ : string) (year month : Z) (w : World) :
  275761 <= year → 1 <= month <= 12 →
  (∀ t, - JS.msPerDay <= LocalTZA t false <= JS.msPerDay) →
  GithubCommits.getMonthlyCommitActivity fuel owner repo_ year month w
  = (Throw (mkError "Invalid time value"), w)
  ∧ GithubIssues.getMonthlyIssueActivity owner repo_ year month w
    = (Throw (mkError "Invalid time value"), w).
Proof.
  intros Hyear Hmonth Hzone.
  assert (toISOString (new_Date year (month - 1) 1)
          = Throw (mkError "Invalid time value")) as Hstart.
  { unfold toISOString, new_Date. cbn [JS.getTime]. unfold JS.TimeClip.
    destruct (Z.leb_spec 0 year), (Z.leb_spec year 99); try lia. cbn [andb].
    destruct (Z.leb_spec
                (Z.abs (UTC (JS.MakeDate (JS.MakeDay year (month - 1) 1) 0)))
                JS.maxTime) as [Hclip |]; [| done].
    exfalso. rewrite Calendar.MakeDay_first in Hclip by lia.
    pose proof (Calendar.DayFromYear_bounds year).
    pose proof (Calendar.leapDay_range year).
    assert (0 <= JS.DaysBeforeMonth (leapDay year) (month - 1)).
    { assert (month = 1 ∨ month = 2 ∨ month = 3 ∨ month = 4 ∨ month = 5
              ∨ month = 6 ∨ month = 7 ∨ month = 8 ∨ month = 9 ∨ month = 10
              ∨ month = 11 ∨ month = 12) as Hcases by lia.
      repeat destruct Hcases as [-> | Hcases]; try subst month; simpl; lia. }
    unfold UTC, JS.MakeDate in Hclip.
    match type of Hclip with
    | context [LocalTZA ?t false] => specialize (Hzone t)
    end.
    unfold JS.maxTime, JS.msPerDay in *. lia. }
  split.
  - unfold GithubCommits.getMonthlyCommitActivity.
    unfold bind at 1. unfold getOctokit at 1.
    unfold bind at 1. unfold lift at 1. by rewrite Hstart.
  - unfold GithubIssues.getMonthlyIssueActivity.
    unfold bind at 1. unfold getOctokit at 1.
    unfold bind at 1. unfold lift at 1. by rewrite Hstart.
Qed.
End WindowShape.

(** ** The fields of a CSV row *)

Section CsvFields.
Import GithubCommits.

Lemma replaceAll_absent c d s : contains c s = false → replaceAll c d s = s.
Proof.
  induction s as [|a s IH]; simpl; [done |].
  intros [Ha Hs]%orb_false_iff. by rewrite Ha, IH.
Qed.

(** X15: escaping keeps the length of a message, and the message field of a
    row never has more than 1024 characters: a message of up to 1024
    characters is embedded whole (escaped), a longer one as exactly 1024
    characters that end in "...". *)
Theorem X15_message_field_is_bounded (s : string) :
  String.length (escape s) = String.length s
  ∧ (String.length (truncate1024 (escape s)) <= 1024)%nat
  ∧ ((String.length s <= 1024)%nat → truncate1024 (escape s) = escape s)
  ∧ ((1024 < String.length s)%nat →
     String.length (truncate1024 (escape s)) = 1024%nat
     ∧ truncate1024 (escape s)
       = String.substring 0 1021 (escape s) ++ "...").
Proof.
  assert (String.length (escape s) = String.length s) as Hlen
    by (unfold escape; by rewrite !length_replaceAll).
  split; [done |]. unfold truncate1024. rewrite Hlen.
  destruct (Nat.ltb_spec 1024 (String.length s)) as [Hlong | Hshort].
  - assert (String.length (String.substring 0 1021 (escape s) ++ "...")
            = 1024%nat) as Hcut.
    { rewrite string_length_app, length_substring_0 by lia.
      change (String.length "...") with 3%nat. lia. }
    rewrite Hcut. split; [lia |]. split; [lia |]. done.
  - split; [lia |]. split; [done | lia].
Qed.

(** X16: the file list of a row never has more than 50 entries: a list of
    up to 50 files is embedded as it is, a longer one as its first 49 files
    and one entry that counts all the others. *)
Theorem X16_file_list_is_bounded (fs : list string) :
  length (truncatedFiles fs) = Nat.min (length fs) 50
  ∧ ((length fs <= 50)%nat → truncatedFiles fs = fs)
  ∧ ((50 < length fs)%nat →
     truncatedFiles fs
     = (take 49 fs
        ++ [("...and " ++ toString (Z.of_nat (length fs - 49))
             ++ " more files")%string])%list).
Proof.
  unfold truncatedFiles.
  destruct (Nat.ltb_spec 50 (length fs)) as [Hlong | Hshort].
  - split; [rewrite length_app, length_take; cbn [length]; lia |].
    split; [lia |]. intros _.
    by replace (Z.of_nat (length fs) - 49) with (Z.of_nat (length fs - 49))
      by lia.
  - split; [lia |]. split; [done | lia].
Qed.

(** X17: escaping twice is escaping once, and a text without comma and
    newline is its own escaped form. *)
Theorem X17_escape_is_idempotent (s : string) :
  escape (escape s) = escape s
  ∧ (contains comma s = false → contains newline s = false → escape s = s).
Proof.
  assert (∀ t, contains comma t = false → contains newline t = false →
               escape t = t) as Hclean.
  { intros t Hcomma Hnewline. unfold escape.
    rewrite (replaceAll_absent comma) by done. by apply replaceAll_absent. }
  split; [| apply Hclean].
  apply Hclean; [apply escape_no_comma | apply escape_no_newline].
Qed.
End CsvFields.

(** ** What the driver leaves on disk *)

Section DriverOnDisk.
Context {host : Host} {conf : Config}.

Ltac same_on_disk :=
  unfold ret; cbn [disk directories octokit_auth argv fst snd];
  split; [f_equal; congruence | split; congruence].

(** The part of a round after its skip rules, entered in a world [w1] with
    the data of [w]. *)
Lemma round_after_skip_rules generateReport args activityType
    authenticatedOwner activityConfig repo_ w w1 :
  quiet (generateReport authenticatedOwner (repo_name repo_)
           (Github.year args) (Github.month args)) →
  same_data w w1 →
  skipped args activityType authenticatedOwner activityConfig repo_ w = false →
  let outputPath :=
    Github.outputPathOf args activityType authenticatedOwner repo_ in
  let w' :=
    snd ((let* report :=
            generateReport authenticatedOwner (repo_name repo_)
              (Github.year args) (Github.month args) in
          if truthy report then
            mkdir (path_dirname outputPath) ;;
            logger info ("Writing report to " ++ outputPath) ;;
            writeFile outputPath (default "" report)
          else ret tt) w1) in
  (disk w', directories w')
  = leftOnDisk generateReport args activityType authenticatedOwner
      activityConfig repo_ w
  ∧ octokit_auth w' = octokit_auth w ∧ argv w' = argv w.
Proof.
  intros [Hg1 Hg2] Hw1 Hskip. cbv zeta. unfold leftOnDisk. rewrite Hskip.
  rewrite (Hg2 w w1 Hw1). unfold bind. specialize (Hg1 w1).
  destruct (generateReport _ _ _ _ w1) as [[report | e |] w2];
    cbn [fst snd] in *;
    destruct Hw1 as (Hd1 & Hr1 & Ha1 & Hv1), Hg1 as (Hd2 & Hr2 & Ha2 & Hv2);
    [| same_on_disk..].
  destruct (truthy report); [| same_on_disk].
  unfold mkdir, logger, writeFile.
  destruct (mkdir_error _); [same_on_disk |].
  destruct (writeFile_error _); [| same_on_disk].
  destruct (writeFile_leaves _ _); same_on_disk.
Qed.

(** What a round leaves on disk, for a quiet report generator. *)
Lemma round_leaves generateReport args activityType authenticatedOwner
    activityConfig repo_ w :
  quiet (generateReport authenticatedOwner (repo_name repo_)
           (Github.year args) (Github.month args)) →
  let w' :=
    snd (Github.processRepository args activityType generateReport
           authenticatedOwner activityConfig repo_ w) in
  (disk w', directories w')
  = leftOnDisk generateReport args activityType authenticatedOwner
      activityConfig repo_ w
  ∧ octokit_auth w' = octokit_auth w ∧ argv w' = argv w.
Proof.
  intros Hquiet. cbv zeta.
  pose proof (round_after_skip_rules generateReport args activityType
                authenticatedOwner activityConfig repo_ w) as Hcall.
  cbv zeta in Hcall.
  remember (snd (Github.processRepository args activityType generateReport
                   authenticatedOwner activityConfig repo_ w)) as w' eqn:Hw'.
  unfold Github.processRepository in Hw'.
  unfold bind at 1 in Hw'. unfold existsSync at 1 in Hw'. cbv beta iota in Hw'.
  fold (present (Github.outputPathOf args activityType authenticatedOwner repo_)
          w) in Hw'.
  destruct (skipped args activityType authenticatedOwner activityConfig repo_ w)
    eqn:Hskip.
  - unfold leftOnDisk. rewrite Hskip. unfold skipped in Hskip.
    destruct (present _ w && negb _); [by subst w' |].
    destruct (present _ w); unfold bind at 1 in Hw';
      [unfold logger at 1 in Hw' | unfold ret at 1 in Hw'];
      cbv beta iota in Hw';
      (destruct (Github.omitted args repo_); [by subst w' |]);
      (destruct (negb (shouldGenerateActivity _ _ _ _ _ _)); [by subst w' |]);
      done.
  - pose proof Hskip as Hskip'. unfold skipped in Hskip'.
    apply orb_false_iff in Hskip' as [[Hpresent Homit]%orb_false_iff Hconf].
    rewrite Hpresent in Hw'.
    destruct (present _ w); unfold bind at 1 in Hw';
      [unfold logger at 1 in Hw' | unfold ret at 1 in Hw'];
      cbv beta iota in Hw'; rewrite Homit, Hconf in Hw';
      unfold bind at 1 in Hw'; unfold logger at 1 in Hw';
      cbv beta iota in Hw'; subst w'; apply Hcall; try done; by repeat split.
Qed.
End DriverOnDisk.

Section DriverRules.
Context {host : Host} {conf : Config} {api : GitHub}.

(** X18: a skipped repository costs nothing: when the output file is there
    and [--replace] was not given, or the repository is the omitted one, or
    the configuration excludes it, the round returns without calling the
    report generator (any two generators give the same round), sends no
    request and leaves files and directories as they are. *)
Theorem X18_skipped_repository_is_not_fetched
    (generateReport generateReport' : string → string → Z → Z → M (option string))
    (args : Github.CommandLineArgs) (activityType : ActivityType)
    (authenticatedOwner : string) (activityConfig : ActivityConfig)
    (repo_ : Repo) (w : World) :
  skipped args activityType authenticatedOwner activityConfig repo_ w = true →
  let run :=
    Github.processRepository args activityType generateReport
      authenticatedOwner activityConfig repo_ w in
  run = Github.processRepository args activityType generateReport'
          authenticatedOwner activityConfig repo_ w
  ∧ fst run = Return tt
  ∧ requests (snd run) = requests w
  ∧ disk (snd run) = disk w
  ∧ directories (snd run) = directories w.
Proof.
  intros Hskip. cbv zeta.
  assert (∃ w', (∀ g, Github.processRepository args activityType g
                        authenticatedOwner activityConfig repo_ w
                      = (Return tt, w'))
                ∧ requests w' = requests w ∧ disk w' = disk w
                ∧ directories w' = directories w)
    as (w' & Hrun & Hrequests & Hdisk & Hdirs).
  { unfold skipped, present in Hskip.
    destruct (bool_decide _ || bool_decide _) eqn:Hpresent,
             (Github.shouldReplace args) eqn:Hreplace,
             (Github.omitted args repo_) eqn:Homit,
             (shouldGenerateActivity activityConfig authenticatedOwner
                (repo_name repo_) (Github.year args) (Github.month args)
                activityType) eqn:Hconf;
      cbn in Hskip; try discriminate;
      (eexists; split;
       [intros g; unfold Github.processRepository, bind, existsSync, logger, ret;
        rewrite Hpresent, ?Hreplace; cbn [andb negb];
        rewrite ?Homit, ?Hconf; cbn [negb]; reflexivity
       | by cbn]). }
  rewrite !Hrun. by cbn.
Qed.
End DriverRules.

Section ReportShape.
Context {host : Host} {conf : Config} {api : GitHub}.

Lemma commits_report_shape fuel owner repo_ year month w report :
  fst (GithubCommits.generateMonthlyReport fuel owner repo_ year month w)
  = Return (Some report) →
  ∃ args commits,
    Github.parseCommandLineArgs (argv w) = Return args
    ∧ fst (GithubCommits.getMonthlyCommitActivity fuel owner repo_ year month w)
      = Return commits
    ∧ commits ≠ []
    ∧ report
      = "# GitHub Commits in " ++ repo_ ++ " owned by " ++ owner ++ " for "
        ++ toLocaleMonthName (new_Date year (month - 1) 1) ++ " "
        ++ toString year ++ LF ++ LF
        ++ GithubCommits.reportBody (Github.format args) owner repo_
             (toLocaleMonthName (new_Date year (month - 1) 1)) year commits.
Proof.
  unfold GithubCommits.generateMonthlyReport. unfold bind at 1.
  destruct (quiet_getMonthlyCommitActivity fuel owner repo_ year month)
    as [Hsame _].
  specialize (Hsame w). destruct Hsame as (_ & _ & _ & Hargv).
  destruct (GithubCommits.getMonthlyCommitActivity _ _ _ _ _ _)
    as [[commits | e |] w1]; cbn [fst snd] in *; [| done..].
  destruct commits as [|commit commits]; [done |]. cbn [length Nat.eqb].
  unfold bind, process_argv, lift, ret. rewrite <- Hargv.
  destruct (Github.parseCommandLineArgs (argv w)) as [args | e |];
    cbn [fst]; [| done..].
  intros [= <-]. exists args, (commit :: commits).
  repeat split; [done |]. by rewrite !string_app_assoc.
Qed.

Lemma issues_report_shape owner repo_ year month w report :
  fst (GithubIssues.generateMonthlyReport owner repo_ year month w)
  = Return (Some report) →
  ∃ args issues,
    Github.parseCommandLineArgs (argv w) = Return args
    ∧ fst (GithubIssues.getMonthlyIssueActivity owner repo_ year month w)
      = Return issues
    ∧ issues ≠ []
    ∧ report
      = "# GitHub Issues in " ++ repo_ ++ " owned by " ++ owner ++ " for "
        ++ toLocaleMonthName (new_Date year (month - 1) 1) ++ " "
        ++ toString year ++ LF ++ LF
        ++ GithubIssues.reportBody (Github.format args) owner repo_
             (toLocaleMonthName (new_Date year (month - 1) 1)) year issues.
Proof.
  unfold GithubIssues.generateMonthlyReport. unfold bind at 1.
  destruct (quiet_getMonthlyIssueActivity owner repo_ year month)
    as [Hsame _].
  specialize (Hsame w). destruct Hsame as (_ & _ & _ & Hargv).
  destruct (GithubIssues.getMonthlyIssueActivity _ _ _ _ _)
    as [[issues | e |] w1]; cbn [fst snd] in *; [| done..].
  destruct issues as [|issue issues]; [done |]. cbn [length Nat.eqb].
  unfold bind, process_argv, lift, ret. rewrite <- Hargv.
  destruct (Github.parseCommandLineArgs (argv w)) as [args | e |];
    cbn [fst]; [| done..].
  intros [= <-]. exists args, (issue :: issues).
  repeat split; [done |]. by rewrite !string_app_assoc.
Qed.

(** X21: a report, when one is returned, is the header line of its kind,
    with repository, owner, month name and year, an empty line, and the body
    in the format of the parsed arguments, over the list of records the
    fetcher returned, which is not empty; it is never the empty string.
    This holds for the commit report and for the issue report, each on its
    own. *)
Theorem X21_report_is_header_and_body
    (fuel : nat) (owner repo_ : string) (year month : Z) (w : World) :
  let monthName := toLocaleMonthName (new_Date year (month - 1) 1) in
  let dated := " owned by " ++ owner ++ " for " ++ monthName ++ " "
               ++ toString year ++ LF ++ LF in
  (∀ report,
     fst (GithubCommits.generateMonthlyReport fuel owner repo_ year month w)
     = Return (Some report) →
     ∃ args commits,
       Github.parseCommandLineArgs (argv w) = Return args
       ∧ fst (GithubCommits.getMonthlyCommitActivity fuel owner repo_ year
                month w) = Return commits
       ∧ commits ≠ []
       ∧ report
         = "# GitHub Commits in " ++ repo_ ++ dated
           ++ GithubCommits.reportBody (Github.format args) owner repo_
                monthName year commits
       ∧ truthy (Some report) = true)
  ∧ (∀ report,
       fst (GithubIssues.generateMonthlyReport owner repo_ year month w)
       = Return (Some report) →
       ∃ args issues,
         Github.parseCommandLineArgs (argv w) = Return args
         ∧ fst (GithubIssues.getMonthlyIssueActivity owner repo_ year month w)
           = Return issues
         ∧ issues ≠ []
         ∧ report
           = "# GitHub Issues in " ++ repo_ ++ dated
             ++ GithubIssues.reportBody (Github.format args) owner repo_
                  monthName year issues
         ∧ truthy (Some report) = true).
Proof.
  cbv zeta. split.
  - intros report
      (args & commits & Hargs & Hcommits & Hsome & ->)%commits_report_shape.
    exists args, commits. repeat split; try done; by rewrite !string_app_assoc.
  - intros report
      (args & issues & Hargs & Hissues & Hsome & ->)%issues_report_shape.
    exists args, issues. repeat split; try done; by rewrite !string_app_assoc.
Qed.
End ReportShape.

Section WrittenReport.
Context {host : Host} {conf : Config} {api : GitHub}.

Lemma quiet_generatorOf fuel activityType o r y m :
  quiet (generatorOf fuel activityType o r y m).
Proof.
  destruct activityType;
    [apply quiet_commits_generateMonthlyReport
    | apply quiet_issues_generateMonthlyReport].
Qed.

Lemma generatorOf_truthy fuel activityType o r y m w report :
  fst (generatorOf fuel activityType o r y m w) = Return (Some report) →
  truthy (Some report) = true.
Proof.
  destruct activityType; cbn [generatorOf].
  - by intros (args & commits & _ & _ & _ & ->)%commits_report_shape.
  - by intros (args & issues & _ & _ & _ & ->)%issues_report_shape.
Qed.


(** X23: a refused write ends the round with the error of the file system,
    after the generator has run.  No other file is touched, and the output
    path is left as the failed write left it: as it was when the write
    failed before the file was opened, and else with what was written so
    far, which may be nothing. *)
Theorem X23_refused_write_ends_the_round
    (fuel : nat) (args : Github.CommandLineArgs) (activityType : ActivityType)
    (authenticatedOwner : string) (activityConfig : ActivityConfig)
    (repo_ : Repo) (w : World) (report : string) (e : Error) :
  let outputPath :=
    Github.outputPathOf args activityType authenticatedOwner repo_ in
  let run :=
    Github.processRepository args activityType
      (generatorOf fuel activityType) authenticatedOwner activityConfig
      repo_ w in
  skipped args activityType authenticatedOwner activityConfig repo_ w = false →
  fst (generatorOf fuel activityType authenticatedOwner (repo_name repo_)
         (Github.year args) (Github.month args) w) = Return (Some report) →
  mkdir_error (path_dirname outputPath) = None →
  writeFile_error outputPath = Some e →
  fst run = Throw e
  ∧ (∀ path, path ≠ outputPath → disk (snd run) !! path = disk w !! path)
  ∧ disk (snd run) !! outputPath
    = match writeFile_leaves outputPath report with
      | Some written => Some written
      | None => disk w !! outputPath
      end
  ∧ (writeFile_leaves outputPath report = None → disk (snd run) = disk w).
Proof.
  cbv zeta. intros Hskip Hreport Hmkdir Hwrite.
  pose proof (generatorOf_truthy _ _ _ _ _ _ _ _ Hreport) as Htruthy.
  destruct (round_leaves (generatorOf fuel activityType) args activityType
              authenticatedOwner activityConfig repo_ w
              (quiet_generatorOf _ _ _ _ _ _)) as [Hleft _].
  cbv zeta in Hleft. unfold leftOnDisk in Hleft.
  rewrite Hskip, Hreport, Htruthy, Hmkdir, Hwrite in Hleft. cbn [default] in Hleft.
  split.
  - destruct (quiet_generatorOf fuel activityType authenticatedOwner
                (repo_name repo_) (Github.year args) (Github.month args))
      as [Hg1 Hg2].
    pose proof Hskip as Hskip'. unfold skipped in Hskip'.
    apply orb_false_iff in Hskip' as [[Hpresent Homit]%orb_false_iff Hconf].
    remember (Github.processRepository args activityType
                (generatorOf fuel activityType) authenticatedOwner
                activityConfig repo_ w) as run eqn:Hrun.
    unfold Github.processRepository in Hrun.
    unfold bind at 1 in Hrun. unfold existsSync at 1 in Hrun.
    cbv beta iota in Hrun.
    fold (present (Github.outputPathOf args activityType authenticatedOwner
                     repo_) w) in Hrun.
    rewrite Hpresent in Hrun.
    assert (∀ w1, same_data w w1 →
              fst ((let* report :=
                      generatorOf fuel activityType authenticatedOwner
                        (repo_name repo_) (Github.year args)
                        (Github.month args) in
                    if truthy report then
                      mkdir (path_dirname (Github.outputPathOf args
                                             activityType authenticatedOwner
                                             repo_)) ;;
                      logger info ("Writing report to "
                                   ++ Github.outputPathOf args activityType
                                        authenticatedOwner repo_) ;;
                      writeFile (Github.outputPathOf args activityType
                                   authenticatedOwner repo_)
                                (default "" report)
                    else ret tt) w1) = Throw e) as Htail.
    { intros w1 Hw1. unfold bind.
      pose proof (Hg2 w w1 Hw1) as Hanswer. rewrite Hreport in Hanswer.
      destruct (generatorOf _ _ _ _ _ _ w1) as [r w2]. cbn [fst snd] in *.
      subst r. rewrite Htruthy. unfold mkdir, logger, writeFile.
      by rewrite Hmkdir, Hwrite. }
    destruct (present _ w); unfold bind at 1 in Hrun;
      [unfold logger at 1 in Hrun | unfold ret at 1 in Hrun];
      cbv beta iota in Hrun; rewrite Homit, Hconf in Hrun;
      unfold bind at 1 in Hrun; unfold logger at 1 in Hrun;
      cbv beta iota in Hrun; subst run; apply Htail; by repeat split.
  - injection Hleft as Hdisk _. rewrite Hdisk.
    destruct (writeFile_leaves _ report) as [written |].
    + split; [intros path Hpath; by rewrite lookup_insert_ne |].
      split; [by rewrite lookup_insert_eq | done].
    + by repeat split.
Qed.
End WrittenReport.

Section DriverInvariants.
Context {host : Host} {conf : Config} {api : GitHub}.

Lemma touches_same args activityType authenticatedOwner activityConfig repos
    w w' :
  disk w' = disk w →
  touches args activityType authenticatedOwner activityConfig repos w w'.
Proof.
  intros Hdisk. unfold touches. rewrite Hdisk.
  split; [done | intros path Hne; by destruct Hne].
Qed.

Lemma touches_app args activityType authenticatedOwner activityConfig
    repos1 repos2 w1 w2 w3 :
  touches args activityType authenticatedOwner activityConfig repos1 w1 w2 →
  touches args activityType authenticatedOwner activityConfig repos2 w2 w3 →
  touches args activityType authenticatedOwner activityConfig
    (repos1 ++ repos2) w1 w3.
Proof.
  intros [Hthere Hchanged] [Hthere' Hchanged']. split.
  - intros path Hpath. by apply Hthere', Hthere.
  - intros path Hpath.
    destruct (decide (disk w2 !! path = disk w1 !! path)) as [Hsame | Hfirst].
    + rewrite <- Hsame in Hpath.
      destruct (Hchanged' path Hpath) as (repo_ & Hin & -> & Homit & Hconf & Hnew).
      exists repo_. rewrite elem_of_app. rewrite Hsame in Hnew. by repeat split; [right | ..].
    + destruct (Hchanged path Hfirst) as (repo_ & Hin & -> & Homit & Hconf & Hnew).
      exists repo_. rewrite elem_of_app. by repeat split; [left | ..].
Qed.

(** What one round does to the files, for a quiet report generator. *)
Lemma round_touches generateReport args activityType authenticatedOwner
    activityConfig repo_ w :
  quiet (generateReport authenticatedOwner (repo_name repo_)
           (Github.year args) (Github.month args)) →
  touches args activityType authenticatedOwner activityConfig [repo_] w
    (snd (Github.processRepository args activityType generateReport
            authenticatedOwner activityConfig repo_ w)).
Proof.
  intros Hquiet.
  destruct (round_leaves generateReport args activityType authenticatedOwner
              activityConfig repo_ w Hquiet) as [Hleft _].
  cbv zeta in Hleft. unfold leftOnDisk in Hleft.
  set (w' := snd (Github.processRepository args activityType generateReport
                    authenticatedOwner activityConfig repo_ w)) in *.
  set (outputPath := Github.outputPathOf args activityType authenticatedOwner
                       repo_) in *.
  destruct (skipped args activityType authenticatedOwner activityConfig repo_ w)
    eqn:Hskip; [injection Hleft as Hdisk _; by apply touches_same |].
  assert (∀ content,
            disk w' = <[outputPath := content]> (disk w) →
            touches args activityType authenticatedOwner activityConfig
              [repo_] w w') as Hwritten.
  { intros content Hdisk. unfold touches. rewrite Hdisk.
    unfold skipped, present in Hskip. fold outputPath in Hskip.
    apply orb_false_iff in Hskip as [[Hpresent Homit]%orb_false_iff Hconf].
    apply negb_false_iff in Hconf. split.
    - intros path Hthere. destruct (decide (outputPath = path)) as [<- | Hne].
      + rewrite lookup_insert_eq. by eexists.
      + by rewrite lookup_insert_ne.
    - intros path Hpath. destruct (decide (outputPath = path)) as [<- | Hne];
        [| by rewrite lookup_insert_ne in Hpath].
      exists repo_. split; [by apply list_elem_of_singleton |].
      repeat split; [done.. |].
      destruct (Github.shouldReplace args); [by left | right].
      cbn [negb] in Hpresent. rewrite andb_true_r in Hpresent.
      apply orb_false_iff in Hpresent as [Hfile _].
      apply bool_decide_eq_false in Hfile. by apply eq_None_not_Some. }
  destruct (fst (generateReport _ _ _ _ w)) as [report | e |];
    [| injection Hleft as Hdisk _; by apply touches_same..].
  destruct (truthy report);
    [| injection Hleft as Hdisk _; by apply touches_same].
  destruct (mkdir_error _);
    [injection Hleft as Hdisk _; by apply touches_same |].
  destruct (writeFile_error _).
  - destruct (writeFile_leaves _ _) as [written |];
      injection Hleft as Hdisk _; [by eapply Hwritten | by apply touches_same].
  - injection Hleft as Hdisk _. by eapply Hwritten.
Qed.

Lemma for_of_touches generateReport args activityType authenticatedOwner
    activityConfig repos :
  (∀ r, quiet (generateReport authenticatedOwner r (Github.year args)
                 (Github.month args))) →
  ∀ w,
    touches args activityType authenticatedOwner activityConfig repos w
      (snd (for_of repos
              (Github.processRepository args activityType generateReport
                 authenticatedOwner activityConfig) w)).
Proof.
  intros Hquiet. induction repos as [|repo_ repos IH]; intros w.
  - by apply touches_same.
  - cbn [for_of]. unfold bind.
    pose proof (round_touches generateReport args activityType
                  authenticatedOwner activityConfig repo_ w (Hquiet _))
      as Hround.
    destruct (Github.processRepository _ _ _ _ _ repo_ w)
      as [[[] | e |] w1]; cbn [snd] in *.
    + apply (touches_app _ _ _ _ [repo_] repos w w1); [done | apply IH].
    + apply (touches_app _ _ _ _ [repo_] repos w w1 w1); [done |].
      by apply touches_same.
    + apply (touches_app _ _ _ _ [repo_] repos w w1 w1); [done |].
      by apply touches_same.
Qed.

(** What a client that was set up knows. *)
Lemma initializeGithubClient_inv owner activityType w authenticatedOwner wi :
  Github.initializeGithubClient owner activityType w
  = (Return authenticatedOwner, wi) →
  ∃ activityConfig ownerConfig,
    loadActivityConfig Github.activityYaml = Return activityConfig
    ∧ github_owner activityConfig activityType
        (if String.eqb owner "self" then "tobrien" else owner)
      = Some ownerConfig
    ∧ users_getAuthenticated (getGithubToken ownerConfig)
      = Return authenticatedOwner
    ∧ octokit_auth wi = getGithubToken ownerConfig
    ∧ disk wi = disk w.
Proof.
  unfold Github.initializeGithubClient, bind, lift.
  destruct (loadActivityConfig _) as [activityConfig | |] eqn:Hload;
    [| done..].
  destruct (github_owner _ _ _) as [ownerConfig |] eqn:Howner; [| done].
  unfold setOctokit, getOctokit, await. cbn [octokit_auth].
  intros [= Hlogin <-]. exists activityConfig, ownerConfig.
  by rewrite Howner.
Qed.

Lemma initializeGithubClient_disk owner activityType w :
  disk (snd (Github.initializeGithubClient owner activityType w)) = disk w.
Proof.
  unfold Github.initializeGithubClient, bind, lift.
  destruct (loadActivityConfig _); [| done..].
  destruct (github_owner _ _ _); [| done].
  unfold setOctokit, getOctokit, await. cbn [octokit_auth].
  by destruct (users_getAuthenticated (getGithubToken _)).
Qed.

(** X19: a run of the driver, however it ends, removes no file, and a path
    whose file is not as before the run is the output path of a repository
    of the run: one that GitHub listed for the authenticated owner, that is
    neither omitted nor excluded by the configuration, and either
    [--replace] was given or the path had no file before the run. *)
Theorem X19_run_keeps_the_files
    (fuel : nat) (args : Github.CommandLineArgs) (activityType : ActivityType)
    (w : World) (path : string) :
  let w' :=
    snd (Github.processRepositories args activityType
           (generatorOf fuel activityType) w) in
  (is_Some (disk w !! path) → is_Some (disk w' !! path))
  ∧ (disk w' !! path ≠ disk w !! path →
     ∃ activityConfig ownerConfig authenticatedOwner repos repo_,
       loadActivityConfig Github.activityYaml = Return activityConfig
       ∧ github_owner activityConfig activityType
           (if String.eqb (Github.owner args) "self" then "tobrien"
            else Github.owner args) = Some ownerConfig
       ∧ users_getAuthenticated (getGithubToken ownerConfig)
         = Return authenticatedOwner
       ∧ repos_listForAuthenticatedUser (getGithubToken ownerConfig)
         = Return repos
       ∧ repo_ ∈ repos
       ∧ path = Github.outputPathOf args activityType authenticatedOwner repo_
       ∧ Github.omitted args repo_ = false
       ∧ shouldGenerateActivity activityConfig authenticatedOwner
           (repo_name repo_) (Github.year args) (Github.month args)
           activityType = true
       ∧ (Github.shouldReplace args = true ∨ disk w !! path = None)).
Proof.
  cbv zeta.
  remember (snd (Github.processRepositories args activityType
                   (generatorOf fuel activityType) w)) as w' eqn:Hw'.
  unfold Github.processRepositories in Hw'. unfold bind at 1 in Hw'.
  pose proof (initializeGithubClient_disk (Github.owner args) activityType w)
    as Hdisk.
  destruct (Github.initializeGithubClient _ _ w) as [[ao | e |] wi] eqn:Hinit;
    cbn [snd] in Hdisk.
  2,3: subst w'; cbn [snd]; rewrite Hdisk;
       (split; [done | intros Hne; by destruct Hne]).
  apply initializeGithubClient_inv
    in Hinit as (activityConfig & ownerConfig & Hload & Howner & Hlogin
                 & Hauth & _).
  unfold bind at 1 in Hw'. unfold lift at 1 in Hw'. rewrite Hload in Hw'.
  unfold bind at 1 in Hw'. unfold getOctokit at 1 in Hw'.
  unfold bind at 1 in Hw'. unfold await at 1 in Hw'. rewrite Hauth in Hw'.
  destruct (repos_listForAuthenticatedUser _) as [repos | e |] eqn:Hrepos.
  2,3: subst w'; cbn [snd disk]; rewrite Hdisk;
       (split; [done | intros Hne; by destruct Hne]).
  match type of Hw' with
  | context [for_of repos ?body ?w1] =>
      destruct (for_of_touches (generatorOf fuel activityType) args
                  activityType ao activityConfig repos
                  (λ r, quiet_generatorOf _ _ _ _ _ _) w1)
        as [Hthere Hchanged]
  end.
  rewrite <- Hw' in Hthere, Hchanged.
  cbn [disk] in Hthere, Hchanged. rewrite Hdisk in Hthere, Hchanged. split.
  - apply Hthere.
  - intros (repo_ & Hin & Hpath & Homit & Hconf & Hnew)%Hchanged.
    by exists activityConfig, ownerConfig, ao, repos, repo_.
Qed.

(** A round that skips its repository, for any report generator. *)
Lemma round_skipped generateReport args activityType authenticatedOwner
    activityConfig repo_ w :
  skipped args activityType authenticatedOwner activityConfig repo_ w = true →
  ∃ w',
    Github.processRepository args activityType generateReport
      authenticatedOwner activityConfig repo_ w = (Return tt, w')
    ∧ requests w' = requests w ∧ disk w' = disk w
    ∧ directories w' = directories w.
Proof.
  intros Hskip. unfold skipped, present in Hskip.
  destruct (bool_decide _ || bool_decide _) eqn:Hpresent,
           (Github.shouldReplace args) eqn:Hreplace,
           (Github.omitted args repo_) eqn:Homit,
           (shouldGenerateActivity activityConfig authenticatedOwner
              (repo_name repo_) (Github.year args) (Github.month args)
              activityType) eqn:Hconf;
    cbn in Hskip; try discriminate;
    (eexists; split;
     [unfold Github.processRepository, bind, existsSync, logger, ret;
      rewrite Hpresent, ?Hreplace; cbn [andb negb];
      rewrite ?Homit, ?Hconf; cbn [negb]; reflexivity
     | by cbn]).
Qed.

(** X20: without [--replace], once a round has written its report, a later
    round for the same repository is skipped whatever GitHub would answer
    then: it returns at once, sends no request and leaves the files.  After
    a round whose generator answered [null], which wrote nothing, a later
    round is not skipped: it asks GitHub again. *)
Theorem X20_second_round_writes_nothing
    (api' : GitHub) (fuel fuel' : nat) (args : Github.CommandLineArgs)
    (activityType : ActivityType) (authenticatedOwner : string)
    (activityConfig : ActivityConfig) (repo_ : Repo) (w : World) :
  let outputPath :=
    Github.outputPathOf args activityType authenticatedOwner repo_ in
  let answer :=
    fst (generatorOf (api := api) fuel activityType authenticatedOwner
           (repo_name repo_) (Github.year args) (Github.month args) w) in
  let first :=
    Github.processRepository args activityType
      (generatorOf (api := api) fuel activityType) authenticatedOwner
      activityConfig repo_ w in
  let second :=
    Github.processRepository args activityType
      (generatorOf (api := api') fuel' activityType) authenticatedOwner
      activityConfig repo_ (snd first) in
  Github.shouldReplace args = false →
  skipped args activityType authenticatedOwner activityConfig repo_ w = false →
  (∀ report,
     answer = Return (Some report) →
     mkdir_error (path_dirname outputPath) = None →
     writeFile_error outputPath = None →
     fst second = Return tt
     ∧ requests (snd second) = requests (snd first)
     ∧ disk (snd second) = disk (snd first))
  ∧ (answer = Return None →
     skipped args activityType authenticatedOwner activityConfig repo_
       (snd first) = false).
Proof.
  cbv zeta. intros Hreplace Hskip.
  destruct (round_leaves (generatorOf (api := api) fuel activityType) args
              activityType authenticatedOwner activityConfig repo_ w
              (quiet_generatorOf (api := api) _ _ _ _ _ _)) as [Hleft _].
  cbv zeta in Hleft. unfold leftOnDisk in Hleft. rewrite Hskip in Hleft.
  split.
  - intros report Hreport Hmkdir Hwrite.
    rewrite Hreport, (generatorOf_truthy (api := api) _ _ _ _ _ _ _ _ Hreport),
      Hmkdir, Hwrite in Hleft.
    injection Hleft as Hdisk _.
    destruct (round_skipped (generatorOf (api := api') fuel' activityType)
                args activityType authenticatedOwner activityConfig repo_
                (snd (Github.processRepository args activityType
                        (generatorOf (api := api) fuel activityType)
                        authenticatedOwner activityConfig repo_ w)))
      as (w' & -> & Hrequests & Hdisk' & _); [| done].
    unfold skipped, present. rewrite Hreplace, Hdisk, lookup_insert_eq.
    by rewrite bool_decide_eq_true_2 by (by eexists).
  - intros Hnull. rewrite Hnull in Hleft. cbn [truthy or_null] in Hleft.
    injection Hleft as Hdisk Hdirs.
    unfold skipped, present in *. by rewrite Hdisk, Hdirs.
Qed.
End DriverInvariants.

Section IssueLabels.
Context {host : Host} {conf : Config} {api : GitHub}.
Import GithubIssues.

(** X24: the label of an issue record follows [closed_at] alone.  With a
    [closed_at] the label is one of the eight labels of a closed issue, it
    is the same for every [updated_at], and the record carries a closing
    date; without one (null or the empty string) the label is one of the
    three labels of an issue that is not closed and the record carries no
    closing date.  The [state] of the issue is not consulted. *)
Theorem X24_label_follows_closed_at (repo_ : string) (issue : RawIssue) :
  match or_null (closed_at issue) with
  | Some _ =>
      operation (issueOf repo_ issue) ∈ closedIssueLabels
      ∧ closedAt (issueOf repo_ issue) ≠ None
      ∧ ∀ other : RawIssue,
          closed_at other = closed_at issue →
          created_at other = created_at issue →
          raw_state_reason other = raw_state_reason issue →
          operation (issueOf repo_ other) = operation (issueOf repo_ issue)
  | None =>
      operation (issueOf repo_ issue) ∈ openIssueLabels
      ∧ closedAt (issueOf repo_ issue) = None
  end.
Proof.
  unfold issueOf, formatDateTime. cbn [operation closedAt].
  destruct (or_null (closed_at issue)) as [closed |] eqn:Hclosed.
  - split; [| split; [done |]].
    + unfold determineOperation, closedIssueLabels.
      destruct (inSameMonth _ _);
        repeat (case_bool_decide; [set_solver |]); set_solver.
    + intros other -> -> ->. by rewrite Hclosed.
  - split; [| done].
    unfold determineOperation, openIssueLabels.
    repeat (match goal with |- context [if ?b then _ else _] => destruct b end);
      set_solver.
Qed.
End IssueLabels.

(** ** The further properties on the fixtures *)

Section FurtherExamples.
Import Example Sample.
#[local] Existing Instance utc.
#[local] Existing Instance config.

(** An owner and a year are not enough. *)
Lemma X1_too_few_arguments_witness :
  ∃ e, Github.parseCommandLineArgs ["acme"; "2024"] = Throw e.
Proof. apply (X1_too_few_arguments_throw ["acme"; "2024"]). simpl. lia. Defined.

(** The arguments of March 2024 with [--replace]. *)
Lemma X2_parsed_arguments_witness :
  1 <= 3 <= 12 ∧ "acme" ∈ ["acme"; "2024"; "3"; "--replace"].
Proof.
  destruct (X2_parsed_arguments_are_validated
              ["acme"; "2024"; "3"; "--replace"]
              (Github.mkArgs "acme" 2024 3 None true Github.nl))
    as (Hmonth & Howner & _); [vm_compute; reflexivity |].
  split; [exact Hmonth | exact Howner].
Defined.

(** Without options the report is in the [nl] form and no repository is
    omitted. *)
Lemma X3_option_defaults_witness :
  ("--format" ∉ march → Github.format marchArgs = Github.nl)
  ∧ ("--omit" ∉ march → Github.omitRepo marchArgs = None).
Proof.
  apply (X3_option_defaults march marchArgs). vm_compute. reflexivity.
Defined.

(** The arguments the script sets for March 2024 are read back. *)
Lemma X5_backfill_arguments_witness :
  ∃ monthInt,
    parseInt "3" = Some monthInt
    ∧ Github.parseCommandLineArgs
        (drop 2 (Backfill.moduleArgv "node" "dist/github/commits.js"
                   "acme" "2024" "3"))
      = Return (Github.mkArgs "acme" 2024 monthInt None true Github.nl).
Proof.
  apply (X5_backfill_arguments_parse "node" "dist/github/commits.js"
           "acme" "2024" "3" 2024); vm_compute; reflexivity.
Defined.

(** A run with the owner alone ends with status 1. *)
Lemma X6_argument_error_witness :
  fst (GithubCommits.main (api := github (silent false)) 1 (world ["acme"]))
  = Return (Some 1).
Proof.
  destruct (Github.parseCommandLineArgs ["acme"]) as [a | e |] eqn:Hparse;
    [discriminate Hparse | | discriminate Hparse].
  destruct (X6_argument_error_ends_the_run (api := github (silent false))
              1 (world ["acme"]) e Hparse) as [Hcommits _].
  exact (f_equal fst Hcommits).
Defined.

(** A run for an owner the configuration does not know ends with status
    1. *)
Lemma X7_unknown_owner_witness :
  fst (GithubIssues.main (conf := strangers) (api := github (silent false)) w0)
  = Return (Some 1).
Proof.
  destruct (X7_unknown_owner_ends_the_run (conf := strangers)
              (api := github (silent false)) 1 w0 marchArgs tt)
    as [_ Hissues]; [vm_compute; reflexivity.. |].
  exact (f_equal fst Hissues).
Defined.

(** Of three listed commits, the one whose detail is not found is left
    out; all three were asked for. *)
Lemma X8_failed_details_witness :
  let api := github (acme (Return [])) in
  let run :=
    GithubCommits.processCommits (api := api) None "acme" "widgets" listed []
      w0 in
  fst run
  = Return ([] ++ omap (detailRecord (api := api) None "acme" "widgets")
                    listed)%list
  ∧ requests (snd run)
    = (requests w0
       ++ map (λ commit, GetCommit "acme" "widgets" (sha commit)) listed)%list.
Proof.
  cbv zeta.
  destruct (X8_failed_details_are_skipped (api := github (acme (Return [])))
              None "acme" "widgets" listed [] w0)
    as (Hanswer & Hrequests & _).
  - intros commit _. cbn. unfold marchDetail.
    destruct (String.eqb (sha commit) "c1"); [done |].
    destruct (String.eqb (sha commit) "c2"); done.
  - split; [exact Hanswer | exact Hrequests].
Defined.

(** Two pages of commits: the fetcher returns the details it got, after
    two list requests and 102 detail requests. *)
Lemma X9_commit_fetcher_witness :
  let run :=
    GithubCommits.getMonthlyCommitActivity (api := github busy) 2
      "acme" "widgets" 2024 3 w0 in
  ∃ commits,
    fst run = Return commits
    ∧ (length commits <= length (concat (map twoPages (seqZ 1 2))))%nat
    ∧ length (requests (snd run)) = 104%nat.
Proof.
  cbv zeta.
  destruct (X9_commit_fetcher_returns_the_fetched_details
              (api := github busy) 2 "acme" "widgets" 2024 3
              marchStart marchEnd twoPages 2 w0)
    as (commits & Hanswer & _ & _ & Hlength & Hrequests).
  - vm_compute. reflexivity.
  - vm_compute. reflexivity.
  - lia.
  - intros i Hi. reflexivity.
  - intros i Hi. assert (i = 1) as -> by lia. vm_compute. lia.
  - vm_compute. lia.
  - vm_compute. lia.
  - intros commit _. cbn. unfold marchDetail.
    destruct (String.eqb (sha commit) "c1"); [done |].
    destruct (String.eqb (sha commit) "c2"); done.
  - exists commits. split; [exact Hanswer |]. split; [exact Hlength |].
    rewrite Hrequests. vm_compute. reflexivity.
Defined.

(** The second page fails: the hundred commits of the first are not
    returned. *)
Lemma X10_failed_page_witness :
  fst (GithubCommits.getMonthlyCommitActivity (api := github flaky) 2
         "acme" "widgets" 2024 3 w0) = Return [].
Proof.
  pose proof (X10_failed_page_discards_the_pages_before
                (api := github flaky) 2 "acme" "widgets" 2024 3
                marchStart marchEnd
                (fun _ => repeat (mkCommitStub "c1") 100) 2
                (mkError "Bad Gateway") w0) as Hrun.
  cbv zeta in Hrun. rewrite Hrun; [reflexivity | ..].
  - vm_compute. reflexivity.
  - vm_compute. reflexivity.
  - lia.
  - intros i Hi. assert (i = 1) as -> by lia.
    split; [reflexivity | vm_compute; lia].
  - reflexivity.
  - vm_compute. lia.
Defined.

(** A failing client: neither fetcher throws. *)
Lemma X11_fetchers_catch_witness :
  fst (GithubCommits.getMonthlyCommitActivity (api := github (silent true)) 1
         "acme" "widgets" 2024 3 w0) ≠ Throw (mkError "Bad Gateway")
  ∧ fst (GithubIssues.getMonthlyIssueActivity (api := github (silent true))
           "acme" "widgets" 2024 3 w0) ≠ Throw (mkError "Bad Gateway").
Proof.
  apply (X11_fetchers_catch_every_throw (api := github (silent true)) 1
           "acme" "widgets" 2024 3 marchStart marchEnd w0
           (mkError "Bad Gateway")); vm_compute; reflexivity.
Defined.

(** The issues of March 2024: one request, and what is returned lies in
    the window. *)
Lemma X12_issue_fetcher_witness :
  let api := github (acme (Return [lastDayIssue; midMonthIssue; earlyIssue])) in
  let run :=
    GithubIssues.getMonthlyIssueActivity (api := api) "acme" "widgets" 2024 3
      w0 in
  ∃ kept,
    fst run = Return (map (GithubIssues.issueOf "widgets") kept)
    ∧ Permutation kept
        (List.filter (GithubIssues.inWindow marchStart marchEnd)
           [lastDayIssue; midMonthIssue; earlyIssue])
    ∧ requests (snd run)
      = (requests w0 ++ [ListForRepo "acme" "widgets" marchStart marchEnd])%list.
Proof.
  cbv zeta.
  destruct (X12_issue_fetcher_keeps_the_window
              (api := github (acme (Return [lastDayIssue; midMonthIssue;
                                            earlyIssue])))
              "acme" "widgets" 2024 3 marchStart marchEnd
              [lastDayIssue; midMonthIssue; earlyIssue] w0)
    as (kept & Hanswer & Hkept & _ & _ & Hrequests);
    [vm_compute; reflexivity.. |].
  exists kept. split; [exact Hanswer |]. split; [exact Hkept | exact Hrequests].
Defined.

(** In UTC, March 2024 runs from its first midnight to the midnight thirty
    days later. *)
Lemma X13_window_witness :
  iso_time marchEnd
  = iso_time marchStart + (daysInMonth (fullYear 2024) (3 - 1) - 1) * JS.msPerDay.
Proof.
  destruct (X13_window_is_first_to_last_midnight 0 2024 3 marchStart marchEnd)
    as (_ & _ & _ & _ & Hend & _);
    [intros t isUTC; reflexivity | lia | vm_compute; reflexivity
    | vm_compute; reflexivity |].
  exact Hend.
Defined.

(** January of the year 275761. *)
Lemma X14_year_beyond_the_calendar_witness :
  GithubIssues.getMonthlyIssueActivity (api := github (silent false))
    "acme" "widgets" 275761 1 w0
  = (Throw (mkError "Invalid time value"), w0).
Proof.
  destruct (X14_year_beyond_the_calendar_throws
              (api := github (silent false)) 1 "acme" "widgets" 275761 1 w0)
    as [_ Hissues];
    [lia | lia | intros t; vm_compute; split; discriminate |].
  exact Hissues.
Defined.

(** The report of [widgets] is there and [--replace] was not given: the
    round asks GitHub nothing and leaves the file. *)
Lemma X18_skipped_repository_witness :
  let api := github (acme (Return [])) in
  let run :=
    Github.processRepository marchArgs act_commits
      (GithubCommits.generateMonthlyReport (api := api) 3) "acme"
      activityConfig (mkRepo "widgets") written in
  fst run = Return tt
  ∧ requests (snd run) = requests written
  ∧ disk (snd run) = disk written.
Proof.
  cbv zeta.
  destruct (X18_skipped_repository_is_not_fetched
              (GithubCommits.generateMonthlyReport
                 (api := github (acme (Return []))) 3)
              (fun _ _ _ _ => ret None)
              marchArgs act_commits "acme" activityConfig (mkRepo "widgets")
              written)
    as (_ & Hanswer & Hrequests & Hdisk & _); [vm_compute; reflexivity |].
  split; [exact Hanswer |]. split; [exact Hrequests | exact Hdisk].
Defined.

(** Once the commit report of [widgets] is written, a second round leaves
    the files, also when GitHub fails then. *)
Lemma X20_second_round_witness :
  let first :=
    Github.processRepository marchArgs act_commits
      (generatorOf (api := github (acme (Return []))) 3 act_commits) "acme"
      activityConfig (mkRepo "widgets") w0 in
  let second :=
    Github.processRepository marchArgs act_commits
      (generatorOf (api := github (silent true)) 1 act_commits) "acme"
      activityConfig (mkRepo "widgets") (snd first) in
  fst second = Return tt
  ∧ requests (snd second) = requests (snd first)
  ∧ disk (snd second) = disk (snd first).
Proof.
  cbv zeta.
  destruct (X20_second_round_writes_nothing
              (api := github (acme (Return []))) (github (silent true)) 3 1
              marchArgs act_commits "acme" activityConfig (mkRepo "widgets") w0)
    as [Hwritten _]; [reflexivity | vm_compute; reflexivity |].
  apply (Hwritten
           (returned (GithubCommits.generateMonthlyReport
                        (api := github (acme (Return [])))
                        3 "acme" "widgets" 2024 3 w0)));
    vm_compute; reflexivity.
Defined.

(** The commit report of [widgets] for March 2024 starts with its title
    line, in a month in which the issue report is [null]. *)
Lemma X21_report_witness :
  let api := github (acme (Return [])) in
  let report :=
    returned (GithubCommits.generateMonthlyReport (api := api) 3 "acme"
                "widgets" 2024 3 w0) in
  fst (GithubIssues.generateMonthlyReport (api := api) "acme" "widgets"
         2024 3 w0) = Return None
  ∧ ∃ args commits,
      report
      = "# GitHub Commits in widgets owned by acme for March 2024" ++ LF ++ LF
        ++ GithubCommits.reportBody (Github.format args) "acme" "widgets"
             "March" 2024 commits.
Proof.
  cbv zeta. split; [vm_compute; reflexivity |].
  destruct (X21_report_is_header_and_body
              (api := github (acme (Return [])))
              3 "acme" "widgets" 2024 3 w0) as [Hcommits _].
  destruct (Hcommits
              (returned (GithubCommits.generateMonthlyReport
                           (api := github (acme (Return [])))
                           3 "acme" "widgets" 2024 3 w0)))
    as (args & commits & _ & _ & _ & Hreport & _); [vm_compute; reflexivity |].
  exists args, commits. exact Hreport.
Defined.


(** On a host that refuses the file of [widgets] before it is opened, the
    round ends with the error and the files are as before. *)
Lemma X23_refused_write_witness :
  let readOnly := host (String.eqb widgetsCommitsPath) in
  let api := github (acme (Return [])) in
  let run :=
    Github.processRepository (host := readOnly) marchArgs act_commits
      (generatorOf (host := readOnly) (api := api) 3 act_commits) "acme"
      activityConfig (mkRepo "widgets") w0 in
  fst run
  = Throw (mkError ("EACCES: permission denied, open " ++ widgetsCommitsPath))
  ∧ disk (snd run) = disk w0.
Proof.
  cbv zeta.
  destruct (X23_refused_write_ends_the_round
              (host := host (String.eqb widgetsCommitsPath))
              (api := github (acme (Return []))) 3 marchArgs act_commits
              "acme" activityConfig (mkRepo "widgets") w0
              (returned (GithubCommits.generateMonthlyReport
                           (host := host (String.eqb widgetsCommitsPath))
                           (api := github (acme (Return [])))
                           3 "acme" "widgets" 2024 3 w0))
              (mkError ("EACCES: permission denied, open "
                        ++ widgetsCommitsPath)))
    as (Hthrow & _ & _ & Hdisk); [vm_compute; reflexivity.. |].
  split; [exact Hthrow |]. apply Hdisk. reflexivity.
Defined.
(** Without [--type] the script stops with its usage line. *)
Lemma X4_backfill_type_witness :
  Backfill.parseCommandLineArgs ["--verbose"]
  = Throw (mkError "Usage: --type [issues|commits]").
Proof.
  apply (X4_backfill_type_is_required ["--verbose"]).
  apply (bool_decide_unpack _). vm_compute. exact I.
Defined.

(** The message of [longCommit] is cut to 1024 characters. *)
Lemma X15_message_field_witness :
  String.length
    (GithubCommits.truncate1024
       (GithubCommits.escape (GithubCommits.message longCommit))) = 1024%nat.
Proof.
  destruct (X15_message_field_is_bounded (GithubCommits.message longCommit))
    as (_ & _ & _ & Hcut).
  destruct Hcut as [Hlength _]; [vm_compute; lia | exact Hlength].
Defined.

(** The 51 files of [longCommit] are listed as 50 entries. *)
Lemma X16_file_list_witness :
  length (GithubCommits.truncatedFiles (GithubCommits.files longCommit))
  = Nat.min (length (GithubCommits.files longCommit)) 50.
Proof.
  apply (X16_file_list_is_bounded (GithubCommits.files longCommit)).
Defined.

(** A message without comma and newline is embedded as it is. *)
Lemma X17_escape_witness :
  GithubCommits.escape "Bump version" = "Bump version".
Proof.
  apply (X17_escape_is_idempotent "Bump version"); vm_compute; reflexivity.
Defined.

(** The run for March 2024 on the world that has the report of [widgets]
    changes the file of [gadgets], which GitHub listed and which was not
    there. *)
Lemma X19_run_keeps_witness :
  ∃ repos repo_,
    repos_listForAuthenticatedUser (GitHub := github (acme (Return [])))
      (Some "token") = Return repos
    ∧ repo_ ∈ repos
    ∧ gadgetsCommitsPath
      = Github.outputPathOf marchArgs act_commits "acme" repo_
    ∧ disk written !! gadgetsCommitsPath = None.
Proof.
  destruct (X19_run_keeps_the_files (api := github (acme (Return []))) 3
              marchArgs act_commits written gadgetsCommitsPath)
    as [_ Hchanged].
  destruct Hchanged
    as (cfg & ownerConfig & login & repos & repo_ & _ & _ & Hlogin & Hrepos
        & Hin & Hpath & _ & _ & Hnew).
  { vm_compute. discriminate. }
  injection Hlogin as <-.
  exists repos, repo_. split; [exact Hrepos |]. split; [exact Hin |].
  split; [exact Hpath |]. destruct Hnew as [Hreplace | Hnone];
    [discriminate Hreplace | exact Hnone].
Defined.

(** An issue closed in the month of its creation and touched later has a
    label of a closed issue. *)
Lemma X24_label_witness :
  GithubIssues.operation (GithubIssues.issueOf "widgets" closedIssue)
  ∈ closedIssueLabels.
Proof.
  pose proof (X24_label_follows_closed_at "widgets" closedIssue) as Hlabel.
  assert (or_null (closed_at closedIssue) = Some "2024-03-04T10:00:00Z")
    as Hclosed by reflexivity.
  rewrite Hclosed in Hlabel. exact (proj1 Hlabel).
Defined.
End FurtherExamples.
